(** * OnnxDenoiser: streaming neural denoising pipeline

    A shallow embedding of [Source/DSP/OnnxDenoiser.h] and
    [Source/DSP/OnnxDenoiser.cpp] (the build with [ENABLE_ONNX_RUNTIME]
    defined), and the properties of its ring buffer, backend selection,
    session lifecycle and block processing; further the callers of the
    denoiser in [Source/GUI] and [Source/DSP/Decrackle.cpp].

    Conventions of the embedding:
    - C++ [int] values are mathematical integers ([Z]); signed overflow is
      undefined behaviour in C++ and no wrap-around is modelled.
    - [float] is IEEE-754 binary32 and [double] is binary64, both as
      [spec_float] with the operations of [SpecFloat] at the matching
      precision.
    - [std::vector<float>] and raw sample arrays are [list float32];
      [memcpy] and [std::fill] overwrite a range in place and never change
      the length of the destination (a write that would run past the end
      of the destination is cut off in the model; in C++ it is undefined).
    - the arrays the code copies from and to are as large as the copies
      need wherever the code sizes them itself; the one copy whose length
      comes from outside, the [push] of the interpolator's return value
      out of [tempIn] in [processChannel], yields [None] when it would
      read past the end of [tempIn].
    - a loop whose termination depends on the state runs on fuel and yields
      [None] when the fuel runs out; the callers supply fuel that is enough
      for every well-formed state, and this is proved.
    - the ONNX runtime, the JUCE interpolator, the file system and the
      process environment are parameters of the model. *)

From Stdlib Require Import ZArith Lia Bool String Ascii.
From Stdlib Require Import Floats.SpecFloat.
From stdpp Require Import base option list.

Local Open Scope Z_scope.

(** ** Floating point *)

Definition float32 : Type := spec_float.
Definition double : Type := spec_float.

Module F32.
Definition prec : Z := 24.
Definition emax : Z := 128.
Definition zero : float32 := S754_zero false.
Definition one : float32 := SFone prec emax.
Definition add : float32 -> float32 -> float32 := SFadd prec emax.
Definition sub : float32 -> float32 -> float32 := SFsub prec emax.
Definition mul : float32 -> float32 -> float32 := SFmul prec emax.
Definition ltb : float32 -> float32 -> bool := SFltb.
Definition leb : float32 -> float32 -> bool := SFleb.
(** [num / 2^sh] as a binary32 value, for writing literals. *)
Definition of_ratio2 (num : Z) (sh : Z) : float32 :=
  binary_normalize prec emax num (- sh) false.
End F32.

Module F64.
Definition prec : Z := 53.
Definition emax : Z := 1024.
Definition mul : double -> double -> double := SFmul prec emax.
Definition div : double -> double -> double := SFdiv prec emax.
(** Conversion [int -> double]; exact for every 32-bit [int]. *)
Definition of_int (n : Z) : double := binary_normalize prec emax n 0 false.
(** [(int) std::ceil (x)] for a finite [x]; the conversion of an infinity
    or a NaN to [int] is undefined in C++ and is [0] here. *)
Definition ceil_to_int (x : double) : Z :=
  match x with
  | S754_finite s m e =>
      let v := if s then Z.neg m else Z.pos m in
      if 0 <=? e then v * 2 ^ e else - ((- v) / 2 ^ (- e))
  | _ => 0
  end.
End F64.

#[global] Instance float32_inhabited : Inhabited float32 := populate F32.zero.

(** [juce::jmin], [juce::jmax] on [int] and [juce::jlimit] on [float]. *)
Definition jmin (a b : Z) : Z := if b <? a then b else a.
Definition jmax (a b : Z) : Z := if a <? b then b else a.
Definition jlimit (lowerLimit upperLimit valueToConstrain : float32) : float32 :=
  if F32.ltb valueToConstrain lowerLimit then lowerLimit
  else if F32.ltb upperLimit valueToConstrain then upperLimit
  else valueToConstrain.

(** ** Raw array operations *)

(** [std::memcpy (dst + doff, src + soff, sizeof (float) * n)]. *)
Definition memcpy (dst : list float32) (doff : Z) (src : list float32) (soff n : Z)
  : list float32 :=
  list_inserts (Z.to_nat doff) (take (Z.to_nat n) (drop (Z.to_nat soff) src)) dst.

(** [std::fill (a + first, a + last, v)]. *)
Definition fill_range (a : list float32) (first last : Z) (v : float32) : list float32 :=
  list_inserts (Z.to_nat first) (replicate (Z.to_nat (last - first)) v) a.

(** [std::vector<float>::resize (n)]: keeps the leading elements and pads
    with zeros. *)
Definition vec_resize (v : list float32) (n : Z) : list float32 :=
  take (Z.to_nat n) v ++ replicate (Z.to_nat n - length v) F32.zero.

(** The last [n] elements of a list. *)
Definition lastn {A} (n : nat) (l : list A) : list A := drop (length l - n) l.

(** ** Execution providers *)

Inductive Provider := autoSelect | cpu | dml | qnn | cuda | rocm | coreml.

#[global] Instance Provider_eq_dec : EqDecision Provider.
Proof. solve_decision. Defined.

#[global] Instance string_eq_dec : EqDecision string := string_dec.

Module JuceString.
(** [juce::String::toLowerCase] and [juce::String::trim] on 8-bit text. *)
Definition toLowerChar (c : ascii) : ascii :=
  let n := nat_of_ascii c in
  if (Nat.leb 65 n && Nat.leb n 90)%bool then ascii_of_nat (n + 32) else c.

Definition isWhitespace (c : ascii) : bool :=
  let n := nat_of_ascii c in
  (Nat.eqb n 32 || (Nat.leb 9 n && Nat.leb n 13))%bool.

Fixpoint toLowerCase (s : string) : string :=
  match s with
  | EmptyString => EmptyString
  | String c s' => String (toLowerChar c) (toLowerCase s')
  end.

Fixpoint trimStart (s : string) : string :=
  match s with
  | EmptyString => EmptyString
  | String c s' => if isWhitespace c then trimStart s' else s
  end.

Fixpoint trimEnd (s : string) : string :=
  match s with
  | EmptyString => EmptyString
  | String c s' =>
      match trimEnd s' with
      | EmptyString => if isWhitespace c then EmptyString else String c EmptyString
      | t => String c t
      end
  end.

Definition trim (s : string) : string := trimEnd (trimStart s).
Definition isEmpty (s : string) : bool := if string_dec s "" then true else false.
End JuceString.

Definition providerToString (provider : Provider) : string :=
  match provider with
  | autoSelect => "Auto"
  | cpu => "CPU"
  | dml => "DML"
  | qnn => "QNN"
  | cuda => "CUDA"
  | rocm => "ROCM"
  | coreml => "CoreML"
  end.

Definition providerFromString (name : string) : Provider :=
  let normalized := JuceString.toLowerCase (JuceString.trim name) in
  if String.eqb normalized "cpu" then cpu
  else if (String.eqb normalized "dml" || String.eqb normalized "directml")%bool then dml
  else if (String.eqb normalized "qnn" || String.eqb normalized "npu")%bool then qnn
  else if String.eqb normalized "cuda" then cuda
  else if String.eqb normalized "rocm" then rocm
  else if String.eqb normalized "coreml" then coreml
  else autoSelect.

(** The two functions of the build without [ENABLE_ONNX_RUNTIME]. *)
Definition providerToString_disabled (provider : Provider) : string := "Disabled".
Definition providerFromString_disabled (name : string) : Provider := cpu.

(** [OnnxDenoiser::getProviderFallbackOrder], as a function of the two
    fields it reads. *)
Definition appendUnique (order : list Provider) (provider : Provider) : list Provider :=
  if bool_decide (provider ∈ order) then order else order ++ [provider].

Definition providerFallbackOrder (preferredProvider : Provider) (allowFallback : bool)
  : list Provider :=
  if (negb allowFallback && negb (bool_decide (preferredProvider = autoSelect)))%bool
  then [preferredProvider]
  else if bool_decide (preferredProvider = autoSelect)
  then [qnn; dml; cuda; rocm; coreml; cpu]
  else
    let order := appendUnique [] preferredProvider in
    if allowFallback then
      let order := appendUnique order qnn in
      let order := appendUnique order dml in
      let order := appendUnique order cuda in
      let order := appendUnique order rocm in
      let order := appendUnique order coreml in
      appendUnique order cpu
    else order.

(** ** RingBuffer *)

Module RingBuffer.

Record t := mk {
  buffer : list float32;
  capacity : Z;
  readIndex : Z;
  writeIndex : Z;
  availableSamples : Z
}.

(** The default-constructed struct. *)
Definition init : t :=
  {| buffer := []; capacity := 0; readIndex := 0; writeIndex := 0;
     availableSamples := 0 |}.

Definition available (rb : t) : Z := availableSamples rb.

Definition resize (rb : t) (newCapacity : Z) : t :=
  let capacity := jmax newCapacity 1 in
  {| buffer := replicate (Z.to_nat capacity) F32.zero;
     capacity := capacity;
     readIndex := 0; writeIndex := 0; availableSamples := 0 |}.

Definition clear (rb : t) : t :=
  {| buffer := replicate (length (buffer rb)) F32.zero;
     capacity := capacity rb;
     readIndex := 0; writeIndex := 0; availableSamples := 0 |}.

(** The [while (remaining > 0)] loop of [push]; yields the store and
    [writeIndex]. *)
Fixpoint push_loop (fuel : nat) (capacity : Z) (data : list float32) (count : Z)
    (buf : list float32) (writeIndex remaining : Z) : option (list float32 * Z) :=
  if remaining <=? 0 then Some (buf, writeIndex)
  else match fuel with
       | O => None
       | S fuel' =>
           let space := capacity - writeIndex in
           let toCopy := jmin space remaining in
           let buf' := memcpy buf writeIndex data (count - remaining) toCopy in
           let writeIndex' := Z.rem (writeIndex + toCopy) capacity in
           push_loop fuel' capacity data count buf' writeIndex' (remaining - toCopy)
       end.

Definition push (rb : t) (data : list float32) (count : Z) : option t :=
  if count <=? 0 then Some rb
  else
    let count := if capacity rb <? count then capacity rb else count in
    '(buf, w) ← push_loop (Z.to_nat count) (capacity rb) data count
                  (buffer rb) (writeIndex rb) count;
    let avail := jmin (capacity rb) (availableSamples rb + count) in
    Some {| buffer := buf;
            capacity := capacity rb;
            readIndex := if avail =? capacity rb then w else readIndex rb;
            writeIndex := w;
            availableSamples := avail |}.

(** The [while (remaining > 0)] loop of [pop]; yields [dest] and
    [readIndex]. *)
Fixpoint pop_loop (fuel : nat) (capacity : Z) (buf : list float32) (toRead : Z)
    (dest : list float32) (readIndex remaining : Z) : option (list float32 * Z) :=
  if remaining <=? 0 then Some (dest, readIndex)
  else match fuel with
       | O => None
       | S fuel' =>
           let space := capacity - readIndex in
           let toCopy := jmin space remaining in
           let dest' := memcpy dest (toRead - remaining) buf readIndex toCopy in
           let readIndex' := Z.rem (readIndex + toCopy) capacity in
           pop_loop fuel' capacity buf toRead dest' readIndex' (remaining - toCopy)
       end.

(** [pop] yields the buffer, the destination array and the returned
    count. *)
Definition pop (rb : t) (dest : list float32) (count : Z) (fillWithZeros : bool)
  : option (t * list float32 * Z) :=
  if count <=? 0 then Some (rb, dest, 0)
  else
    let toRead := jmin count (availableSamples rb) in
    '(dest', r) ← pop_loop (Z.to_nat toRead) (capacity rb) (buffer rb) toRead
                    dest (readIndex rb) toRead;
    let rb' := {| buffer := buffer rb;
                  capacity := capacity rb;
                  readIndex := r;
                  writeIndex := writeIndex rb;
                  availableSamples := availableSamples rb - toRead |} in
    let dest'' := if (fillWithZeros && (toRead <? count))%bool
                  then fill_range dest' toRead count F32.zero else dest' in
    Some (rb', dest'', toRead).

(** The samples the buffer holds, oldest first: [availableSamples]
    elements of the store, from [readIndex], wrapping at [capacity]. *)
Definition contents (rb : t) : list float32 :=
  (fun k => buffer rb !!! Z.to_nat ((readIndex rb + k) `mod` capacity rb))
    <$> seqZ 0 (availableSamples rb).

(** The representation invariant of every buffer the program builds. *)
Definition wf (rb : t) : Prop :=
  length (buffer rb) = Z.to_nat (capacity rb) /\
  0 <= availableSamples rb <= capacity rb /\
  ((capacity rb = 0 /\ readIndex rb = 0 /\ writeIndex rb = 0) \/
   (0 <= readIndex rb < capacity rb /\
    0 <= writeIndex rb < capacity rb /\
    writeIndex rb = (readIndex rb + availableSamples rb) `mod` capacity rb)).

(** The invariant as a check that can be run. *)
Definition wfb (rb : t) : bool :=
  (Nat.eqb (length (buffer rb)) (Z.to_nat (capacity rb))
   && (0 <=? availableSamples rb) && (availableSamples rb <=? capacity rb)
   && (((capacity rb =? 0) && (readIndex rb =? 0) && (writeIndex rb =? 0))
       || ((0 <=? readIndex rb) && (readIndex rb <? capacity rb)
           && (0 <=? writeIndex rb) && (writeIndex rb <? capacity rb)
           && (writeIndex rb =? (readIndex rb + availableSamples rb) `mod` capacity rb))))%bool.

(** Calls of the four operations, and running a sequence of them. *)
Inductive op :=
| Resize (newCapacity : Z)
| Clear
| Push (data : list float32) (count : Z)
| Pop (dest : list float32) (count : Z) (fillWithZeros : bool).

Definition step (rb : t) (o : op) : option t :=
  match o with
  | Resize n => Some (resize rb n)
  | Clear => Some (clear rb)
  | Push data count => push rb data count
  | Pop dest count fill => (fun r => r.1.1) <$> pop rb dest count fill
  end.

Fixpoint run (rb : t) (ops : list op) : option t :=
  match ops with
  | [] => Some rb
  | o :: ops' => rb' ← step rb o; run rb' ops'
  end.

End RingBuffer.

(** ** The world outside the class *)

(** [juce::File], by its full path. *)
Definition File : Type := string.

(** What [Ort::Session::Run] hands back: an exception, or the output
    values; an output value is [None] when its [float] data cannot be
    obtained ([GetTensorMutableData] throws). *)
Inductive RunResult :=
| RunThrew
| RunOutputs (outputTensor : list (option (list float32))).

(** The collaborators of the class: file system and environment, build
    flags, the ONNX runtime and [juce::LagrangeInterpolator]. *)
Record Runtime (OrtSession Interp : Type) := {
  (* juce::File *)
  existsAsFile : File -> bool;
  getChildFile : File -> string -> File;
  (* std::getenv ("VRS_MODEL_DIR"), and the directories of
     currentExecutableFile and currentApplicationFile when they exist *)
  env_VRS_MODEL_DIR : option string;
  executableDir : option string;
  applicationDir : option string;
  (* std::atoi (std::getenv ("VRS_DML_DEVICE_ID")) and
     getEnvironmentVariable ("VRS_QNN_BACKEND_PATH", "") *)
  env_VRS_DML_DEVICE_ID : option Z;
  env_VRS_QNN_BACKEND_PATH : string;
  (* ONNX_RUNTIME_USE_DML && JUCE_WINDOWS, ONNX_RUNTIME_USE_CUDA,
     ONNX_RUNTIME_USE_ROCM, ONNX_RUNTIME_USE_COREML with its header *)
  use_dml : bool;
  use_cuda : bool;
  use_rocm : bool;
  use_coreml : bool;
  (* the result of appendDmlProvider, and whether the QNN provider is
     accepted by SessionOptionsAppendExecutionProvider *)
  appendDmlProvider : Z -> bool;
  ortAppendQnn : string -> bool;
  (* Ort::Session construction and queries; None is a thrown exception *)
  ortCreateSession : File -> Provider -> option OrtSession;
  ortInputName : OrtSession -> option string;
  ortOutputName : OrtSession -> option string;
  ortInputShape : OrtSession -> option (list Z);
  (* session->Run on one input tensor of the given shape *)
  ortRun : OrtSession -> string -> string -> list Z -> list float32
           -> OrtSession * RunResult;
  (* juce::LagrangeInterpolator: default construction, reset(), and
     process (speedRatio, in, out, numOut), which yields the samples it
     writes to out and its return value, the number of input samples it
     used *)
  interpNew : Interp;
  interpReset : Interp -> Interp;
  interpProcess : Interp -> double -> list float32 -> Z
                  -> Interp * list float32 * Z
}.

Arguments existsAsFile {_ _}. Arguments getChildFile {_ _}.
Arguments env_VRS_MODEL_DIR {_ _}. Arguments executableDir {_ _}.
Arguments applicationDir {_ _}. Arguments env_VRS_DML_DEVICE_ID {_ _}.
Arguments env_VRS_QNN_BACKEND_PATH {_ _}.
Arguments use_dml {_ _}. Arguments use_cuda {_ _}.
Arguments use_rocm {_ _}. Arguments use_coreml {_ _}.
Arguments appendDmlProvider {_ _}. Arguments ortAppendQnn {_ _}.
Arguments ortCreateSession {_ _}. Arguments ortInputName {_ _}.
Arguments ortOutputName {_ _}. Arguments ortInputShape {_ _}.
Arguments ortRun {_ _}. Arguments interpNew {_ _}.
Arguments interpReset {_ _}. Arguments interpProcess {_ _}.

(** [juce::AudioBuffer<float>]: [getNumSamples()] and the channel arrays;
    [getWritePointer (ch)] is the index [ch] into [channelData]. *)
Record AudioBuffer := {
  numSamplesOf : Z;
  channelData : list (list float32)
}.

Definition getNumSamples (b : AudioBuffer) : Z := numSamplesOf b.
Definition getNumChannels (b : AudioBuffer) : Z := Z.of_nat (length (channelData b)).

(** Sample arrays reachable through pointers, and reads and writes through
    a pointer. *)
Definition Heap : Type := list (list float32).
Definition load (h : Heap) (p : nat) (i : Z) : float32 := (h !!! p) !!! Z.to_nat i.
Definition store (h : Heap) (p : nat) (i : Z) (v : float32) : Heap :=
  <[p := <[Z.to_nat i := v]> (h !!! p)]> h.

(** ** OnnxDenoiser *)

Definition modelSampleRate : double := F64.of_int 48000.
Definition modelFrameSize : Z := 480.

Section Denoiser.
Context {OrtSession Interp : Type} (rt : Runtime OrtSession Interp).

Record ChannelState := {
  resamplerIn : Interp;
  resamplerOut : Interp;
  inputFifo : RingBuffer.t;
  outputFifo : RingBuffer.t;
  tempIn : list float32;
  tempOut : list float32;
  frameIn : list float32;
  frameOut : list float32
}.

Definition newChannelState : ChannelState :=
  {| resamplerIn := interpNew rt; resamplerOut := interpNew rt;
     inputFifo := RingBuffer.init; outputFifo := RingBuffer.init;
     tempIn := []; tempOut := []; frameIn := []; frameOut := [] |}.

Record OnnxDenoiser := {
  hostSampleRate : double;
  numChannels : Z;
  maxBlock : Z;
  enabled : bool;
  resampleInRatio : double;
  resampleOutRatio : double;
  modelPath : File;
  preferredProvider : Provider;
  activeProvider : Provider;
  allowFallback : bool;
  dmlDeviceId : Z;
  qnnBackendPath : string;
  channels : list ChannelState;
  session : option OrtSession;
  inputName : string;
  outputName : string;
  modelInputShape : list Z
}.

(** The object after its constructor. *)
Definition newOnnxDenoiser : OnnxDenoiser :=
  {| hostSampleRate := F64.of_int 44100; numChannels := 2; maxBlock := 0;
     enabled := false;
     resampleInRatio := F64.of_int 1; resampleOutRatio := F64.of_int 1;
     modelPath := ""%string;
     preferredProvider := autoSelect; activeProvider := cpu;
     allowFallback := true; dmlDeviceId := 0; qnnBackendPath := ""%string;
     channels := []; session := None;
     inputName := ""%string; outputName := ""%string; modelInputShape := [] |}.

(** Assignments to single members. *)
Definition with_enabled (d : OnnxDenoiser) (v : bool) : OnnxDenoiser :=
  {| hostSampleRate := hostSampleRate d; numChannels := numChannels d;
     maxBlock := maxBlock d; enabled := v;
     resampleInRatio := resampleInRatio d; resampleOutRatio := resampleOutRatio d;
     modelPath := modelPath d; preferredProvider := preferredProvider d;
     activeProvider := activeProvider d; allowFallback := allowFallback d;
     dmlDeviceId := dmlDeviceId d; qnnBackendPath := qnnBackendPath d;
     channels := channels d; session := session d;
     inputName := inputName d; outputName := outputName d;
     modelInputShape := modelInputShape d |}.

Definition with_modelPath (d : OnnxDenoiser) (v : File) : OnnxDenoiser :=
  {| hostSampleRate := hostSampleRate d; numChannels := numChannels d;
     maxBlock := maxBlock d; enabled := enabled d;
     resampleInRatio := resampleInRatio d; resampleOutRatio := resampleOutRatio d;
     modelPath := v; preferredProvider := preferredProvider d;
     activeProvider := activeProvider d; allowFallback := allowFallback d;
     dmlDeviceId := dmlDeviceId d; qnnBackendPath := qnnBackendPath d;
     channels := channels d; session := session d;
     inputName := inputName d; outputName := outputName d;
     modelInputShape := modelInputShape d |}.

Definition with_preferredProvider (d : OnnxDenoiser) (v : Provider) : OnnxDenoiser :=
  {| hostSampleRate := hostSampleRate d; numChannels := numChannels d;
     maxBlock := maxBlock d; enabled := enabled d;
     resampleInRatio := resampleInRatio d; resampleOutRatio := resampleOutRatio d;
     modelPath := modelPath d; preferredProvider := v;
     activeProvider := activeProvider d; allowFallback := allowFallback d;
     dmlDeviceId := dmlDeviceId d; qnnBackendPath := qnnBackendPath d;
     channels := channels d; session := session d;
     inputName := inputName d; outputName := outputName d;
     modelInputShape := modelInputShape d |}.

Definition with_activeProvider (d : OnnxDenoiser) (v : Provider) : OnnxDenoiser :=
  {| hostSampleRate := hostSampleRate d; numChannels := numChannels d;
     maxBlock := maxBlock d; enabled := enabled d;
     resampleInRatio := resampleInRatio d; resampleOutRatio := resampleOutRatio d;
     modelPath := modelPath d; preferredProvider := preferredProvider d;
     activeProvider := v; allowFallback := allowFallback d;
     dmlDeviceId := dmlDeviceId d; qnnBackendPath := qnnBackendPath d;
     channels := channels d; session := session d;
     inputName := inputName d; outputName := outputName d;
     modelInputShape := modelInputShape d |}.

Definition with_allowFallback (d : OnnxDenoiser) (v : bool) : OnnxDenoiser :=
  {| hostSampleRate := hostSampleRate d; numChannels := numChannels d;
     maxBlock := maxBlock d; enabled := enabled d;
     resampleInRatio := resampleInRatio d; resampleOutRatio := resampleOutRatio d;
     modelPath := modelPath d; preferredProvider := preferredProvider d;
     activeProvider := activeProvider d; allowFallback := v;
     dmlDeviceId := dmlDeviceId d; qnnBackendPath := qnnBackendPath d;
     channels := channels d; session := session d;
     inputName := inputName d; outputName := outputName d;
     modelInputShape := modelInputShape d |}.

Definition with_dmlDeviceId (d : OnnxDenoiser) (v : Z) : OnnxDenoiser :=
  {| hostSampleRate := hostSampleRate d; numChannels := numChannels d;
     maxBlock := maxBlock d; enabled := enabled d;
     resampleInRatio := resampleInRatio d; resampleOutRatio := resampleOutRatio d;
     modelPath := modelPath d; preferredProvider := preferredProvider d;
     activeProvider := activeProvider d; allowFallback := allowFallback d;
     dmlDeviceId := v; qnnBackendPath := qnnBackendPath d;
     channels := channels d; session := session d;
     inputName := inputName d; outputName := outputName d;
     modelInputShape := modelInputShape d |}.

Definition with_qnnBackendPath (d : OnnxDenoiser) (v : string) : OnnxDenoiser :=
  {| hostSampleRate := hostSampleRate d; numChannels := numChannels d;
     maxBlock := maxBlock d; enabled := enabled d;
     resampleInRatio := resampleInRatio d; resampleOutRatio := resampleOutRatio d;
     modelPath := modelPath d; preferredProvider := preferredProvider d;
     activeProvider := activeProvider d; allowFallback := allowFallback d;
     dmlDeviceId := dmlDeviceId d; qnnBackendPath := v;
     channels := channels d; session := session d;
     inputName := inputName d; outputName := outputName d;
     modelInputShape := modelInputShape d |}.

Definition with_channels (d : OnnxDenoiser) (v : list ChannelState) : OnnxDenoiser :=
  {| hostSampleRate := hostSampleRate d; numChannels := numChannels d;
     maxBlock := maxBlock d; enabled := enabled d;
     resampleInRatio := resampleInRatio d; resampleOutRatio := resampleOutRatio d;
     modelPath := modelPath d; preferredProvider := preferredProvider d;
     activeProvider := activeProvider d; allowFallback := allowFallback d;
     dmlDeviceId := dmlDeviceId d; qnnBackendPath := qnnBackendPath d;
     channels := v; session := session d;
     inputName := inputName d; outputName := outputName d;
     modelInputShape := modelInputShape d |}.

Definition with_session (d : OnnxDenoiser) (v : option OrtSession) : OnnxDenoiser :=
  {| hostSampleRate := hostSampleRate d; numChannels := numChannels d;
     maxBlock := maxBlock d; enabled := enabled d;
     resampleInRatio := resampleInRatio d; resampleOutRatio := resampleOutRatio d;
     modelPath := modelPath d; preferredProvider := preferredProvider d;
     activeProvider := activeProvider d; allowFallback := allowFallback d;
     dmlDeviceId := dmlDeviceId d; qnnBackendPath := qnnBackendPath d;
     channels := channels d; session := v;
     inputName := inputName d; outputName := outputName d;
     modelInputShape := modelInputShape d |}.

Definition with_inputName (d : OnnxDenoiser) (v : string) : OnnxDenoiser :=
  {| hostSampleRate := hostSampleRate d; numChannels := numChannels d;
     maxBlock := maxBlock d; enabled := enabled d;
     resampleInRatio := resampleInRatio d; resampleOutRatio := resampleOutRatio d;
     modelPath := modelPath d; preferredProvider := preferredProvider d;
     activeProvider := activeProvider d; allowFallback := allowFallback d;
     dmlDeviceId := dmlDeviceId d; qnnBackendPath := qnnBackendPath d;
     channels := channels d; session := session d;
     inputName := v; outputName := outputName d;
     modelInputShape := modelInputShape d |}.

Definition with_outputName (d : OnnxDenoiser) (v : string) : OnnxDenoiser :=
  {| hostSampleRate := hostSampleRate d; numChannels := numChannels d;
     maxBlock := maxBlock d; enabled := enabled d;
     resampleInRatio := resampleInRatio d; resampleOutRatio := resampleOutRatio d;
     modelPath := modelPath d; preferredProvider := preferredProvider d;
     activeProvider := activeProvider d; allowFallback := allowFallback d;
     dmlDeviceId := dmlDeviceId d; qnnBackendPath := qnnBackendPath d;
     channels := channels d; session := session d;
     inputName := inputName d; outputName := v;
     modelInputShape := modelInputShape d |}.

Definition with_modelInputShape (d : OnnxDenoiser) (v : list Z) : OnnxDenoiser :=
  {| hostSampleRate := hostSampleRate d; numChannels := numChannels d;
     maxBlock := maxBlock d; enabled := enabled d;
     resampleInRatio := resampleInRatio d; resampleOutRatio := resampleOutRatio d;
     modelPath := modelPath d; preferredProvider := preferredProvider d;
     activeProvider := activeProvider d; allowFallback := allowFallback d;
     dmlDeviceId := dmlDeviceId d; qnnBackendPath := qnnBackendPath d;
     channels := channels d; session := session d;
     inputName := inputName d; outputName := outputName d;
     modelInputShape := v |}.

(** *** Inline members of the header *)

Definition setEnabled (d : OnnxDenoiser) (shouldEnable : bool) := with_enabled d shouldEnable.
Definition isEnabled (d : OnnxDenoiser) : bool := enabled d.
Definition isReady (d : OnnxDenoiser) : bool :=
  match session d with Some _ => true | None => false end.
Definition getPreferredProvider (d : OnnxDenoiser) := preferredProvider d.
Definition getActiveProvider (d : OnnxDenoiser) := activeProvider d.
Definition setAllowFallback (d : OnnxDenoiser) (shouldAllow : bool) :=
  with_allowFallback d shouldAllow.
Definition getAllowFallback (d : OnnxDenoiser) := allowFallback d.
Definition setDmlDeviceId (d : OnnxDenoiser) (deviceId : Z) := with_dmlDeviceId d deviceId.
Definition setQnnBackendPath (d : OnnxDenoiser) (path : string) :=
  with_qnnBackendPath d path.

(** *** Configuration setters of the .cpp file; [session.reset()] is the
    assignment of [None]. *)

Definition setModelPath (d : OnnxDenoiser) (file : File) : OnnxDenoiser :=
  with_session (with_modelPath d file) None.

Definition clearModelPath (d : OnnxDenoiser) : OnnxDenoiser :=
  with_session (with_modelPath d ""%string) None.

Definition setPreferredProvider (d : OnnxDenoiser) (provider : Provider) : OnnxDenoiser :=
  with_session (with_preferredProvider d provider) None.

(** *** Backend selection and model loading *)

Definition getProviderFallbackOrder (d : OnnxDenoiser) : list Provider :=
  providerFallbackOrder (preferredProvider d) (allowFallback d).

Definition isProviderUsable (provider : Provider) : bool :=
  match provider with
  | cpu => true
  | dml => use_dml rt
  | qnn => true
  | cuda => use_cuda rt
  | rocm => use_rocm rt
  | coreml => use_coreml rt
  | autoSelect => false
  end.

(** [juce::StringArray::addIfNotAlreadyThere]. *)
Definition addIfNotAlreadyThere (a : list string) (s : string) : list string :=
  if bool_decide (s ∈ a) then a else a ++ [s].

Definition addByProvider (filenamePriority : list string) (provider : Provider)
  : list string :=
  match provider with
  | dml => addIfNotAlreadyThere filenamePriority "rnnoise_48k_olive_dml.onnx"
  | qnn => addIfNotAlreadyThere filenamePriority "rnnoise_48k_olive_qnn.onnx"
  | cuda => addIfNotAlreadyThere filenamePriority "rnnoise_48k_olive_cuda.onnx"
  | rocm => addIfNotAlreadyThere filenamePriority "rnnoise_48k_olive_rocm.onnx"
  | coreml => addIfNotAlreadyThere filenamePriority "rnnoise_48k_olive_coreml.onnx"
  | cpu => filenamePriority
  | autoSelect => filenamePriority
  end.

Definition getModelCandidates (d : OnnxDenoiser) : list File :=
  let searchDirs := match env_VRS_MODEL_DIR rt with Some e => [e] | None => [] end in
  let searchDirs := match executableDir rt with
                    | Some p => addIfNotAlreadyThere searchDirs p
                    | None => searchDirs end in
  let searchDirs := match applicationDir rt with
                    | Some p => addIfNotAlreadyThere searchDirs p
                    | None => searchDirs end in
  let filenamePriority :=
    if bool_decide (preferredProvider d = autoSelect)
    then fold_left addByProvider [qnn; dml; cuda; rocm; coreml] []
    else addByProvider [] (preferredProvider d) in
  let filenamePriority := addIfNotAlreadyThere filenamePriority "rnnoise_48k_olive_cpu.onnx" in
  let filenamePriority := addIfNotAlreadyThere filenamePriority "rnnoise_48k.onnx" in
  concat ((fun dir =>
             let candidateDir := getChildFile rt dir "models" in
             (fun filename => getChildFile rt candidateDir filename) <$> filenamePriority)
          <$> searchDirs).

(** The file-local [appendQnnProvider]. *)
Definition appendQnnProvider (backendPath : string) : bool :=
  if JuceString.isEmpty backendPath then false
  else if negb (existsAsFile rt backendPath) then false
  else ortAppendQnn rt backendPath.

(** Yields the object and the returned flag. A thrown exception is caught
    in the function: the session is reset and [false] is returned. *)
Definition tryCreateSessionForProvider (d : OnnxDenoiser) (file : File)
    (provider : Provider) : OnnxDenoiser * bool :=
  if negb (existsAsFile rt file) then (d, false)
  else
    let d := with_session d None in
    let providerReady :=
      match provider with
      | dml =>
          if use_dml rt then
            let deviceId :=
              if dmlDeviceId d <? 0
              then match env_VRS_DML_DEVICE_ID rt with Some v => v | None => 0 end
              else dmlDeviceId d in
            appendDmlProvider rt deviceId
          else false
      | qnn =>
          let backend := if JuceString.isEmpty (qnnBackendPath d)
                         then env_VRS_QNN_BACKEND_PATH rt else qnnBackendPath d in
          appendQnnProvider backend
      | cuda => use_cuda rt
      | rocm => use_rocm rt
      | coreml => use_coreml rt
      | _ => true
      end in
    if negb providerReady then (d, false)
    else
      match ortCreateSession rt file provider with
      | None => (with_session d None, false)
      | Some s =>
          let d := with_session d (Some s) in
          match ortInputName rt s with
          | None => (with_session d None, false)
          | Some n =>
              let d := with_inputName d n in
              match ortOutputName rt s with
              | None => (with_session d None, false)
              | Some n' =>
                  let d := with_outputName d n' in
                  match ortInputShape rt s with
                  | None => (with_session d None, false)
                  | Some sh =>
                      let d := with_activeProvider (with_modelInputShape d sh) provider in
                      (d, isReady d)
                  end
              end
          end
      end.

(** [for (const auto provider : providers)] with its [continue] and its
    [return true]; the flag tells whether the function returned. *)
Fixpoint tryProviders (d : OnnxDenoiser) (file : File) (providers : list Provider)
  : OnnxDenoiser * bool :=
  match providers with
  | [] => (d, false)
  | provider :: rest =>
      if negb (isProviderUsable provider) then tryProviders d file rest
      else
        let '(d', ok) := tryCreateSessionForProvider d file provider in
        if ok then (d', true) else tryProviders d' file rest
  end.

Fixpoint tryCandidates (d : OnnxDenoiser) (candidates : list File)
    (providers : list Provider) : OnnxDenoiser * bool :=
  match candidates with
  | [] => (d, false)
  | candidate :: rest =>
      if negb (existsAsFile rt candidate) then tryCandidates d rest providers
      else
        let '(d', ok) := tryProviders d candidate providers in
        if ok then (with_modelPath d' candidate, true)
        else tryCandidates d' rest providers
  end.

Definition loadDefaultModelIfNeeded (d : OnnxDenoiser) : OnnxDenoiser * bool :=
  if isReady d then (d, true)
  else
    let providers := getProviderFallbackOrder d in
    let '(d1, ok) :=
      if existsAsFile rt (modelPath d) then tryProviders d (modelPath d) providers
      else (d, false) in
    if ok then (d1, true)
    else tryCandidates d1 (getModelCandidates d1) providers.

Definition loadModelInternal (d : OnnxDenoiser) (file : File) : OnnxDenoiser * bool :=
  tryProviders d file (getProviderFallbackOrder d).

Definition ensureSession (d : OnnxDenoiser) : OnnxDenoiser :=
  if (negb (isReady d) && existsAsFile rt (modelPath d))%bool
  then fst (loadModelInternal d (modelPath d)) else d.

Definition resolveInputShape (d : OnnxDenoiser) (frameSize : Z) : list Z :=
  match modelInputShape d with
  | [] => [1; frameSize]
  | _ =>
      let shape := (fun dim => if dim <? 0 then frameSize else dim) <$> modelInputShape d in
      match shape with
      | [_] => [frameSize]
      | [_; _] => [1; frameSize]
      | [_; _; _] => [1; 1; frameSize]
      | _ => shape
      end
  end.

(** *** prepare and reset *)

(** [std::vector<ChannelState>::resize]. *)
Definition resizeChannels (cs : list ChannelState) (n : Z) : list ChannelState :=
  take (Z.to_nat n) cs ++ replicate (Z.to_nat n - length cs) newChannelState.

Definition prepareChannel (fifoCapacity : Z) (channel : ChannelState) : ChannelState :=
  {| resamplerIn := interpReset rt (resamplerIn channel);
     resamplerOut := interpReset rt (resamplerOut channel);
     inputFifo := RingBuffer.resize (inputFifo channel) fifoCapacity;
     outputFifo := RingBuffer.resize (outputFifo channel) fifoCapacity;
     tempIn := [];
     tempOut := [];
     frameIn := vec_resize (frameIn channel) modelFrameSize;
     frameOut := vec_resize (frameOut channel) modelFrameSize |}.

Definition prepare (d : OnnxDenoiser) (newSampleRate : double)
    (newNumChannels maxBlockSize : Z) : OnnxDenoiser :=
  let fifoCapacity := modelFrameSize * 32 in
  let d :=
    {| hostSampleRate := newSampleRate; numChannels := newNumChannels;
       maxBlock := maxBlockSize; enabled := enabled d;
       resampleInRatio := F64.div newSampleRate modelSampleRate;
       resampleOutRatio := F64.div modelSampleRate newSampleRate;
       modelPath := modelPath d; preferredProvider := preferredProvider d;
       activeProvider := activeProvider d; allowFallback := allowFallback d;
       dmlDeviceId := dmlDeviceId d; qnnBackendPath := qnnBackendPath d;
       channels := prepareChannel fifoCapacity <$> resizeChannels (channels d) newNumChannels;
       session := session d;
       inputName := inputName d; outputName := outputName d;
       modelInputShape := modelInputShape d |} in
  fst (loadDefaultModelIfNeeded d).



(** *** Inference on one frame *)

(** Yields the object (the session may have changed its own state), the
    [output] array and the returned flag. *)
Definition runModel (d : OnnxDenoiser) (input output : list float32) (frameSize : Z)
  : OnnxDenoiser * list float32 * bool :=
  match session d with
  | None => (d, output, false)
  | Some s =>
      let inputShape := resolveInputShape d frameSize in
      let '(s', r) := ortRun rt s (inputName d) (outputName d) inputShape
                        (take (Z.to_nat frameSize) input) in
      let d := with_session d (Some s') in
      match r with
      | RunThrew => (d, output, false)
      | RunOutputs [] => (d, output, false)
      | RunOutputs (None :: _) => (d, output, false)
      | RunOutputs (Some outputData :: _) =>
          let samplesToCopy := jmin frameSize (Z.of_nat (length outputData)) in
          let output := memcpy output 0 outputData 0 samplesToCopy in
          let output := if samplesToCopy <? frameSize
                        then fill_range output samplesToCopy frameSize F32.zero
                        else output in
          (d, output, true)
      end
  end.

(** *** processChannel *)

(** The body of [while (state.inputFifo.available() >= modelFrameSize)]. *)
Definition frameStep (d : OnnxDenoiser) (state : ChannelState)
  : option (OnnxDenoiser * ChannelState) :=
  '(fifoIn, fIn, _) ← RingBuffer.pop (inputFifo state) (frameIn state) modelFrameSize false;
  let '(d', fOut, ok) := runModel d fIn (frameOut state) modelFrameSize in
  fifoOut ← (if ok then RingBuffer.push (outputFifo state) fOut modelFrameSize
             else RingBuffer.push (outputFifo state) fIn modelFrameSize);
  Some (d', {| resamplerIn := resamplerIn state; resamplerOut := resamplerOut state;
               inputFifo := fifoIn; outputFifo := fifoOut;
               tempIn := tempIn state; tempOut := tempOut state;
               frameIn := fIn; frameOut := fOut |}).

Fixpoint frameLoop (fuel : nat) (d : OnnxDenoiser) (state : ChannelState)
  : option (OnnxDenoiser * ChannelState) :=
  if modelFrameSize <=? RingBuffer.available (inputFifo state) then
    match fuel with
    | O => None
    | S fuel' => '(d', state') ← frameStep d state; frameLoop fuel' d' state'
    end
  else Some (d, state).

(** [for (int i = 0; i < numSamples; ++i)
       output[i] = input[i] * dryMix + output[i] * mix;]
    with [input] and [output] read and written through the heap. *)
Fixpoint mixLoop (iters : nat) (i : Z) (h : Heap) (input output : nat)
    (dryMix mix : float32) : Heap :=
  match iters with
  | O => h
  | S iters' =>
      let v := F32.add (F32.mul (load h input i) dryMix) (F32.mul (load h output i) mix) in
      mixLoop iters' (i + 1) (store h output i v) input output dryMix mix
  end.

Definition targetSamplesOf (d : OnnxDenoiser) (numSamples : Z) : Z :=
  F64.ceil_to_int (F64.div (F64.of_int numSamples) (resampleInRatio d)).

Definition requiredModelSamplesOf (d : OnnxDenoiser) (numSamples : Z) : Z :=
  F64.ceil_to_int (F64.mul (resampleOutRatio d) (F64.of_int numSamples)).

(** [input] and [output] are pointers into the heap; the function yields
    the object, the channel state and the heap. [producedSamples] is what
    the interpolator returns, and nothing bounds it by the size of
    [tempIn], from which [push] then reads: [None] when that read leaves
    the array. *)
Definition processChannel (d : OnnxDenoiser) (state : ChannelState) (h : Heap)
    (input output : nat) (numSamples : Z) (mix : float32)
  : option (OnnxDenoiser * ChannelState * Heap) :=
  let targetSamples := targetSamplesOf d numSamples in
  let tIn := if Z.of_nat (length (tempIn state)) <? targetSamples
             then vec_resize (tempIn state) targetSamples else tempIn state in
  let '(rIn, written, producedSamples) :=
    interpProcess rt (resamplerIn state) (resampleInRatio d) (h !!! input) targetSamples in
  let tIn := memcpy tIn 0 written 0 targetSamples in
  (* push copies min (producedSamples, capacity) samples out of
     tempIn.data(); a read past the end of tempIn is undefined *)
  if Z.of_nat (length tIn) <? jmin producedSamples (RingBuffer.capacity (inputFifo state))
  then None else
  fifoIn ← RingBuffer.push (inputFifo state) tIn producedSamples;
  let state := {| resamplerIn := rIn; resamplerOut := resamplerOut state;
                  inputFifo := fifoIn; outputFifo := outputFifo state;
                  tempIn := tIn; tempOut := tempOut state;
                  frameIn := frameIn state; frameOut := frameOut state |} in
  '(d, state) ← frameLoop (Z.to_nat (RingBuffer.available fifoIn)) d state;
  let requiredModelSamples := requiredModelSamplesOf d numSamples in
  let tOut := if Z.of_nat (length (tempOut state)) <? requiredModelSamples
              then vec_resize (tempOut state) requiredModelSamples else tempOut state in
  '(fifoOut, tOut, _) ← RingBuffer.pop (outputFifo state) tOut requiredModelSamples true;
  let '(rOut, written, _) :=
    interpProcess rt (resamplerOut state) (resampleOutRatio d) tOut numSamples in
  let h := <[output := memcpy (h !!! output) 0 written 0 numSamples]> h in
  let state := {| resamplerIn := resamplerIn state; resamplerOut := rOut;
                  inputFifo := inputFifo state; outputFifo := fifoOut;
                  tempIn := tempIn state; tempOut := tOut;
                  frameIn := frameIn state; frameOut := frameOut state |} in
  let h := if F32.ltb mix F32.one
           then mixLoop (Z.to_nat numSamples) 0 h input output (F32.sub F32.one mix) mix
           else h in
  Some (d, state, h).

(** *** processBlock *)

(** [for (int ch = 0; ch < channelsToProcess; ++ch)]: both pointers handed
    to [processChannel] are [buffer.getWritePointer (ch)]. *)
Fixpoint channelLoop (iters : nat) (ch : nat) (d : OnnxDenoiser) (h : Heap)
    (numSamples : Z) (mix : float32) : option (OnnxDenoiser * Heap) :=
  match iters with
  | O => Some (d, h)
  | S iters' =>
      state ← channels d !! ch;
      '(d', state', h') ← processChannel d state h ch ch numSamples mix;
      channelLoop iters' (S ch) (with_channels d' (<[ch := state']> (channels d'))) h'
        numSamples mix
  end.

Definition processBlock (d : OnnxDenoiser) (buffer : AudioBuffer) (mix : float32)
  : option (OnnxDenoiser * AudioBuffer) :=
  if negb (enabled d) then Some (d, buffer)
  else if F32.leb mix F32.zero then Some (d, buffer)
  else
    let '(d, loaded) := loadDefaultModelIfNeeded d in
    if negb loaded then Some (d, buffer)
    else
      let mix := jlimit F32.zero F32.one mix in
      let numSamples := getNumSamples buffer in
      let channelsToProcess :=
        jmin (getNumChannels buffer) (Z.of_nat (length (channels d))) in
      '(d, h) ← channelLoop (Z.to_nat channelsToProcess) 0 d (channelData buffer)
                  numSamples mix;
      Some (d, {| numSamplesOf := numSamplesOf buffer; channelData := h |}).

End Denoiser.

(** ** A concrete runtime: one model file, the identity model, 48 kHz

    At a host rate of 48 kHz both speed ratios are exactly [1.0], where
    [juce::LagrangeInterpolator::process] copies its input to its output
    and returns the number of samples asked for. The model file is present
    or not ([haveModel]); the model returns its input frame, or every run
    throws ([modelRuns]). *)
Module IdentityRuntime.

Definition copyProcess (st : unit) (speedRatio : double) (input : list float32)
    (numOut : Z) : unit * list float32 * Z :=
  (st, take (Z.to_nat numOut) input, numOut).

Definition rt (haveModel modelRuns : bool) : Runtime unit unit :=
  {| existsAsFile := fun f => (haveModel && String.eqb f "model.onnx")%bool;
     getChildFile := fun dir name => (dir ++ "/" ++ name)%string;
     env_VRS_MODEL_DIR := None;
     executableDir := None;
     applicationDir := None;
     env_VRS_DML_DEVICE_ID := None;
     env_VRS_QNN_BACKEND_PATH := ""%string;
     use_dml := false; use_cuda := false; use_rocm := false; use_coreml := false;
     appendDmlProvider := fun _ => false;
     ortAppendQnn := fun _ => false;
     ortCreateSession := fun _ _ => Some tt;
     ortInputName := fun _ => Some "input"%string;
     ortOutputName := fun _ => Some "output"%string;
     ortInputShape := fun _ => Some [1; -1];
     ortRun := fun s _ _ _ input =>
                 (s, if modelRuns then RunOutputs [Some input] else RunThrew);
     interpNew := tt;
     interpReset := fun s => s;
     interpProcess := copyProcess |}.

(** A denoiser with the model path configured, prepared for [nch]
    channels at 48 kHz and enabled. *)
Definition prepared (haveModel modelRuns : bool) (nch maxBlockSize : Z)
  : @OnnxDenoiser unit unit :=
  setEnabled
    (prepare (rt haveModel modelRuns)
       (setModelPath newOnnxDenoiser "model.onnx"%string)
       (F64.of_int 48000) nch maxBlockSize)
    true.

(** Sample values [n / 2^sh]. *)
Definition smp (n sh : Z) : float32 := F32.of_ratio2 n sh.

(** The samples 1, 2, ..., n. *)
Definition ramp (n : nat) : list float32 := (fun k => smp (Z.of_nat k) 0) <$> seq 1 n.

(** A one-channel block of two samples of value 1. *)
Definition twoOnes : AudioBuffer :=
  {| numSamplesOf := 2; channelData := [[smp 1 0; smp 1 0]] |}.

(** A prepared channel whose input FIFO already holds 500 samples, in a
    denoiser whose model throws on every run. *)
Definition fedChannel : @ChannelState unit :=
  let c := default (newChannelState (rt true false))
             (channels (prepared true false 1 512) !! 0%nat) in
  {| resamplerIn := resamplerIn c; resamplerOut := resamplerOut c;
     inputFifo := default (inputFifo c) (RingBuffer.push (inputFifo c) (ramp 500) 500);
     outputFifo := outputFifo c;
     tempIn := tempIn c; tempOut := tempOut c;
     frameIn := frameIn c; frameOut := frameOut c |}.

(** A ring buffer of capacity 4 that holds the samples 1, 2, 3. *)
Definition threeOfFour : RingBuffer.t :=
  default RingBuffer.init
    (RingBuffer.push (RingBuffer.resize RingBuffer.init 4) (ramp 3) 3).

End IdentityRuntime.

(** ** Predicates used by the statements *)

(** Both FIFOs of a channel satisfy the ring-buffer invariant. *)
Definition fifos_wf {Interp : Type} (c : @ChannelState Interp) : Prop :=
  RingBuffer.wf (inputFifo c) /\ RingBuffer.wf (outputFifo c).

(** A vector that is resized exactly when it is shorter than [target], to
    [target] elements: its new size is the larger of the two. *)
Definition grows_to (target : Z) (old new : nat) : Prop :=
  Z.of_nat new = Z.max (Z.of_nat old) target.

(** What processing one block does to the sizes a channel holds: the frame
    arrays and the FIFO capacities stay, the two resample scratch vectors
    have afterwards the larger of their old size and the sample count of
    the block. With both counts 0 all sizes stay. *)
Definition size_step {Interp : Type} (targetSamples requiredModelSamples : Z)
    (c c' : @ChannelState Interp) : Prop :=
  length (frameIn c') = length (frameIn c) /\
  length (frameOut c') = length (frameOut c) /\
  RingBuffer.capacity (inputFifo c') = RingBuffer.capacity (inputFifo c) /\
  RingBuffer.capacity (outputFifo c') = RingBuffer.capacity (outputFifo c) /\
  grows_to targetSamples (length (tempIn c)) (length (tempIn c')) /\
  grows_to requiredModelSamples (length (tempOut c)) (length (tempOut c')).

(** The interpolator, run at [speedRatio], never returns more than the
    number of output samples it was asked for. What it returns is the
    number of input samples it used: one at most for each output sample as
    long as the speed ratio is at most 1. *)
Definition reads_within {OrtSession Interp : Type} (rt : Runtime OrtSession Interp)
    (speedRatio : double) : Prop :=
  forall (st : Interp) (input : list float32) (numOut : Z),
    snd (interpProcess rt st speedRatio input numOut) <= Z.max 0 numOut.


(** The channel vector and the two resampling ratios are the same in both
    objects. *)
Definition same_wiring {OrtSession Interp : Type} (d d' : @OnnxDenoiser OrtSession Interp)
  : Prop :=
  channels d' = channels d /\
  resampleInRatio d' = resampleInRatio d /\
  resampleOutRatio d' = resampleOutRatio d.

(** ** Further parts of the program and predicates for their statements *)

(** The number of elements of a tensor shape. *)
Definition shapeElements (shape : list Z) : Z := fold_right Z.mul 1 shape.

(** A string that is empty or starts with a character that is not white
    space. *)
Definition clean_start (s : string) : Prop :=
  match s with EmptyString => True | String c _ => JuceString.isWhitespace c = false end.

(** The two lists [getModelCandidates] builds before it combines them. *)
Definition modelSearchDirs {OrtSession Interp : Type} (rt : Runtime OrtSession Interp)
  : list string :=
  let searchDirs := match env_VRS_MODEL_DIR rt with Some e => [e] | None => [] end in
  let searchDirs := match executableDir rt with
                    | Some p => addIfNotAlreadyThere searchDirs p
                    | None => searchDirs end in
  match applicationDir rt with
  | Some p => addIfNotAlreadyThere searchDirs p
  | None => searchDirs end.

Definition modelFilenames (preferred : Provider) : list string :=
  let filenamePriority :=
    if bool_decide (preferred = autoSelect)
    then fold_left addByProvider [qnn; dml; cuda; rocm; coreml] []
    else addByProvider [] preferred in
  let filenamePriority := addIfNotAlreadyThere filenamePriority "rnnoise_48k_olive_cpu.onnx" in
  addIfNotAlreadyThere filenamePriority "rnnoise_48k.onnx".

(** The configuration members agree. *)
Definition same_preferences {OrtSession Interp : Type} (d d' : @OnnxDenoiser OrtSession Interp)
  : Prop :=
  preferredProvider d' = preferredProvider d /\
  allowFallback d' = allowFallback d /\
  dmlDeviceId d' = dmlDeviceId d /\
  qnnBackendPath d' = qnnBackendPath d /\
  enabled d' = enabled d.

(** The configuration, the active provider and the model path agree. *)
Definition same_settings {OrtSession Interp : Type} (d d' : @OnnxDenoiser OrtSession Interp)
  : Prop :=
  same_preferences d d' /\
  activeProvider d' = activeProvider d /\
  modelPath d' = modelPath d.

(** Two heaps with the same arrays of the same sizes, equal outside [p]. *)
Definition same_shape_except (p : nat) (h h' : Heap) : Prop :=
  length h' = length h /\
  forall q, length (h' !!! q) = length (h !!! q) /\ (q <> p -> h' !!! q = h !!! q).

(** Zero of either sign, a negative finite value or minus infinity. *)
Definition nonpositive (x : float32) : bool :=
  match x with
  | S754_zero _ => true
  | S754_infinity s => s
  | S754_finite s _ _ => s
  | S754_nan => false
  end.

(** [SettingsManager::DenoiseSettings] with its default member values. *)
Module SettingsManager.
Record DenoiseSettings := {
  provider : string;
  allowFallback : bool;
  dmlDeviceId : Z;
  qnnBackendPath : string;
  modelPath : string
}.
Definition defaults : DenoiseSettings :=
  {| provider := "Auto"; allowFallback := true; dmlDeviceId := 0;
     qnnBackendPath := ""; modelPath := "" |}.
End SettingsManager.

Section CallerDefinitions.
Context {OrtSession Interp : Type} (rt : Runtime OrtSession Interp).

(** [StandaloneWindow::applyDenoiserSettings], on the denoiser it
    configures; [juce::File (path)] is the path. *)
Definition applyDenoiserSettings (realtimeDenoiser : @OnnxDenoiser OrtSession Interp)
    (settings : SettingsManager.DenoiseSettings) : @OnnxDenoiser OrtSession Interp :=
  let d := setPreferredProvider realtimeDenoiser
             (providerFromString (SettingsManager.provider settings)) in
  let d := setAllowFallback d (SettingsManager.allowFallback settings) in
  let d := setDmlDeviceId d (SettingsManager.dmlDeviceId settings) in
  let d := setQnnBackendPath d (SettingsManager.qnnBackendPath settings) in
  if negb (JuceString.isEmpty (SettingsManager.modelPath settings))
  then setModelPath d (SettingsManager.modelPath settings)
  else clearModelPath d.

(** The body of the loop of [ProviderTestThread::run] for one entry, up to
    [result.success = tester.isReady()]; yields the tester. *)
Definition runProviderTest (settings : SettingsManager.DenoiseSettings)
    (provider : Provider) : option (@OnnxDenoiser OrtSession Interp) :=
  let tester := newOnnxDenoiser in
  let tester := setPreferredProvider tester provider in
  let tester := setAllowFallback tester false in
  let tester := setDmlDeviceId tester (SettingsManager.dmlDeviceId settings) in
  let tester := setQnnBackendPath tester (SettingsManager.qnnBackendPath settings) in
  let tester := if negb (JuceString.isEmpty (SettingsManager.modelPath settings))
                then setModelPath tester (SettingsManager.modelPath settings)
                else tester in
  let tester := prepare rt tester (F64.of_int 48000) 1 480 in
  let tester := setEnabled tester true in
  let buffer := {| numSamplesOf := 480; channelData := [replicate 480 F32.zero] |} in
  '(tester, _) ← processBlock rt tester buffer F32.one;
  Some tester.

End CallerDefinitions.


(** What [prepare] leaves in every channel. *)
Definition freshly_prepared {Interp : Type} (c : @ChannelState Interp) : Prop :=
  fifos_wf c /\
  RingBuffer.capacity (inputFifo c) = 15360 /\ RingBuffer.capacity (outputFifo c) = 15360 /\
  RingBuffer.available (inputFifo c) = 0 /\ RingBuffer.available (outputFifo c) = 0 /\
  tempIn c = [] /\ tempOut c = [] /\
  length (frameIn c) = 480%nat /\ length (frameOut c) = 480%nat.


Section Source.
Context {OrtSession Interp : Type} (rt : Runtime OrtSession Interp).






End Source.

(** ** Decrackle *)
Module Decrackle.

(** Further [float] and [double] operations. *)
Definition fabs : float32 -> float32 := SFabs.
Definition fdiv : float32 -> float32 -> float32 := SFdiv F32.prec F32.emax.
Definition dadd : double -> double -> double := SFadd F64.prec F64.emax.
(** [float -> double] (exact) and [double -> float] (round to nearest). *)
Definition to_double (x : float32) : double :=
  match x with
  | S754_finite s m e => binary_normalize F64.prec F64.emax (cond_Zopp s (Z.pos m)) e s
  | _ => x
  end.
Definition to_float (x : double) : float32 :=
  match x with
  | S754_finite s m e => binary_normalize F32.prec F32.emax (cond_Zopp s (Z.pos m)) e s
  | _ => x
  end.
(** [static_cast<float> (int)]. *)
Definition float_of_int (n : Z) : float32 := binary_normalize F32.prec F32.emax n 0 false.
(** [juce::jlimit] on [int]. *)
Definition jlimit_int (lowerLimit upperLimit valueToConstrain : Z) : Z :=
  if valueToConstrain <? lowerLimit then lowerLimit
  else if upperLimit <? valueToConstrain then upperLimit
  else valueToConstrain.

Record t := { factor : float32; averageWidth : Z }.

(** The default member values [0.5f] and [3]. *)
Definition init : t := {| factor := F32.of_ratio2 1 1; averageWidth := 3 |}.

(** [0.01f] is [10737418 / 2^30]. *)
Definition setFactor (dc : t) (newFactor : float32) : t :=
  {| factor := jlimit (F32.of_ratio2 10737418 30) F32.one newFactor;
     averageWidth := averageWidth dc |}.

Definition setAverageWidth (dc : t) (newWidth : Z) : t :=
  {| factor := factor dc; averageWidth := jlimit_int 1 10 newWidth |}.

(** [data[i]] for an [int] index. *)
Definition at_ (data : list float32) (i : Z) : float32 := data !!! Z.to_nat i.

(** [for (int i = 1; i < numSamples; ++i) absSum += std::abs (data[i] - data[i - 1]);] *)
Definition absDeltaSum (data : list float32) (numSamples : Z) : double :=
  fold_left (fun absSum i => dadd absSum (to_double (fabs (F32.sub (at_ data i) (at_ data (i - 1))))))
    (seqZ 1 (numSamples - 1)) (F64.of_int 0).

(** The flags after the loop [for (int i = 2; i < numSamples; ++i)]. *)
Definition flagsOf (data : list float32) (numSamples : Z) (scaledFactor : float32)
  : list bool :=
  fold_left (fun flags i =>
               let dy0 := F32.sub (at_ data (i - 1)) (at_ data (i - 2)) in
               let dy1 := F32.sub (at_ data i) (at_ data (i - 1)) in
               let dy2dx := F32.sub dy1 dy0 in
               if F32.ltb scaledFactor (fabs dy2dx)
               then <[Z.to_nat (i - 1) := true]> flags else flags)
    (seqZ 2 (numSamples - 2)) (replicate (Z.to_nat numSamples) false).

Definition flag (flags : list bool) (i : Z) : bool := default false (flags !! Z.to_nat i).

(** One pass of the body of [for (int i = 0; i < numSamples; ++i)] on
    [temp]. *)
Definition smoothStep (flags : list bool) (numSamples width : Z) (temp : list float32)
    (i : Z) : list float32 :=
  let start := jmax 0 (i - width) in
  let end_ := jmin (numSamples - 1) (i + width) in
  let count := end_ - start + 1 in
  let sum := fold_left (fun sum j => F32.add sum (at_ temp j)) (seqZ start count) F32.zero in
  let mean := if 0 <? count then fdiv sum (float_of_int count) else at_ temp i in
  let neighborFlagged :=
    (flag flags i || ((0 <? i) && flag flags (i - 1))
     || ((i + 1 <? numSamples) && flag flags (i + 1)))%bool in
  if flag flags i then <[Z.to_nat i := mean]> temp
  else if neighborFlagged
       then <[Z.to_nat i := F32.mul (F32.of_ratio2 1 1) (F32.add (at_ temp i) mean)]> temp
       else temp.

(** [meanAbsDelta], [scaledFactor] and the flags of one channel. *)
Definition meanAbsDelta (numSamples : Z) (data : list float32) : float32 :=
  if 1 <? numSamples
  then to_float (F64.div (absDeltaSum data numSamples) (F64.of_int (numSamples - 1)))
  else F32.zero.

Definition scaledFactor (dc : t) (numSamples : Z) (data : list float32) : float32 :=
  F32.mul (factor dc) (meanAbsDelta numSamples data).

Definition crackleFlags (dc : t) (numSamples : Z) (data : list float32) : list bool :=
  flagsOf data numSamples (scaledFactor dc numSamples data).

(** The body of the channel loop on the samples [data] of one channel. *)
Definition processData (dc : t) (numSamples width : Z) (data : list float32)
  : list float32 :=
  let flags := crackleFlags dc numSamples data in
  let temp := take (Z.to_nat numSamples) data in
  let temp := fold_left (smoothStep flags numSamples width) (seqZ 0 numSamples) temp in
  memcpy data 0 temp 0 numSamples.

(** No flag at [i] or next to it. *)
Definition quiet (flags : list bool) (numSamples i : Z) : Prop :=
  flag flags i = false /\
  (0 < i -> flag flags (i - 1) = false) /\
  (i + 1 < numSamples -> flag flags (i + 1) = false).

Definition process (dc : t) (buffer : AudioBuffer) : AudioBuffer :=
  let numSamples := getNumSamples buffer in
  let numChannels := getNumChannels buffer in
  if ((numSamples <? 3) || (numChannels =? 0))%bool then buffer
  else
    let width := jmin (averageWidth dc) (Z.quot numSamples 2) in
    {| numSamplesOf := numSamplesOf buffer;
       channelData := processData dc numSamples width <$> channelData buffer |}.

End Decrackle.

(** ** Further inputs for statements at concrete values *)
Module Examples.
Import IdentityRuntime.

(** A denoiser with the model path configured and nothing loaded yet. *)
Definition unloaded : @OnnxDenoiser unit unit :=
  setModelPath newOnnxDenoiser "model.onnx"%string.

(** The same with the CPU preferred and fallback off. *)
Definition cpuOnly : @OnnxDenoiser unit unit :=
  setAllowFallback (setPreferredProvider unloaded cpu) false.


(** A one-channel block with the samples 1, 2, 3, 4 and its middle two
    samples. *)
Definition fourSamples : AudioBuffer := {| numSamplesOf := 4; channelData := [ramp 4] |}.

(** The samples 1, 2, 3, 9, 1, 2, 3, 4. *)
Definition click : list float32 := ramp 3 ++ [smp 9 0] ++ ramp 4.

(** A prepared channel whose input FIFO holds 1000 samples, two full
    frames, in a denoiser whose model throws on every run. *)
Definition fedTwice : @ChannelState unit :=
  let c := default (newChannelState (rt true false))
             (channels (prepared true false 1 512) !! 0%nat) in
  {| resamplerIn := resamplerIn c; resamplerOut := resamplerOut c;
     inputFifo := default (inputFifo c) (RingBuffer.push (inputFifo c) (ramp 1000) 1000);
     outputFifo := outputFifo c;
     tempIn := tempIn c; tempOut := tempOut c;
     frameIn := frameIn c; frameOut := frameOut c |}.



(** An interpolator that reports the whole block it was handed as used,
    a runtime with it, and a denoiser prepared with it for 96 kHz. *)
Definition usesWholeInput (st : unit) (speedRatio : double) (input : list float32)
    (numOut : Z) : unit * list float32 * Z :=
  (st, take (Z.to_nat numOut) input, Z.of_nat (length input)).

Definition rtWhole : Runtime unit unit :=
  {| existsAsFile := existsAsFile (rt true true);
     getChildFile := getChildFile (rt true true);
     env_VRS_MODEL_DIR := env_VRS_MODEL_DIR (rt true true);
     executableDir := executableDir (rt true true);
     applicationDir := applicationDir (rt true true);
     env_VRS_DML_DEVICE_ID := env_VRS_DML_DEVICE_ID (rt true true);
     env_VRS_QNN_BACKEND_PATH := env_VRS_QNN_BACKEND_PATH (rt true true);
     use_dml := false; use_cuda := false; use_rocm := false; use_coreml := false;
     appendDmlProvider := appendDmlProvider (rt true true);
     ortAppendQnn := ortAppendQnn (rt true true);
     ortCreateSession := ortCreateSession (rt true true);
     ortInputName := ortInputName (rt true true);
     ortOutputName := ortOutputName (rt true true);
     ortInputShape := ortInputShape (rt true true);
     ortRun := ortRun (rt true true);
     interpNew := tt;
     interpReset := fun s => s;
     interpProcess := usesWholeInput |}.

Definition prepared96 : @OnnxDenoiser unit unit :=
  setEnabled
    (prepare rtWhole (setModelPath newOnnxDenoiser "model.onnx"%string)
       (F64.of_int 96000) 1 512)
    true.

(** Settings that ask for the CPU and name the model file. *)
Definition cpuSettings : SettingsManager.DenoiseSettings :=
  {| SettingsManager.provider := "CPU"; SettingsManager.allowFallback := false;
     SettingsManager.dmlDeviceId := 0; SettingsManager.qnnBackendPath := "";
     SettingsManager.modelPath := "model.onnx" |}.

(** Two channels of four samples: silence and a constant 1. *)
Definition constantBlock : AudioBuffer :=
  {| numSamplesOf := 4; channelData := [replicate 4 F32.zero; replicate 4 (smp 1 0)] |}.

End Examples.

(** * Properties *)

(** ** Provider names and fallback order *)

(** C9: the canonical name of every provider maps back to that provider, so
    the round trip name -> identifier -> name is stable; the same holds in
    the build without the ONNX runtime. *)
Theorem provider_name_round_trip (p : Provider) :
  providerFromString (providerToString p) = p /\
  providerToString (providerFromString (providerToString p)) = providerToString p /\
  providerToString_disabled (providerFromString_disabled (providerToString_disabled p))
    = providerToString_disabled p.
Proof. destruct p; repeat split; reflexivity. Qed.

Lemma providerFromString_normalises :
  providerFromString "  DirectML " = dml /\ providerFromString "npu" = qnn /\
  providerFromString "auto" = autoSelect /\ providerFromString "vulkan" = autoSelect.
Proof. repeat split; reflexivity. Qed.

(** C4, as stated, fails for the automatic preference: without fallback it
    still yields the fixed priority order. *)
Lemma fallback_order_auto_not_singleton :
  providerFallbackOrder autoSelect false <> [autoSelect].
Proof. discriminate. Qed.

(** C4 (amended): with fallback disallowed, the order is the one-element
    list of the preferred provider for every provider other than
    [autoSelect], and the fixed priority order for [autoSelect]. *)
Theorem fallback_order_without_fallback (X : Provider) :
  providerFallbackOrder X false =
    if bool_decide (X = autoSelect) then [qnn; dml; cuda; rocm; coreml; cpu] else [X].
Proof. destruct X; reflexivity. Qed.

Lemma fallback_order_NoDup (X : Provider) (allow : bool) :
  NoDup (providerFallbackOrder X allow).
Proof.
  destruct X, allow; vm_compute;
    repeat (apply NoDup_cons; split; [ | ]);
    try apply NoDup_nil_2;
    rewrite ?elem_of_cons, ?elem_of_nil; intuition discriminate.
Qed.

Section Lifecycle.
Context {OrtSession Interp : Type} (rt : Runtime OrtSession Interp).
Implicit Types d : @OnnxDenoiser OrtSession Interp.

Lemma getProviderFallbackOrder_setters d (X : Provider) :
  getProviderFallbackOrder (setAllowFallback (setPreferredProvider d X) false)
  = providerFallbackOrder X false.
Proof. reflexivity. Qed.

(** *** Loading and readiness *)

Lemma tryCreateSessionForProvider_ready d file provider :
  isReady d = false ->
  snd (tryCreateSessionForProvider rt d file provider)
  = isReady (fst (tryCreateSessionForProvider rt d file provider)).
Proof.
  intros Hd. unfold tryCreateSessionForProvider.
  destruct (existsAsFile rt file); simpl; [ | by rewrite Hd ].
  match goal with |- context [negb ?b] => destruct b end; simpl; [ | done ].
  destruct (ortCreateSession rt file provider) as [s | ]; [ | done ].
  destruct (ortInputName rt s); [ | done ].
  destruct (ortOutputName rt s); [ | done ].
  destruct (ortInputShape rt s); done.
Qed.

Lemma tryProviders_ready d file providers :
  isReady d = false ->
  snd (tryProviders rt d file providers)
  = isReady (fst (tryProviders rt d file providers)).
Proof.
  revert d. induction providers as [ | p ps IH ]; intros d Hd; simpl.
  - by rewrite Hd.
  - destruct (isProviderUsable rt p); simpl; [ | by apply IH ].
    pose proof (tryCreateSessionForProvider_ready d file p Hd) as Hc.
    destruct (tryCreateSessionForProvider rt d file p) as [d' ok]; simpl in *.
    destruct ok; [ done | ]. by apply IH.
Qed.

Lemma tryCandidates_ready d candidates providers :
  isReady d = false ->
  snd (tryCandidates rt d candidates providers)
  = isReady (fst (tryCandidates rt d candidates providers)).
Proof.
  revert d. induction candidates as [ | c cs IH ]; intros d Hd; simpl.
  - by rewrite Hd.
  - destruct (existsAsFile rt c); simpl; [ | by apply IH ].
    pose proof (tryProviders_ready d c providers Hd) as Hc.
    destruct (tryProviders rt d c providers) as [d' ok]; simpl in *.
    destruct ok; [ done | ]. by apply IH.
Qed.

(** [loadDefaultModelIfNeeded] returns [true] exactly when a session is
    live afterwards. *)
Lemma loadDefaultModelIfNeeded_ready d :
  snd (loadDefaultModelIfNeeded rt d) = isReady (fst (loadDefaultModelIfNeeded rt d)).
Proof.
  unfold loadDefaultModelIfNeeded.
  destruct (isReady d) eqn:Hd; [ simpl; congruence | ].
  destruct (existsAsFile rt (modelPath d)).
  - pose proof (tryProviders_ready d (modelPath d) (getProviderFallbackOrder d) Hd) as Hc.
    destruct (tryProviders rt d (modelPath d) (getProviderFallbackOrder d)) as [d1 ok].
    simpl in Hc. destruct ok; [ done | ]. by apply tryCandidates_ready.
  - by apply tryCandidates_ready.
Qed.

(** C5 (amended): [setModelPath], [clearModelPath] and
    [setPreferredProvider] destroy the session, so [isReady()] is false
    right after each of them, and a later load makes it true exactly when
    it succeeds; [setAllowFallback] only stores the flag and leaves the
    session as it is. *)
Theorem setters_and_session d (file : File) (provider : Provider) (shouldAllow : bool) :
  isReady (setModelPath d file) = false /\
  isReady (clearModelPath d) = false /\
  isReady (setPreferredProvider d provider) = false /\
  session (setAllowFallback d shouldAllow) = session d /\
  allowFallback (setAllowFallback d shouldAllow) = shouldAllow /\
  isReady (fst (loadDefaultModelIfNeeded rt d)) = snd (loadDefaultModelIfNeeded rt d).
Proof.
  repeat split; try reflexivity. symmetry. apply loadDefaultModelIfNeeded_ready.
Qed.

(** *** Bypass *)

(** C10: while the denoiser is disabled, [processBlock] returns at once:
    the buffer, and the object too, are left as they were, for every mix
    value and whatever the session is. *)
Theorem processBlock_disabled d (buffer : AudioBuffer) (mix : float32) :
  enabled d = false ->
  processBlock rt d buffer mix = Some (d, buffer).
Proof. intros H. unfold processBlock. by rewrite H. Qed.

Lemma disabled_initially : enabled (@newOnnxDenoiser OrtSession Interp) = false.
Proof. reflexivity. Qed.

Lemma disabled_after_setEnabled_false d : enabled (setEnabled d false) = false.
Proof. reflexivity. Qed.

(** C1: when no session can be loaded ([loadDefaultModelIfNeeded] fails,
    which leaves [isReady()] false), [processBlock] hands the buffer back
    exactly as it was, for every buffer and every mix value. *)
Theorem processBlock_passthrough_without_session d (buffer : AudioBuffer) (mix : float32) :
  snd (loadDefaultModelIfNeeded rt d) = false ->
  exists d', processBlock rt d buffer mix = Some (d', buffer) /\ isReady d' = false.
Proof.
  intros Hload. unfold processBlock.
  pose proof (loadDefaultModelIfNeeded_ready d) as Hr. rewrite Hload in Hr.
  destruct (enabled d); simpl.
  - destruct (F32.leb mix F32.zero).
    + exists d. split; [ done | ].
      unfold loadDefaultModelIfNeeded in Hload.
      destruct (isReady d); [ discriminate | done ].
    + destruct (loadDefaultModelIfNeeded rt d) as [d' ok]; simpl in *; subst ok.
      by exists d'.
  - exists d. split; [ done | ].
    unfold loadDefaultModelIfNeeded in Hload.
    destruct (isReady d); [ discriminate | done ].
Qed.

(** Every load attempt fails when the runtime cannot build a session. *)
Lemma tryProviders_no_session d file providers :
  (forall f p, ortCreateSession rt f p = None) ->
  snd (tryProviders rt d file providers) = false.
Proof.
  intros Hno. revert d. induction providers as [ | p ps IH ]; intros d; simpl; [ done | ].
  destruct (isProviderUsable rt p); simpl; [ | apply IH ].
  destruct (tryCreateSessionForProvider rt d file p) as [d' ok] eqn:Hc.
  assert (ok = false) as ->; [ | apply IH ].
  unfold tryCreateSessionForProvider in Hc. rewrite Hno in Hc.
  destruct (existsAsFile rt file); simpl in Hc; [ | congruence ].
  match type of Hc with context [negb ?b] => destruct b end; simpl in Hc; congruence.
Qed.

Lemma load_fails_without_runtime_sessions d :
  isReady d = false ->
  (forall f p, ortCreateSession rt f p = None) ->
  snd (loadDefaultModelIfNeeded rt d) = false.
Proof.
  intros Hd Hno. unfold loadDefaultModelIfNeeded. rewrite Hd.
  assert (forall cs d0 ps, snd (tryCandidates rt d0 cs ps) = false) as Hcs.
  { induction cs as [ | c cs IH ]; intros d0 ps; simpl; [ done | ].
    destruct (existsAsFile rt c); simpl; [ | apply IH ].
    pose proof (tryProviders_no_session d0 c ps Hno) as Hp.
    destruct (tryProviders rt d0 c ps) as [d1 ok]; simpl in Hp; subst ok. apply IH. }
  destruct (existsAsFile rt (modelPath d)); [ | apply Hcs ].
  pose proof (tryProviders_no_session d (modelPath d) (getProviderFallbackOrder d) Hno) as Hp.
  destruct (tryProviders rt d (modelPath d) (getProviderFallbackOrder d)) as [d1 ok].
  simpl in Hp; subst ok. apply Hcs.
Qed.

End Lifecycle.

(** ** Arrays and modular arithmetic *)

Lemma jmin_min a b : jmin a b = Z.min a b.
Proof. unfold jmin. destruct (Z.ltb_spec b a); lia. Qed.

Lemma jmax_max a b : jmax a b = Z.max a b.
Proof. unfold jmax. destruct (Z.ltb_spec a b); lia. Qed.

Lemma mod_plus_l a b c : (a `mod` c + b) `mod` c = (a + b) `mod` c.
Proof. apply Zplus_mod_idemp_l. Qed.

Lemma mod_once_up a c : 0 <= a - c < c -> a `mod` c = a - c.
Proof.
  intros H. replace a with ((a - c) + 1 * c) at 1 by ring.
  rewrite Z_mod_plus_full. apply Z.mod_small. lia.
Qed.

Lemma mod_shift a c : 0 < c -> (a + c) `mod` c = a `mod` c.
Proof.
  intros H. replace (a + c) with (a + 1 * c) by ring. apply Z_mod_plus_full.
Qed.

Lemma memcpy_length dst doff src soff n : length (memcpy dst doff src soff n) = length dst.
Proof. apply length_inserts. Qed.

Lemma fill_range_length a first last v : length (fill_range a first last v) = length a.
Proof. apply length_inserts. Qed.

Lemma vec_resize_length v n : length (vec_resize v n) = Z.to_nat n.
Proof. unfold vec_resize. rewrite length_app, length_take, length_replicate. lia. Qed.

Lemma memcpy_lookup dst doff src soff n j :
  0 <= doff -> 0 <= soff -> 0 <= n -> 0 <= j ->
  soff + n <= Z.of_nat (length src) -> doff + n <= Z.of_nat (length dst) ->
  memcpy dst doff src soff n !!! Z.to_nat j =
    if ((doff <=? j) && (j <? doff + n))%bool
    then src !!! Z.to_nat (soff + (j - doff)) else dst !!! Z.to_nat j.
Proof.
  intros Hd Hs Hn Hj Hsrc Hdst. unfold memcpy.
  assert (length (take (Z.to_nat n) (drop (Z.to_nat soff) src)) = Z.to_nat n) as Hlen.
  { rewrite length_take, length_drop. lia. }
  destruct (Z.leb_spec doff j); simpl.
  - destruct (Z.ltb_spec j (doff + n)).
    + rewrite list_lookup_total_inserts by lia.
      rewrite lookup_total_take_lt by lia. rewrite lookup_total_drop. f_equal. lia.
    + rewrite list_lookup_total_inserts_ge by lia. done.
  - rewrite list_lookup_total_inserts_lt by lia. done.
Qed.

Lemma list_eq_total (l1 l2 : list float32) :
  length l1 = length l2 ->
  (forall i, 0 <= i < Z.of_nat (length l1) -> l1 !!! Z.to_nat i = l2 !!! Z.to_nat i) ->
  l1 = l2.
Proof.
  intros Hlen Hall. apply (list_eq_same_length _ _ (length l1)); [ done | done | ].
  intros i x y Hi Hx Hy.
  apply list_lookup_total_correct in Hx, Hy.
  specialize (Hall (Z.of_nat i)). rewrite Nat2Z.id in Hall.
  rewrite <- Hx, <- Hy. apply Hall. lia.
Qed.

Lemma lastn_length {A} (n : nat) (l : list A) :
  (n <= length l)%nat -> length (lastn n l) = n.
Proof. intros H. unfold lastn. rewrite length_drop. lia. Qed.

Lemma fill_range_lookup a first last v j :
  0 <= first <= last -> last <= Z.of_nat (length a) -> 0 <= j ->
  fill_range a first last v !!! Z.to_nat j =
    if ((first <=? j) && (j <? last))%bool then v else a !!! Z.to_nat j.
Proof.
  intros Hf Hl Hj. unfold fill_range.
  destruct (Z.leb_spec first j); simpl.
  - destruct (Z.ltb_spec j last).
    + rewrite list_lookup_total_inserts by (rewrite ?length_replicate; lia).
      apply lookup_total_replicate_2. lia.
    + rewrite list_lookup_total_inserts_ge by (rewrite ?length_replicate; lia). done.
  - rewrite list_lookup_total_inserts_lt by lia. done.
Qed.

(** ** RingBuffer *)

Module RingBufferFacts.
Import RingBuffer.

Lemma push_loop_some fuel cap data count buf w rem :
  0 < cap -> 0 <= w < cap -> 0 <= rem -> (Z.to_nat rem <= fuel)%nat ->
  exists buf', push_loop fuel cap data count buf w rem = Some (buf', (w + rem) `mod` cap)
               /\ length buf' = length buf.
Proof.
  intros Hcap. revert buf w rem.
  induction fuel as [ | fuel IH ]; intros buf w rem Hw Hrem Hfuel.
  - assert (rem = 0) as -> by lia. simpl. exists buf.
    rewrite Z.add_0_r, Z.mod_small by lia. done.
  - simpl. destruct (Z.leb_spec rem 0) as [Hle | Hgt].
    + assert (rem = 0) as -> by lia. exists buf.
      rewrite Z.add_0_r, Z.mod_small by lia. done.
    + rewrite jmin_min. set (toCopy := Z.min (cap - w) rem).
      assert (1 <= toCopy <= rem) by (unfold toCopy; lia).
      rewrite Z.rem_mod_nonneg by lia.
      destruct (IH (memcpy buf w data (count - rem) toCopy)
                  ((w + toCopy) `mod` cap) (rem - toCopy)) as (buf' & Heq & Hlen).
      * apply Z.mod_pos_bound; lia.
      * lia.
      * lia.
      * exists buf'. rewrite Heq. split.
        -- rewrite mod_plus_l. do 3 f_equal. lia.
        -- rewrite Hlen. apply memcpy_length.
Qed.

Lemma pop_loop_some fuel cap buf toRead dest r rem :
  0 < cap -> 0 <= r < cap -> 0 <= rem -> (Z.to_nat rem <= fuel)%nat ->
  exists dest', pop_loop fuel cap buf toRead dest r rem = Some (dest', (r + rem) `mod` cap)
                /\ length dest' = length dest.
Proof.
  intros Hcap. revert dest r rem.
  induction fuel as [ | fuel IH ]; intros dest r rem Hr Hrem Hfuel.
  - assert (rem = 0) as -> by lia. simpl. exists dest.
    rewrite Z.add_0_r, Z.mod_small by lia. done.
  - simpl. destruct (Z.leb_spec rem 0) as [Hle | Hgt].
    + assert (rem = 0) as -> by lia. exists dest.
      rewrite Z.add_0_r, Z.mod_small by lia. done.
    + rewrite jmin_min. set (toCopy := Z.min (cap - r) rem).
      assert (1 <= toCopy <= rem) by (unfold toCopy; lia).
      rewrite Z.rem_mod_nonneg by lia.
      destruct (IH (memcpy dest (toRead - rem) buf r toCopy)
                  ((r + toCopy) `mod` cap) (rem - toCopy)) as (dest' & Heq & Hlen).
      * apply Z.mod_pos_bound; lia.
      * lia.
      * lia.
      * exists dest'. rewrite Heq. split.
        -- rewrite mod_plus_l. do 3 f_equal. lia.
        -- rewrite Hlen. apply memcpy_length.
Qed.

Lemma wfb_correct rb : wfb rb = true -> wf rb.
Proof.
  unfold wfb, wf. intros H.
  repeat (apply andb_prop in H; destruct H as [H ?]).
  apply Nat.eqb_eq in H.
  split; [ done | ]. split; [ lia | ].
  match goal with Hor : (_ || _)%bool = true |- _ =>
    apply orb_prop in Hor; destruct Hor as [Hz | Hp] end.
  - left. repeat (apply andb_prop in Hz; destruct Hz as [Hz ?]). lia.
  - right. repeat (apply andb_prop in Hp; destruct Hp as [Hp ?]). lia.
Qed.

Lemma wf_init : wf init.
Proof. unfold wf, init; simpl. lia. Qed.

Lemma wf_resize rb n : wf (resize rb n).
Proof.
  unfold wf, resize; simpl. rewrite jmax_max, length_replicate.
  split; [ lia | ]. split; [ lia | ]. right. rewrite Z.mod_0_l by lia. lia.
Qed.

Lemma wf_clear rb : wf rb -> wf (clear rb).
Proof.
  unfold wf, clear; simpl. rewrite length_replicate.
  intros (Hlen & Hav & Hidx). split; [ lia | ]. split; [ lia | ].
  destruct Hidx as [ (Hc & _) | (Hr & Hw & _) ]; [ left; done | right ].
  rewrite Z.mod_0_l by lia. lia.
Qed.

(** [push] returns on every well-formed buffer, whatever the data, and
    keeps the buffer well formed. *)
Lemma push_wf rb data count :
  wf rb ->
  exists rb', push rb data count = Some rb' /\ wf rb' /\
    capacity rb' = capacity rb /\
    availableSamples rb' =
      (if count <=? 0 then availableSamples rb
       else Z.min (capacity rb) (availableSamples rb + Z.min count (capacity rb))).
Proof.
  intros (Hlen & Hav & Hidx). unfold push.
  destruct (Z.leb_spec count 0) as [Hle | Hgt].
  { exists rb. split_and!; try done. }
  set (c := if capacity rb <? count then capacity rb else count).
  assert (c = Z.min count (capacity rb)) as Hc.
  { unfold c. destruct (Z.ltb_spec (capacity rb) count); lia. }
  destruct Hidx as [ (Hcap & Hr & Hw) | (Hr & Hw & Hrw) ].
  - (* capacity 0: nothing is copied *)
    assert (c = 0) as Hc0 by lia. rewrite Hc0. simpl.
    rewrite jmin_min.
    eexists. split; [ reflexivity | ]. unfold wf; simpl.
    rewrite Hcap, Hw in *. assert (availableSamples rb = 0) as Ha by lia.
    rewrite Ha. simpl. split_and!; try lia; try done.
  - destruct (push_loop_some (Z.to_nat c) (capacity rb) data c (buffer rb) (writeIndex rb) c)
      as (buf' & Heq & Hlen'); try lia.
    rewrite Heq. simpl. rewrite jmin_min.
    eexists. split; [ reflexivity | ].
    assert (0 <= (writeIndex rb + c) `mod` capacity rb < capacity rb) as Hw'
      by (apply Z.mod_pos_bound; lia).
    unfold wf; simpl. split_and!; try lia.
    right. destruct (Z.eqb_spec (Z.min (capacity rb) (availableSamples rb + c)) (capacity rb))
      as [Hfull | Hnot].
    + rewrite Hfull. split_and!; try lia.
      rewrite mod_shift by lia. rewrite Z.mod_mod by lia. done.
    + split_and!; try lia.
      rewrite Hrw at 1. rewrite mod_plus_l. f_equal. lia.
Qed.

(** [pop] returns on every well-formed buffer and keeps it well formed;
    the destination keeps its length. *)
Lemma pop_wf rb dest count fill :
  wf rb ->
  exists rb' dest', pop rb dest count fill
                    = Some (rb', dest', Z.max 0 (Z.min count (availableSamples rb))) /\
    wf rb' /\ capacity rb' = capacity rb /\ buffer rb' = buffer rb /\
    length dest' = length dest /\
    availableSamples rb' = availableSamples rb - Z.max 0 (Z.min count (availableSamples rb)).
Proof.
  intros (Hlen & Hav & Hidx). unfold pop.
  destruct (Z.leb_spec count 0) as [Hle | Hgt].
  { exists rb, dest. replace (Z.max 0 _) with 0 by lia.
    split_and!; try done; lia. }
  rewrite jmin_min. set (n := Z.min count (availableSamples rb)).
  replace (Z.max 0 n) with n by lia.
  assert (exists dest' r', pop_loop (Z.to_nat n) (capacity rb) (buffer rb) n dest
                             (readIndex rb) n = Some (dest', r')
            /\ length dest' = length dest
            /\ ((capacity rb = 0 /\ r' = 0) \/
                (0 < capacity rb /\ r' = (readIndex rb + n) `mod` capacity rb)))
    as (dest' & r' & Heq & Hlen' & Hr').
  { destruct Hidx as [ (Hcap & Hr & Hw) | (Hr & Hw & Hrw) ].
    - assert (n = 0) as -> by lia. simpl. exists dest, (readIndex rb).
      repeat split; try done. left. done.
    - destruct (pop_loop_some (Z.to_nat n) (capacity rb) (buffer rb) n dest (readIndex rb) n)
        as (dest' & Heq & Hlen'); try lia.
      exists dest', ((readIndex rb + n) `mod` capacity rb).
      split_and!; try done. right. split; [ lia | done ]. }
  rewrite Heq. simpl.
  eexists _, _. split; [ reflexivity | ]. simpl.
  split; [ | split_and!; try done ].
  - unfold wf; simpl. split_and!; try lia.
    destruct Hidx as [ (Hcap & Hr & Hw) | (Hr & Hw & Hrw) ].
    + left. destruct Hr' as [ (_ & ->) | (? & _) ]; [ done | lia ].
    + right. destruct Hr' as [ (? & _) | (_ & ->) ]; [ lia | ].
      split; [ apply Z.mod_pos_bound; lia | ]. split; [ lia | ].
      rewrite Hrw at 1. rewrite mod_plus_l. f_equal. lia.
  - destruct (fill && (n <? count))%bool; [ rewrite fill_range_length | ]; done.
Qed.


Lemma contents_length rb :
  length (contents rb) = Z.to_nat (availableSamples rb).
Proof. unfold contents. by rewrite length_fmap, length_seqZ. Qed.

Lemma contents_lookup rb i :
  0 <= i < availableSamples rb ->
  contents rb !!! Z.to_nat i
  = buffer rb !!! Z.to_nat ((readIndex rb + i) `mod` capacity rb).
Proof.
  intros Hi. unfold contents.
  assert (Z.to_nat i < length (seqZ 0 (availableSamples rb)))%nat as Hlt
    by (rewrite length_seqZ; lia).
  rewrite (list_lookup_total_fmap _ (seqZ 0 (availableSamples rb)) (Z.to_nat i) Hlt).
  rewrite lookup_total_seqZ_lt by lia. do 3 f_equal. lia.
Qed.

(** What the copy loop of [push] leaves in the store, by distance [k]
    from the old [writeIndex]. *)
Lemma push_loop_lookup fuel cap data count buf w rem buf' w' :
  0 < cap -> length buf = Z.to_nat cap -> 0 <= w < cap ->
  0 <= rem <= count -> count <= cap -> count <= Z.of_nat (length data) ->
  push_loop fuel cap data count buf w rem = Some (buf', w') ->
  forall k, 0 <= k < cap ->
    buf' !!! Z.to_nat ((w + k) `mod` cap) =
      if k <? rem then data !!! Z.to_nat (count - rem + k)
      else buf !!! Z.to_nat ((w + k) `mod` cap).
Proof.
  intros Hcap Hlen Hw Hrem Hcount Hdata. revert buf w rem Hlen Hw Hrem.
  induction fuel as [ | fuel IH ]; intros buf w rem Hlen Hw Hrem Hrun k Hk.
  - simpl in Hrun. destruct (Z.leb_spec rem 0); [ | discriminate ].
    injection Hrun as <- <-. destruct (Z.ltb_spec k rem); [ lia | done ].
  - simpl in Hrun. destruct (Z.leb_spec rem 0) as [Hle | Hgt].
    { injection Hrun as <- <-. destruct (Z.ltb_spec k rem); [ lia | done ]. }
    rewrite jmin_min in Hrun. set (toCopy := Z.min (cap - w) rem) in *.
    assert (1 <= toCopy <= rem /\ w + toCopy <= cap) as (HtC & HtC') by (unfold toCopy; lia).
    rewrite Z.rem_mod_nonneg in Hrun by lia.
    set (buf1 := memcpy buf w data (count - rem) toCopy) in *.
    assert (length buf1 = Z.to_nat cap) as Hlen1 by (unfold buf1; by rewrite memcpy_length).
    assert (0 <= (w + toCopy) `mod` cap < cap) as Hw1 by (apply Z.mod_pos_bound; lia).
    assert (forall j, 0 <= j < cap ->
              buf1 !!! Z.to_nat j =
                if ((w <=? j) && (j <? w + toCopy))%bool
                then data !!! Z.to_nat (count - rem + (j - w)) else buf !!! Z.to_nat j)
      as Hbuf1.
    { intros j Hj. unfold buf1. apply memcpy_lookup; lia. }
    pose proof (IH buf1 ((w + toCopy) `mod` cap) (rem - toCopy) Hlen1 Hw1
                  ltac:(lia) Hrun) as Hrest.
    destruct (Z.lt_ge_cases k toCopy) as [Hlt | Hge].
    + (* written by this copy and not touched afterwards *)
      specialize (Hrest (k - toCopy + cap) ltac:(lia)).
      rewrite mod_plus_l in Hrest.
      replace (w + toCopy + (k - toCopy + cap)) with (w + k + cap) in Hrest by lia.
      rewrite mod_shift in Hrest by lia.
      destruct (Z.ltb_spec (k - toCopy + cap) (rem - toCopy)); [ lia | ].
      rewrite Hrest. rewrite Z.mod_small by lia.
      rewrite Hbuf1 by lia.
      destruct (Z.leb_spec w (w + k)); [ | lia ].
      destruct (Z.ltb_spec (w + k) (w + toCopy)); [ | lia ]. simpl.
      destruct (Z.ltb_spec k rem); [ | lia ]. f_equal. lia.
    + specialize (Hrest (k - toCopy) ltac:(lia)).
      rewrite mod_plus_l in Hrest.
      replace (w + toCopy + (k - toCopy)) with (w + k) in Hrest by lia.
      rewrite Hrest.
      destruct (Z.ltb_spec (k - toCopy) (rem - toCopy)), (Z.ltb_spec k rem); try lia.
      * f_equal. lia.
      * assert (0 <= (w + k) `mod` cap < cap) as Hp by (apply Z.mod_pos_bound; lia).
        rewrite Hbuf1 by lia.
        destruct (Z.lt_ge_cases (w + k) cap) as [Hsmall | Hwrap].
        -- rewrite Z.mod_small by lia.
           destruct (Z.ltb_spec (w + k) (w + toCopy)); [ lia | ].
           by rewrite andb_false_r.
        -- rewrite mod_once_up by lia.
           destruct (Z.leb_spec w (w + k - cap)); [ lia | done ].
Qed.

(** What the copy loop of [pop] leaves in the destination. *)
Lemma pop_loop_lookup fuel cap buf toRead dest r rem dest' r' :
  0 < cap -> length buf = Z.to_nat cap -> 0 <= r < cap ->
  0 <= rem <= toRead -> rem <= cap -> toRead <= Z.of_nat (length dest) ->
  pop_loop fuel cap buf toRead dest r rem = Some (dest', r') ->
  forall j, 0 <= j ->
    dest' !!! Z.to_nat j =
      if ((toRead - rem <=? j) && (j <? toRead))%bool
      then buf !!! Z.to_nat ((r + (j - (toRead - rem))) `mod` cap)
      else dest !!! Z.to_nat j.
Proof.
  intros Hcap Hlen. revert dest r rem.
  induction fuel as [ | fuel IH ]; intros dest r rem Hr Hrem Hremcap Hdest Hrun j Hj.
  - simpl in Hrun. destruct (Z.leb_spec rem 0); [ | discriminate ].
    injection Hrun as <- <-.
    destruct (Z.leb_spec (toRead - rem) j), (Z.ltb_spec j toRead); simpl; try done; lia.
  - simpl in Hrun. destruct (Z.leb_spec rem 0) as [Hle | Hgt].
    { injection Hrun as <- <-.
      destruct (Z.leb_spec (toRead - rem) j), (Z.ltb_spec j toRead); simpl; try done; lia. }
    rewrite jmin_min in Hrun. set (toCopy := Z.min (cap - r) rem) in *.
    assert (1 <= toCopy <= rem /\ r + toCopy <= cap) as (HtC & HtC') by (unfold toCopy; lia).
    rewrite Z.rem_mod_nonneg in Hrun by lia.
    set (dest1 := memcpy dest (toRead - rem) buf r toCopy) in *.
    assert (length dest1 = length dest) as Hlen1 by (unfold dest1; by rewrite memcpy_length).
    assert (0 <= (r + toCopy) `mod` cap < cap) as Hr1 by (apply Z.mod_pos_bound; lia).
    pose proof (IH dest1 ((r + toCopy) `mod` cap) (rem - toCopy) Hr1
                  ltac:(lia) ltac:(lia) ltac:(lia) Hrun j Hj) as Hrest.
    rewrite Hrest. clear Hrest.
    replace (toRead - (rem - toCopy)) with (toRead - rem + toCopy) by lia.
    unfold dest1. rewrite memcpy_lookup by lia.
    destruct (Z.leb_spec (toRead - rem + toCopy) j), (Z.ltb_spec j toRead),
      (Z.leb_spec (toRead - rem) j), (Z.ltb_spec j (toRead - rem + toCopy));
      simpl; try lia; try done.
    + rewrite mod_plus_l. do 3 f_equal. lia.
    + rewrite Z.mod_small by lia. done.
Qed.


(** [pop] hands out the oldest samples in arrival order, pads with zeros
    when asked to, and leaves the remaining samples in the buffer. *)
Lemma pop_oldest_first rb dest count fill :
  wf rb -> 0 < count <= Z.of_nat (length dest) ->
  let n := Z.min count (availableSamples rb) in
  exists rb' dest',
    pop rb dest count fill = Some (rb', dest', n) /\ wf rb' /\
    capacity rb' = capacity rb /\ length dest' = length dest /\
    contents rb' = drop (Z.to_nat n) (contents rb) /\
    forall j, 0 <= j ->
      dest' !!! Z.to_nat j =
        if j <? n then contents rb !!! Z.to_nat j
        else if (fill && (j <? count))%bool then F32.zero
        else dest !!! Z.to_nat j.
Proof.
  intros Hwf Hcount n.
  destruct (pop_wf rb dest count fill Hwf) as (rb' & dest' & Hpop & Hwf' & Hcap' & Hbuf' & Hlen' & Hav').
  pose proof Hwf as (Hlen & Hav & Hidx).
  replace (Z.max 0 (Z.min count (availableSamples rb))) with n in * by (unfold n; lia).
  exists rb', dest'. split_and!; try done.
  - (* what stays in the buffer *)
    apply list_eq_total.
    { rewrite length_drop, !contents_length. lia. }
    intros i Hi. rewrite contents_length in Hi.
    rewrite contents_lookup by lia. rewrite lookup_total_drop.
    replace (Z.to_nat n + Z.to_nat i)%nat with (Z.to_nat (n + i)) by lia.
    rewrite contents_lookup by lia. rewrite Hbuf', Hcap'. do 2 f_equal.
    destruct Hidx as [ (Hcap0 & _) | (Hr & Hw & Hrw) ]; [ lia | ].
    unfold pop in Hpop. destruct (Z.leb_spec count 0); [ lia | ].
    rewrite jmin_min in Hpop. fold n in Hpop.
    destruct (pop_loop_some (Z.to_nat n) (capacity rb) (buffer rb) n dest (readIndex rb) n)
      as (d1 & Hloop & _); try lia.
    rewrite Hloop in Hpop. simpl in Hpop. injection Hpop as <- _. simpl.
    rewrite mod_plus_l. f_equal. lia.
  - (* what is handed out *)
    intros j Hj. unfold pop in Hpop. destruct (Z.leb_spec count 0); [ lia | ].
    rewrite jmin_min in Hpop. fold n in Hpop.
    destruct Hidx as [ (Hcap0 & Hr0 & _) | (Hr & Hw & Hrw) ].
    + (* capacity 0: nothing to read *)
      assert (n = 0) as Hn by lia. rewrite Hn in *. simpl in Hpop.
      destruct (Z.ltb_spec 0 count); [ | lia ]. rewrite andb_true_r in Hpop.
      injection Hpop as _ <-.
      destruct (Z.ltb_spec j 0); [ lia | ].
      destruct fill; simpl; [ | done ].
      rewrite fill_range_lookup by lia.
      destruct (Z.leb_spec 0 j); [ done | lia ].
    + destruct (pop_loop_some (Z.to_nat n) (capacity rb) (buffer rb) n dest (readIndex rb) n)
        as (d1 & Hloop & Hlen1); try lia.
      assert (0 < capacity rb /\ 0 <= n <= n /\ n <= capacity rb /\ n <= Z.of_nat (length dest))
        as (Hb1 & Hb2 & Hb3 & Hb4) by lia.
      pose proof (pop_loop_lookup (Z.to_nat n) (capacity rb) (buffer rb) n dest (readIndex rb) n
                    d1 _ Hb1 Hlen Hr Hb2 Hb3 Hb4 Hloop) as Hd1.
      rewrite Hloop in Hpop. simpl in Hpop. injection Hpop as _ <-.
      assert (d1 !!! Z.to_nat j
              = if j <? n then contents rb !!! Z.to_nat j else dest !!! Z.to_nat j) as Hd1'.
      { rewrite Hd1 by lia. replace (n - n) with 0 by lia.
        destruct (Z.leb_spec 0 j); [ | lia ]. simpl.
        destruct (Z.ltb_spec j n); [ | done ].
        rewrite contents_lookup by lia. do 3 f_equal. lia. }
      destruct fill; simpl.
      * destruct (Z.ltb_spec n count).
        -- rewrite fill_range_lookup by lia. rewrite Hd1'.
           destruct (Z.leb_spec n j), (Z.ltb_spec j count), (Z.ltb_spec j n);
             simpl; try lia; done.
        -- rewrite Hd1'. destruct (Z.ltb_spec j n), (Z.ltb_spec j count); try lia; done.
      * by rewrite Hd1'.
Qed.

(** A full frame popped from a buffer that holds one: the destination
    becomes the oldest frame. *)
Lemma pop_full_frame rb dest count :
  wf rb -> 0 < count -> count <= availableSamples rb ->
  length dest = Z.to_nat count ->
  exists rb',
    pop rb dest count false = Some (rb', take (Z.to_nat count) (contents rb), count) /\
    wf rb' /\ capacity rb' = capacity rb /\
    availableSamples rb' = availableSamples rb - count /\
    contents rb' = drop (Z.to_nat count) (contents rb).
Proof.
  intros Hwf Hpos Hav Hlen.
  destruct (pop_oldest_first rb dest count false Hwf ltac:(lia))
    as (rb' & dest' & Hpop & Hwf' & Hcap' & Hlen' & Hrest & Hout).
  replace (Z.min count (availableSamples rb)) with count in * by lia.
  destruct (pop_wf rb dest count false Hwf) as (rb2 & dest2 & Hpop2 & _ & _ & _ & _ & Hav2).
  replace (Z.max 0 (Z.min count (availableSamples rb))) with count in * by lia.
  rewrite Hpop in Hpop2. injection Hpop2 as <- <-.
  exists rb'. split_and!; try done.
  rewrite Hpop. do 3 f_equal.
  apply list_eq_total.
  { rewrite length_take, contents_length. lia. }
  intros j Hj. rewrite Hout by lia.
  destruct (Z.ltb_spec j count); [ | lia ].
  rewrite lookup_total_take_lt by lia. done.
Qed.


(** The contents after a push: the newest samples of the old contents
    followed by the pushed samples that fit. *)
Lemma push_contents rb data count :
  wf rb -> count <= Z.of_nat (length data) ->
  exists rb',
    push rb data count = Some rb' /\ wf rb' /\ capacity rb' = capacity rb /\
    let c := Z.max 0 (Z.min count (capacity rb)) in
    contents rb' =
      lastn (Z.to_nat (Z.min (capacity rb) (availableSamples rb + c)))
            (contents rb ++ take (Z.to_nat c) data).
Proof.
  intros Hwf Hdata.
  destruct (push_wf rb data count Hwf) as (rb' & Hpush & Hwf' & Hcap' & Hav').
  exists rb'. split_and!; try done. simpl.
  pose proof Hwf as (Hlen & Hav & Hidx).
  set (c := Z.max 0 (Z.min count (capacity rb))).
  destruct (Z.leb_spec count 0) as [Hle | Hgt].
  { (* nothing is pushed *)
    unfold push in Hpush. destruct (Z.leb_spec count 0); [ | lia ].
    injection Hpush as <-. assert (c = 0) as -> by (unfold c; lia).
    rewrite take_0, app_nil_r. unfold lastn. rewrite contents_length.
    replace (Z.to_nat _ - Z.to_nat _)%nat with 0%nat by lia. done. }
  assert (c = Z.min count (capacity rb)) as Hc by (unfold c; lia).
  rewrite <- Hc in Hav'.
  apply list_eq_total.
  { rewrite lastn_length; rewrite ?contents_length, ?length_app, ?contents_length,
      ?length_take; lia. }
  intros i Hi. rewrite contents_length in Hi.
  rewrite contents_lookup by lia.
  unfold lastn. rewrite lookup_total_drop, length_app, contents_length, length_take.
  destruct Hidx as [ (Hcap0 & _) | (Hr & Hw & Hrw) ]; [ lia | ].
  (* the store and the indices after the push *)
  unfold push in Hpush. destruct (Z.leb_spec count 0); [ lia | ].
  replace (if capacity rb <? count then capacity rb else count) with c in Hpush
    by (destruct (Z.ltb_spec (capacity rb) count); lia).
  destruct (push_loop_some (Z.to_nat c) (capacity rb) data c (buffer rb) (writeIndex rb) c)
    as (buf' & Hloop & Hlen'); try lia.
  rewrite Hloop in Hpush. simpl in Hpush. rewrite jmin_min in Hpush.
  injection Hpush as <-. simpl in *.
  assert (0 < capacity rb /\ 0 <= c <= c /\ c <= capacity rb /\ c <= Z.of_nat (length data))
    as (Hb1 & Hb2 & Hb3 & Hb4) by lia.
  pose proof (push_loop_lookup (Z.to_nat c) (capacity rb) data c (buffer rb) (writeIndex rb)
                c buf' _ Hb1 Hlen Hw Hb2 Hb3 Hb4 Hloop) as Hstore.
  set (a := availableSamples rb) in *. set (cap := capacity rb) in *.
  set (r := readIndex rb) in *. set (w := writeIndex rb) in *.
  destruct (Z.eqb_spec (Z.min cap (a + c)) cap) as [Hfull | Hroom].
  - (* the buffer is full after the push: reading starts at the new writeIndex *)
    rewrite Hfull in *.
    assert (((w + c) `mod` cap + i) `mod` cap = (w + (c + i) `mod` cap) `mod` cap) as ->.
    { rewrite mod_plus_l, Zplus_mod_idemp_r. f_equal. lia. }
    rewrite Hstore by (apply Z.mod_pos_bound; lia).
    destruct (Z.lt_ge_cases (c + i) cap) as [Hold | Hnew].
    + rewrite (Z.mod_small (c + i)) by lia.
      destruct (Z.ltb_spec (c + i) c); [ lia | ].
      rewrite lookup_total_app_l by (rewrite contents_length; lia).
      replace (Z.to_nat a + Z.to_nat c `min` length data - Z.to_nat cap + Z.to_nat i)%nat
        with (Z.to_nat (a + c - cap + i)) by lia.
      rewrite contents_lookup by lia. fold r cap. f_equal. f_equal.
      rewrite Hrw, mod_plus_l. rewrite <- (mod_shift (r + (a + c - cap + i))) by lia.
      f_equal. lia.
    + rewrite (mod_once_up (c + i)) by lia.
      destruct (Z.ltb_spec (c + i - cap) c); [ | lia ].
      rewrite lookup_total_app_r by (rewrite contents_length; lia).
      rewrite contents_length, lookup_total_take_lt by lia. f_equal. lia.
  - (* there was room for all of it: reading starts where it did *)
    assert (Z.min cap (a + c) = a + c) as Hsum by lia. rewrite Hsum in *.
    replace (Z.to_nat a + Z.to_nat c `min` length data - Z.to_nat (a + c) + Z.to_nat i)%nat
      with (Z.to_nat i) by lia.
    destruct (Z.lt_ge_cases i a) as [Hold | Hnew].
    + rewrite lookup_total_app_l by (rewrite contents_length; lia).
      rewrite contents_lookup by lia. fold r cap.
      assert ((r + i) `mod` cap = (w + (i - a + cap)) `mod` cap) as ->.
      { rewrite Hrw, mod_plus_l. rewrite <- (mod_shift (r + i)) by lia. f_equal. lia. }
      rewrite Hstore by lia.
      destruct (Z.ltb_spec (i - a + cap) c); [ lia | done ].
    + rewrite lookup_total_app_r by (rewrite contents_length; lia).
      rewrite contents_length, lookup_total_take_lt by lia.
      assert ((r + i) `mod` cap = (w + (i - a)) `mod` cap) as ->.
      { rewrite Hrw, mod_plus_l. f_equal. lia. }
      rewrite Hstore by lia.
      destruct (Z.ltb_spec (i - a) c); [ | lia ]. f_equal. lia.
Qed.

(** C6 (amended): a push of [count] samples into a well-formed buffer
    returns, and afterwards the buffer holds, in arrival order, exactly the
    last [min (capacity, previousAvailable + c)] samples of the previous
    contents followed by the first [c] pushed samples, where [c] is
    [count] cut down to the capacity: only the oldest samples are dropped
    when [count] is within the capacity, and pushed samples beyond the
    capacity are not stored. *)
Theorem push_keeps_newest_of_clamped rb data count :
  wf rb -> count <= Z.of_nat (length data) ->
  exists rb',
    push rb data count = Some rb' /\ wf rb' /\ capacity rb' = capacity rb /\
    let c := Z.max 0 (Z.min count (capacity rb)) in
    contents rb' =
      lastn (Z.to_nat (Z.min (capacity rb) (availableSamples rb + c)))
            (contents rb ++ take (Z.to_nat c) data).
Proof. apply push_contents. Qed.

Lemma step_wf rb o : wf rb -> exists rb', step rb o = Some rb' /\ wf rb'.
Proof.
  intros Hwf. destruct o as [ n | | data count | dest count fill ]; simpl.
  - eexists. split; [ done | apply wf_resize ].
  - eexists. split; [ done | by apply wf_clear ].
  - destruct (push_wf rb data count Hwf) as (rb' & -> & Hwf' & _). by exists rb'.
  - destruct (pop_wf rb dest count fill Hwf) as (rb' & dest' & -> & Hwf' & _).
    by exists rb'.
Qed.

Lemma run_wf rb ops : wf rb -> exists rb', run rb ops = Some rb' /\ wf rb'.
Proof.
  revert rb. induction ops as [ | o ops IH ]; intros rb Hwf; simpl.
  - by exists rb.
  - destruct (step_wf rb o Hwf) as (rb1 & -> & Hwf1). simpl. by apply IH.
Qed.

(** C7: after every operation of every sequence of [resize], [clear],
    [push] and [pop] calls on a fresh buffer, every call returns and
    [0 <= available() <= capacity]. *)
Theorem available_within_capacity (ops : list op) (n : nat) :
  exists rb', run init (take n ops) = Some rb' /\
              0 <= available rb' <= capacity rb'.
Proof.
  destruct (run_wf init (take n ops) wf_init) as (rb' & Hrun & Hwf).
  exists rb'. split; [ done | ]. destruct Hwf as (_ & Hav & _). done.
Qed.

End RingBufferFacts.


(** ** The channel pipeline *)

Section Pipeline.
Context {OrtSession Interp : Type} (rt : Runtime OrtSession Interp).
Implicit Types (d : @OnnxDenoiser OrtSession Interp) (state : @ChannelState Interp).
Import RingBuffer RingBufferFacts.

Lemma same_wiring_refl d : same_wiring d d.
Proof. by unfold same_wiring. Qed.

Lemma same_wiring_trans d1 d2 d3 :
  same_wiring d1 d2 -> same_wiring d2 d3 -> same_wiring d1 d3.
Proof. unfold same_wiring. intros (-> & -> & ->) (-> & -> & ->). done. Qed.

Lemma grows_to_refl n : grows_to 0 n n.
Proof. unfold grows_to. lia. Qed.

Lemma grows_to_trans target a b c :
  grows_to target a b -> grows_to target b c -> grows_to target a c.
Proof. unfold grows_to. lia. Qed.

Lemma size_step_refl state : size_step 0 0 state state.
Proof. unfold size_step. split_and!; try done; apply grows_to_refl. Qed.

Lemma size_step_trans tI tO (c1 c2 c3 : @ChannelState Interp) :
  size_step tI tO c1 c2 -> size_step tI tO c2 c3 -> size_step tI tO c1 c3.
Proof.
  unfold size_step. intros (Ha & Hb & Hc & Hd & He & Hf) (Ha' & Hb' & Hc' & Hd' & He' & Hf').
  split_and!; try congruence; eapply grows_to_trans; eauto.
Qed.


Lemma size_step_unchanged (c c' : @ChannelState Interp) :
  size_step 0 0 c c' <->
  (length (frameIn c') = length (frameIn c) /\
   length (frameOut c') = length (frameOut c) /\
   capacity (inputFifo c') = capacity (inputFifo c) /\
   capacity (outputFifo c') = capacity (outputFifo c) /\
   length (tempIn c') = length (tempIn c) /\
   length (tempOut c') = length (tempOut c)).
Proof. unfold size_step, grows_to. intuition lia. Qed.

(** *** runModel *)

Lemma runModel_spec d input output frameSize :
  exists d' out ok,
    runModel rt d input output frameSize = (d', out, ok) /\
    same_wiring d d' /\ isReady d' = isReady d /\
    length out = length output /\ (ok = false -> out = output).
Proof.
  unfold runModel. destruct (session d) as [s | ] eqn:Hs.
  - destruct (ortRun rt s (inputName d) (outputName d) (resolveInputShape d frameSize)
                (take (Z.to_nat frameSize) input)) as [s' r].
    assert (isReady (with_session d (Some s')) = isReady d) as Hr
      by (unfold isReady; simpl; by rewrite Hs).
    destruct r as [ | [ | [outputData | ] rest ] ].
    + eexists _, _, _. split; [ reflexivity | ]. split_and!; try done.
    + eexists _, _, _. split; [ reflexivity | ]. split_and!; try done.
    + eexists _, _, _. split; [ reflexivity | ]. split_and!; try done.
      destruct (_ <? _); rewrite ?fill_range_length, memcpy_length; done.
    + eexists _, _, _. split; [ reflexivity | ]. split_and!; try done.
  - eexists _, _, _. split; [ reflexivity | ]. split_and!; try done.
Qed.

(** When the session is live, [runModel] returns [false] exactly when the
    run throws, yields no output value, or yields a first value whose data
    cannot be read. *)
Lemma runModel_fails_iff d s input output frameSize :
  session d = Some s ->
  snd (runModel rt d input output frameSize) = false <->
  match snd (ortRun rt s (inputName d) (outputName d) (resolveInputShape d frameSize)
               (take (Z.to_nat frameSize) input)) with
  | RunThrew | RunOutputs [] | RunOutputs (None :: _) => True
  | RunOutputs (Some _ :: _) => False
  end.
Proof.
  intros Hs. unfold runModel. rewrite Hs.
  destruct (ortRun rt s _ _ _ _) as [s' r]. simpl.
  destruct r as [ | [ | [outputData | ] rest ] ]; simpl; intuition discriminate.
Qed.

(** *** The frame loop *)

Lemma frameStep_total d state :
  fifos_wf state ->
  exists d' state',
    frameStep rt d state = Some (d', state') /\
    fifos_wf state' /\ same_wiring d d' /\ isReady d' = isReady d /\
    tempIn state' = tempIn state /\ tempOut state' = tempOut state /\
    size_step 0 0 state state' /\
    available (inputFifo state')
    = available (inputFifo state) - Z.max 0 (Z.min modelFrameSize (available (inputFifo state))).
Proof.
  intros (Hin & Hout). unfold frameStep.
  destruct (pop_wf (inputFifo state) (frameIn state) modelFrameSize false Hin)
    as (fifoIn & fIn & -> & HwfIn & HcapIn & _ & HlenIn & HavIn).
  simpl.
  destruct (runModel_spec d fIn (frameOut state) modelFrameSize)
    as (d' & fOut & ok & -> & Hsame & Hready & HlenOut & _).
  assert (exists fifoOut,
            (if ok then push (outputFifo state) fOut modelFrameSize
             else push (outputFifo state) fIn modelFrameSize) = Some fifoOut
            /\ wf fifoOut /\ capacity fifoOut = capacity (outputFifo state))
    as (fifoOut & -> & HwfOut & HcapOut).
  { destruct ok.
    - destruct (push_wf (outputFifo state) fOut modelFrameSize Hout) as (f & ? & ? & ? & _).
      by exists f.
    - destruct (push_wf (outputFifo state) fIn modelFrameSize Hout) as (f & ? & ? & ? & _).
      by exists f. }
  simpl. eexists _, _. split; [ reflexivity | ].
  split_and!; try done.
  unfold size_step; simpl. split_and!; try done; apply grows_to_refl.
Qed.

Lemma frameLoop_total fuel d state :
  fifos_wf state ->
  (Z.to_nat (available (inputFifo state)) <= fuel)%nat ->
  exists d' state',
    frameLoop rt fuel d state = Some (d', state') /\
    fifos_wf state' /\ same_wiring d d' /\ isReady d' = isReady d /\
    tempIn state' = tempIn state /\ tempOut state' = tempOut state /\
    size_step 0 0 state state' /\
    available (inputFifo state') < modelFrameSize.
Proof.
  revert d state. induction fuel as [ | fuel IH ]; intros d state Hwf Hfuel.
  - simpl. destruct (Z.leb_spec modelFrameSize (available (inputFifo state))).
    + unfold modelFrameSize in *. lia.
    + exists d, state.
      split_and!; try apply same_wiring_refl; try apply size_step_refl; done.
  - simpl. destruct (Z.leb_spec modelFrameSize (available (inputFifo state))) as [Hge | Hlt].
    + destruct (frameStep_total d state Hwf)
        as (d1 & st1 & -> & Hwf1 & Hsame1 & Hready1 & HtI1 & HtO1 & Hsz1 & Hav1).
      simpl. unfold modelFrameSize in *.
      destruct (IH d1 st1 Hwf1 ltac:(lia))
        as (d2 & st2 & -> & Hwf2 & Hsame2 & Hready2 & HtI2 & HtO2 & Hsz2 & Hav2).
      exists d2, st2. split_and!; try done; try congruence.
      * eapply same_wiring_trans; eauto.
      * eapply size_step_trans; eauto.
    + exists d, state.
      split_and!; try apply same_wiring_refl; try apply size_step_refl; done.
Qed.

Lemma frameLoop_continues fuel d state d' state' :
  modelFrameSize <= available (inputFifo state) ->
  frameStep rt d state = Some (d', state') ->
  frameLoop rt (S fuel) d state = frameLoop rt fuel d' state'.
Proof.
  intros Hge Hstep. simpl.
  destruct (Z.leb_spec modelFrameSize (available (inputFifo state))); [ | lia ].
  by rewrite Hstep.
Qed.

(** *** processChannel *)

Lemma resized_when_short (v : list float32) (target : Z) :
  grows_to target (length v)
    (length (if Z.of_nat (length v) <? target then vec_resize v target else v)).
Proof.
  unfold grows_to. destruct (Z.ltb_spec (Z.of_nat (length v)) target).
  - rewrite vec_resize_length. lia.
  - lia.
Qed.

Lemma processChannel_total d state (h : Heap) (input output : nat) numSamples mix :
  fifos_wf state ->
  reads_within rt (resampleInRatio d) ->
  exists d' state' h',
    processChannel rt d state h input output numSamples mix = Some (d', state', h') /\
    fifos_wf state' /\ same_wiring d d' /\ isReady d' = isReady d /\
    size_step (targetSamplesOf d numSamples) (requiredModelSamplesOf d numSamples)
      state state'.
Proof.
  intros (Hin & Hout) Hrw. unfold processChannel.
  pose proof (Hrw (resamplerIn state) (h !!! input) (targetSamplesOf d numSamples)) as Hused.
  revert Hused.
  destruct (interpProcess rt (resamplerIn state) (resampleInRatio d) (h !!! input)
              (targetSamplesOf d numSamples)) as [[rIn written] producedSamples].
  simpl. intros Hused.
  set (tIn := memcpy _ 0 written 0 (targetSamplesOf d numSamples)).
  assert (grows_to (targetSamplesOf d numSamples) (length (tempIn state)) (length tIn)) as HtIn.
  { unfold tIn. rewrite memcpy_length. apply resized_when_short. }
  rewrite jmin_min.
  destruct (Z.ltb_spec (Z.of_nat (length tIn))
              (Z.min producedSamples (capacity (inputFifo state)))) as [Hover | _].
  { unfold grows_to in HtIn. lia. }
  destruct (push_wf (inputFifo state) tIn producedSamples Hin)
    as (fifoIn & -> & HwfIn & HcapIn & _).
  simpl.
  set (st1 := {| resamplerIn := rIn; resamplerOut := resamplerOut state;
                 inputFifo := fifoIn; outputFifo := outputFifo state;
                 tempIn := tIn; tempOut := tempOut state;
                 frameIn := frameIn state; frameOut := frameOut state |}).
  destruct (frameLoop_total (Z.to_nat (available fifoIn)) d st1)
    as (d2 & st2 & -> & (HwfIn2 & HwfOut2) & Hsame2 & Hready2 & HtI2 & HtO2 & Hsz2 & _);
    [ by split | done | ].
  simpl.
  assert (requiredModelSamplesOf d2 numSamples = requiredModelSamplesOf d numSamples) as Hreq.
  { unfold requiredModelSamplesOf. destruct Hsame2 as (_ & _ & ->). done. }
  rewrite Hreq.
  set (tOut0 := if Z.of_nat (length (tempOut st2)) <? requiredModelSamplesOf d numSamples
                then vec_resize (tempOut st2) (requiredModelSamplesOf d numSamples)
                else tempOut st2).
  destruct (pop_wf (outputFifo st2) tOut0 (requiredModelSamplesOf d numSamples) true HwfOut2)
    as (fifoOut & tOut & -> & HwfOut3 & HcapOut3 & _ & HlenOut3 & _).
  simpl.
  destruct (interpProcess rt (resamplerOut st2) (resampleOutRatio d2) tOut numSamples)
    as [[rOut written'] ret].
  eexists _, _, _. split; [ reflexivity | ].
  split_and!; try done.
  destruct Hsz2 as (Hf1 & Hf2 & Hc1 & Hc2 & _ & _). simpl in *.
  unfold size_step; simpl. split_and!; try congruence.
  rewrite HlenOut3. unfold tOut0. rewrite HtO2. apply resized_when_short.
Qed.

(** *** processBlock *)


End Pipeline.

(** ** Loading, prepare and processBlock *)

Section Block.
Context {OrtSession Interp : Type} (rt : Runtime OrtSession Interp).
Implicit Types (d : @OnnxDenoiser OrtSession Interp) (state : @ChannelState Interp).
Import RingBuffer RingBufferFacts.

(** *** Loading leaves the channels and the ratios alone *)

Lemma tryCreateSessionForProvider_wiring d file provider :
  same_wiring d (fst (tryCreateSessionForProvider rt d file provider)).
Proof.
  unfold tryCreateSessionForProvider.
  destruct (existsAsFile rt file); simpl; [ | apply same_wiring_refl ].
  match goal with |- context [negb ?b] => destruct b end; simpl; [ | done ].
  destruct (ortCreateSession rt file provider) as [s | ]; [ | done ].
  destruct (ortInputName rt s); [ | done ].
  destruct (ortOutputName rt s); [ | done ].
  destruct (ortInputShape rt s); done.
Qed.

Lemma tryProviders_wiring d file providers :
  same_wiring d (fst (tryProviders rt d file providers)).
Proof.
  revert d. induction providers as [ | p ps IH ]; intros d; simpl.
  - apply same_wiring_refl.
  - destruct (isProviderUsable rt p); simpl; [ | apply IH ].
    pose proof (tryCreateSessionForProvider_wiring d file p) as Hc.
    destruct (tryCreateSessionForProvider rt d file p) as [d' ok]; simpl in *.
    destruct ok; [ done | ]. eapply same_wiring_trans; [ exact Hc | apply IH ].
Qed.

Lemma tryCandidates_wiring d candidates providers :
  same_wiring d (fst (tryCandidates rt d candidates providers)).
Proof.
  revert d. induction candidates as [ | c cs IH ]; intros d; simpl.
  - apply same_wiring_refl.
  - destruct (existsAsFile rt c); simpl; [ | apply IH ].
    pose proof (tryProviders_wiring d c providers) as Hc.
    destruct (tryProviders rt d c providers) as [d' ok]; simpl in *.
    destruct ok; [ done | ]. eapply same_wiring_trans; [ exact Hc | apply IH ].
Qed.

Lemma loadDefaultModelIfNeeded_wiring d :
  same_wiring d (fst (loadDefaultModelIfNeeded rt d)).
Proof.
  unfold loadDefaultModelIfNeeded.
  destruct (isReady d); [ apply same_wiring_refl | ].
  destruct (existsAsFile rt (modelPath d)).
  - pose proof (tryProviders_wiring d (modelPath d) (getProviderFallbackOrder d)) as Hc.
    destruct (tryProviders rt d (modelPath d) (getProviderFallbackOrder d)) as [d1 ok].
    simpl in Hc. destruct ok; [ done | ].
    eapply same_wiring_trans; [ exact Hc | apply tryCandidates_wiring ].
  - apply tryCandidates_wiring.
Qed.

(** *** prepare *)

Lemma prepare_channels d newSampleRate newNumChannels maxBlockSize :
  length (channels (prepare rt d newSampleRate newNumChannels maxBlockSize))
  = Z.to_nat newNumChannels /\
  Forall (fun c => fifos_wf c /\ tempIn c = [] /\ tempOut c = [] /\
                   length (frameIn c) = Z.to_nat modelFrameSize /\
                   length (frameOut c) = Z.to_nat modelFrameSize /\
                   capacity (inputFifo c) = modelFrameSize * 32 /\
                   capacity (outputFifo c) = modelFrameSize * 32)
    (channels (prepare rt d newSampleRate newNumChannels maxBlockSize)).
Proof.
  unfold prepare.
  match goal with |- context [loadDefaultModelIfNeeded rt ?d0] =>
    destruct (loadDefaultModelIfNeeded_wiring d0) as (-> & _ & _) end.
  simpl. split.
  - rewrite length_fmap. unfold resizeChannels.
    rewrite length_app, length_take, length_replicate. lia.
  - apply Forall_fmap, Forall_true. intros c. simpl.
    split_and!; try done; try apply vec_resize_length.
    split; apply wf_resize.
Qed.

Lemma prepare_fifos_wf d newSampleRate newNumChannels maxBlockSize :
  Forall fifos_wf (channels (prepare rt d newSampleRate newNumChannels maxBlockSize)).
Proof.
  eapply Forall_impl; [ apply prepare_channels | ]. simpl. tauto.
Qed.


(** C3: when a full frame waits in the input FIFO and inference on it
    fails, the loop body pops that frame, pushes it unchanged into the
    output FIFO and keeps [isReady()] as it was. The loop goes on from
    there: with the fuel [processChannel] gives it, it returns, with the
    object as ready as before and less than one frame left in the input
    FIFO; and when another full frame waits, the next pass pops it and
    runs the model on it. *)
Theorem frame_bypassed_when_inference_fails d state :
  fifos_wf state ->
  modelFrameSize <= available (inputFifo state) ->
  length (frameIn state) = Z.to_nat modelFrameSize ->
  modelFrameSize <= capacity (outputFifo state) ->
  snd (runModel rt d (take (Z.to_nat modelFrameSize) (contents (inputFifo state)))
         (frameOut state) modelFrameSize) = false ->
  exists d' state',
    frameStep rt d state = Some (d', state') /\
    isReady d' = isReady d /\
    frameIn state' = take (Z.to_nat modelFrameSize) (contents (inputFifo state)) /\
    contents (inputFifo state')
    = drop (Z.to_nat modelFrameSize) (contents (inputFifo state)) /\
    contents (outputFifo state')
    = lastn (Z.to_nat (Z.min (capacity (outputFifo state))
                         (availableSamples (outputFifo state) + modelFrameSize)))
        (contents (outputFifo state)
         ++ take (Z.to_nat modelFrameSize) (contents (inputFifo state))) /\
    (forall fuel, frameLoop rt (S fuel) d state = frameLoop rt fuel d' state') /\
    (exists dEnd stateEnd,
       frameLoop rt (Z.to_nat (available (inputFifo state))) d state
       = Some (dEnd, stateEnd) /\
       frameLoop rt (Z.to_nat (available (inputFifo state)) - 1) d' state'
       = Some (dEnd, stateEnd) /\
       isReady dEnd = isReady d /\
       available (inputFifo stateEnd) < modelFrameSize) /\
    (modelFrameSize <= available (inputFifo state') ->
     exists d2 state2,
       frameStep rt d' state' = Some (d2, state2) /\
       d2 = fst (fst (runModel rt d'
                        (take (Z.to_nat modelFrameSize) (contents (inputFifo state')))
                        (frameOut state') modelFrameSize)) /\
       frameIn state2 = take (Z.to_nat modelFrameSize) (contents (inputFifo state')) /\
       contents (inputFifo state2)
       = drop (Z.to_nat modelFrameSize) (contents (inputFifo state')) /\
       forall fuel, frameLoop rt (S (S fuel)) d state = frameLoop rt fuel d2 state2).
Proof.
  intros (Hin & Hout) Hav Hlen Hcap Hfail.
  set (frame := take (Z.to_nat modelFrameSize) (contents (inputFifo state))) in *.
  assert (length frame = Z.to_nat modelFrameSize) as Hframe.
  { unfold frame. rewrite length_take, contents_length. unfold available in Hav. lia. }
  destruct (pop_full_frame (inputFifo state) (frameIn state) modelFrameSize Hin
              ltac:(unfold modelFrameSize; lia) Hav Hlen)
    as (fifoIn & Hpop & HwfIn & _ & _ & Hrest).
  fold frame in Hpop.
  destruct (runModel_spec rt d frame (frameOut state) modelFrameSize)
    as (d' & fOut & ok & Hrun & _ & Hready & _ & _).
  rewrite Hrun in Hfail. simpl in Hfail. subst ok.
  destruct (push_contents (outputFifo state) frame modelFrameSize Hout
              ltac:(rewrite Hframe; unfold modelFrameSize; lia))
    as (fifoOut & Hpush & HwfOut & _ & Hcont).
  simpl in Hcont.
  replace (Z.max 0 (Z.min modelFrameSize (capacity (outputFifo state))))
    with modelFrameSize in Hcont by (unfold modelFrameSize in *; lia).
  rewrite (take_ge frame) in Hcont by lia.
  set (state' := {| resamplerIn := resamplerIn state; resamplerOut := resamplerOut state;
                    inputFifo := fifoIn; outputFifo := fifoOut;
                    tempIn := tempIn state; tempOut := tempOut state;
                    frameIn := frame; frameOut := fOut |}).
  assert (frameStep rt d state = Some (d', state')) as Hstep.
  { unfold frameStep. rewrite Hpop. simpl. rewrite Hrun. rewrite Hpush. done. }
  assert (fifos_wf state') as Hwf' by (by split).
  exists d', state'. split; [ exact Hstep | ]. split_and!; try done.
  - intros fuel. by apply frameLoop_continues.
  - destruct (frameLoop_total rt (Z.to_nat (available (inputFifo state))) d state)
      as (dEnd & stateEnd & Hloop & _ & _ & HreadyEnd & _ & _ & _ & HavEnd);
      [ by split | done | ].
    exists dEnd, stateEnd. split_and!; try done.
    rewrite <- Hloop.
    replace (Z.to_nat (available (inputFifo state)))
      with (S (Z.to_nat (available (inputFifo state)) - 1)) at 2
      by (unfold modelFrameSize in Hav; lia).
    symmetry. by apply frameLoop_continues.
  - intros Hav'.
    destruct (pop_full_frame fifoIn frame modelFrameSize HwfIn
                ltac:(unfold modelFrameSize; lia) Hav' Hframe)
      as (fifoIn2 & Hpop2 & _ & _ & _ & Hrest2).
    set (frame2 := take (Z.to_nat modelFrameSize) (contents fifoIn)) in *.
    destruct (runModel rt d' frame2 fOut modelFrameSize) as [[d2 fOut2] ok2] eqn:Hrun2.
    assert (exists fifoOut2,
              (if ok2 then push fifoOut fOut2 modelFrameSize
               else push fifoOut frame2 modelFrameSize) = Some fifoOut2)
      as (fifoOut2 & Hpush2).
    { destruct ok2.
      - destruct (push_wf fifoOut fOut2 modelFrameSize HwfOut) as (f & ? & _). by exists f.
      - destruct (push_wf fifoOut frame2 modelFrameSize HwfOut) as (f & ? & _). by exists f. }
    assert (frameStep rt d' state'
            = Some (d2, {| resamplerIn := resamplerIn state; resamplerOut := resamplerOut state;
                           inputFifo := fifoIn2; outputFifo := fifoOut2;
                           tempIn := tempIn state; tempOut := tempOut state;
                           frameIn := frame2; frameOut := fOut2 |})) as Hstep2.
    { unfold frameStep. simpl. rewrite Hpop2. simpl. rewrite Hrun2. rewrite Hpush2. done. }
    eexists _, _. split; [ exact Hstep2 | ].
    split.
    { change (d2 = fst (fst (runModel rt d' frame2 fOut modelFrameSize))).
      by rewrite Hrun2. }
    split; [ done | ]. split; [ done | ].
    intros fuel.
    rewrite (frameLoop_continues rt (S fuel) d state d' state' Hav Hstep).
    by apply frameLoop_continues.
Qed.

End Block.

(** ** Dry/wet mixing *)

(** *** Reads and writes through pointers *)

Lemma load_store_same (h : Heap) p i v j :
  (p < length h)%nat -> 0 <= i < Z.of_nat (length (h !!! p)) -> 0 <= j ->
  load (store h p i v) p j = if i =? j then v else load h p j.
Proof.
  intros Hp Hi Hj. unfold load, store, Heap in *.
  rewrite list_lookup_total_insert_eq by done.
  destruct (Z.eqb_spec i j) as [-> | Hne].
  - rewrite list_lookup_total_insert_eq by lia. done.
  - rewrite list_lookup_total_insert_ne by lia. done.
Qed.

Lemma load_store_other (h : Heap) p q i v j :
  p <> q -> load (store h p i v) q j = load h q j.
Proof.
  intros Hpq. unfold load, store, Heap in *. by rewrite list_lookup_total_insert_ne.
Qed.

Lemma store_length (h : Heap) p i v : length (store h p i v) = length h.
Proof. unfold store, Heap in *. apply length_insert. Qed.

Lemma store_row_length (h : Heap) p i v q :
  length (store h p i v !!! q) = length (h !!! q).
Proof.
  unfold store, Heap in *. destruct (decide (p = q)) as [-> | Hne].
  - destruct (decide (q < length h)%nat).
    + rewrite list_lookup_total_insert_eq by done. apply length_insert.
    + rewrite list_insert_ge by lia. done.
  - by rewrite list_lookup_total_insert_ne.
Qed.


(** With distinct arrays the loop blends the dry input with the wet
    output. *)
Lemma mixLoop_distinct iters i0 (h : Heap) input output dryMix mix j :
  input <> output -> (output < length h)%nat ->
  0 <= i0 -> i0 + Z.of_nat iters <= Z.of_nat (length (h !!! output)) -> 0 <= j ->
  load (mixLoop iters i0 h input output dryMix mix) output j =
    (if ((i0 <=? j) && (j <? i0 + Z.of_nat iters))%bool
     then F32.add (F32.mul (load h input j) dryMix) (F32.mul (load h output j) mix)
     else load h output j).
Proof.
  intros Hne. revert i0 h. induction iters as [ | iters IH ]; intros i0 h Hout Hi0 Hlen Hj.
  - simpl. destruct (Z.leb_spec i0 j), (Z.ltb_spec j (i0 + Z.of_nat 0)); simpl; try done; lia.
  - simpl. rewrite IH; rewrite ?store_length, ?store_row_length; try lia.
    rewrite load_store_other by done.
    rewrite load_store_same by lia.
    destruct (Z.eqb_spec i0 j) as [-> | Hij].
    + destruct (Z.leb_spec (j + 1) j), (Z.ltb_spec j (j + 1 + Z.of_nat iters)),
        (Z.leb_spec j j), (Z.ltb_spec j (j + Z.of_nat (S iters))); simpl; try lia; done.
    + destruct (Z.leb_spec (i0 + 1) j), (Z.ltb_spec j (i0 + 1 + Z.of_nat iters)),
        (Z.leb_spec i0 j), (Z.ltb_spec j (i0 + Z.of_nat (S iters))); simpl; try lia; done.
Qed.

(** With one array for both, as [processBlock] calls it, the dry operand is
    the value the output array holds when the loop starts. *)
Lemma mixLoop_aliased iters i0 (h : Heap) p dryMix mix j :
  (p < length h)%nat ->
  0 <= i0 -> i0 + Z.of_nat iters <= Z.of_nat (length (h !!! p)) -> 0 <= j ->
  load (mixLoop iters i0 h p p dryMix mix) p j =
    (if ((i0 <=? j) && (j <? i0 + Z.of_nat iters))%bool
     then F32.add (F32.mul (load h p j) dryMix) (F32.mul (load h p j) mix)
     else load h p j).
Proof.
  revert i0 h. induction iters as [ | iters IH ]; intros i0 h Hp Hi0 Hlen Hj.
  - simpl. destruct (Z.leb_spec i0 j), (Z.ltb_spec j (i0 + Z.of_nat 0)); simpl; try done; lia.
  - simpl. rewrite IH; rewrite ?store_length, ?store_row_length; try lia.
    rewrite load_store_same by lia.
    destruct (Z.eqb_spec i0 j) as [-> | Hij].
    + destruct (Z.leb_spec (j + 1) j), (Z.ltb_spec j (j + 1 + Z.of_nat iters)),
        (Z.leb_spec j j), (Z.ltb_spec j (j + Z.of_nat (S iters))); simpl; try lia; done.
    + destruct (Z.leb_spec (i0 + 1) j), (Z.ltb_spec j (i0 + 1 + Z.of_nat iters)),
        (Z.leb_spec i0 j), (Z.ltb_spec j (i0 + Z.of_nat (S iters))); simpl; try lia; done.
Qed.

(** ** The code at concrete inputs *)

Import IdentityRuntime.

(** C2: the code at a failing input. At 48 kHz with the identity model, a
    block of two samples of value 1 mixed at 0.5 comes back as zeros (the
    wet signal, still silent while the first frame fills), although the dry
    and wet blend of the claim is 0.5: the dry samples were overwritten by
    the wet ones before the mix read them. *)
Theorem dry_signal_lost_in_mix :
  channelData <$> (snd <$> processBlock (rt true true) (prepared true true 1 512) twoOnes
                                        (smp 1 1))
  = Some [[F32.zero; F32.zero]] /\
  F32.add (F32.mul (smp 1 0) (F32.sub F32.one (smp 1 1))) (F32.mul F32.zero (smp 1 1))
  = smp 1 1 /\
  smp 1 1 <> F32.zero.
Proof. split_and!; [ vm_compute; reflexivity | vm_compute; reflexivity | discriminate ]. Qed.


(** C5, as stated, fails for [setAllowFallback]: a live session stays. *)
Lemma setAllowFallback_keeps_session :
  isReady (setAllowFallback (prepared true true 1 512) false) = true.
Proof. vm_compute. reflexivity. Qed.

(** C6, as stated, fails when [count] exceeds the capacity: of the three
    samples 1, 2, 3 pushed into an empty buffer of capacity 2 the buffer
    holds 1, 2 and not the last two. *)
Lemma push_beyond_capacity_keeps_oldest_of_data :
  RingBuffer.contents <$> RingBuffer.push (RingBuffer.resize RingBuffer.init 2) (ramp 3) 3
  = Some [smp 1 0; smp 2 0] /\
  lastn (Z.to_nat (Z.min 2 (0 + 3)))
        (RingBuffer.contents (RingBuffer.resize RingBuffer.init 2) ++ take 3 (ramp 3))
  = [smp 2 0; smp 3 0] /\
  [smp 1 0; smp 2 0] <> [smp 2 0; smp 3 0].
Proof.
  split_and!; [ vm_compute; reflexivity | vm_compute; reflexivity | ].
  vm_compute. discriminate.
Qed.

(** ** The statements at concrete inputs *)

(** No model file anywhere: a prepared, enabled denoiser at full mix hands
    the block back untouched. *)
Lemma processBlock_passthrough_without_session_witness :
  snd (loadDefaultModelIfNeeded (rt false true) (prepared false true 1 512)) = false /\
  exists d', processBlock (rt false true) (prepared false true 1 512) twoOnes (smp 1 0)
             = Some (d', twoOnes) /\ isReady d' = false.
Proof.
  split; [ vm_compute; reflexivity | ].
  apply (processBlock_passthrough_without_session (rt false true)
           (prepared false true 1 512) twoOnes (smp 1 0)).
  vm_compute; reflexivity.
Defined.

(** A ready denoiser that was disabled again. *)
Lemma processBlock_disabled_witness :
  enabled (setEnabled (prepared true true 1 512) false) = false /\
  processBlock (rt true true) (setEnabled (prepared true true 1 512) false) twoOnes (smp 1 1)
  = Some (setEnabled (prepared true true 1 512) false, twoOnes).
Proof.
  split; [ reflexivity | ].
  apply (processBlock_disabled (rt true true)
           (setEnabled (prepared true true 1 512) false) twoOnes (smp 1 1)).
  reflexivity.
Defined.

(** Three more samples into a buffer of capacity 4 that holds three. *)
Lemma push_keeps_newest_of_clamped_witness :
  RingBuffer.wf threeOfFour /\ 3 <= Z.of_nat (length (ramp 3)) /\
  exists rb',
    RingBuffer.push threeOfFour (ramp 3) 3 = Some rb' /\ RingBuffer.wf rb' /\
    RingBuffer.capacity rb' = RingBuffer.capacity threeOfFour /\
    let c := Z.max 0 (Z.min 3 (RingBuffer.capacity threeOfFour)) in
    RingBuffer.contents rb' =
      lastn (Z.to_nat (Z.min (RingBuffer.capacity threeOfFour)
                         (RingBuffer.availableSamples threeOfFour + c)))
            (RingBuffer.contents threeOfFour ++ take (Z.to_nat c) (ramp 3)).
Proof.
  split; [ apply RingBufferFacts.wfb_correct; vm_compute; reflexivity | ].
  split; [ simpl; lia | ].
  apply (RingBufferFacts.push_keeps_newest_of_clamped threeOfFour (ramp 3) 3).
  - apply RingBufferFacts.wfb_correct. vm_compute. reflexivity.
  - simpl. lia.
Defined.

(** The invariant of the FIFOs of a channel, by running the check. *)
Lemma fifos_wfb_correct {Interp : Type} (c : @ChannelState Interp) :
  (RingBuffer.wfb (inputFifo c) && RingBuffer.wfb (outputFifo c))%bool = true -> fifos_wf c.
Proof.
  intros H. apply andb_prop in H. destruct H. split; by apply RingBufferFacts.wfb_correct.
Qed.


(** A channel with two full frames in its input FIFO and a model that
    throws: the first frame is bypassed, the loop returns, and the second
    frame is run as well. *)
Lemma frame_bypassed_when_inference_fails_witness :
  fifos_wf Examples.fedTwice /\
  modelFrameSize <= RingBuffer.available (inputFifo Examples.fedTwice) /\
  length (frameIn Examples.fedTwice) = Z.to_nat modelFrameSize /\
  modelFrameSize <= RingBuffer.capacity (outputFifo Examples.fedTwice) /\
  snd (runModel (rt true false) (prepared true false 1 512)
         (take (Z.to_nat modelFrameSize) (RingBuffer.contents (inputFifo Examples.fedTwice)))
         (frameOut Examples.fedTwice) modelFrameSize) = false /\
  exists d' state',
    frameStep (rt true false) (prepared true false 1 512) Examples.fedTwice
    = Some (d', state') /\
    isReady d' = isReady (prepared true false 1 512) /\
    frameIn state'
    = take (Z.to_nat modelFrameSize) (RingBuffer.contents (inputFifo Examples.fedTwice)) /\
    RingBuffer.contents (inputFifo state')
    = drop (Z.to_nat modelFrameSize) (RingBuffer.contents (inputFifo Examples.fedTwice)) /\
    RingBuffer.contents (outputFifo state')
    = lastn (Z.to_nat (Z.min (RingBuffer.capacity (outputFifo Examples.fedTwice))
                         (RingBuffer.availableSamples (outputFifo Examples.fedTwice)
                          + modelFrameSize)))
        (RingBuffer.contents (outputFifo Examples.fedTwice)
         ++ take (Z.to_nat modelFrameSize)
              (RingBuffer.contents (inputFifo Examples.fedTwice))) /\
    (forall fuel, frameLoop (rt true false) (S fuel) (prepared true false 1 512)
                    Examples.fedTwice
                  = frameLoop (rt true false) fuel d' state') /\
    (exists dEnd stateEnd,
       frameLoop (rt true false)
         (Z.to_nat (RingBuffer.available (inputFifo Examples.fedTwice)))
         (prepared true false 1 512) Examples.fedTwice
       = Some (dEnd, stateEnd) /\
       frameLoop (rt true false)
         (Z.to_nat (RingBuffer.available (inputFifo Examples.fedTwice)) - 1) d' state'
       = Some (dEnd, stateEnd) /\
       isReady dEnd = isReady (prepared true false 1 512) /\
       RingBuffer.available (inputFifo stateEnd) < modelFrameSize) /\
    (modelFrameSize <= RingBuffer.available (inputFifo state') ->
     exists d2 state2,
       frameStep (rt true false) d' state' = Some (d2, state2) /\
       d2 = fst (fst (runModel (rt true false) d'
                        (take (Z.to_nat modelFrameSize)
                           (RingBuffer.contents (inputFifo state')))
                        (frameOut state') modelFrameSize)) /\
       frameIn state2
       = take (Z.to_nat modelFrameSize) (RingBuffer.contents (inputFifo state')) /\
       RingBuffer.contents (inputFifo state2)
       = drop (Z.to_nat modelFrameSize) (RingBuffer.contents (inputFifo state')) /\
       forall fuel, frameLoop (rt true false) (S (S fuel)) (prepared true false 1 512)
                      Examples.fedTwice
                    = frameLoop (rt true false) fuel d2 state2).
Proof.
  assert (fifos_wf Examples.fedTwice) as Hwf
    by (apply fifos_wfb_correct; vm_compute; reflexivity).
  assert (modelFrameSize <= RingBuffer.available (inputFifo Examples.fedTwice)) as Hav
    by (vm_compute; discriminate).
  assert (length (frameIn Examples.fedTwice) = Z.to_nat modelFrameSize) as Hlen
    by (vm_compute; reflexivity).
  assert (modelFrameSize <= RingBuffer.capacity (outputFifo Examples.fedTwice)) as Hcap
    by (vm_compute; discriminate).
  assert (snd (runModel (rt true false) (prepared true false 1 512)
                 (take (Z.to_nat modelFrameSize)
                    (RingBuffer.contents (inputFifo Examples.fedTwice)))
                 (frameOut Examples.fedTwice) modelFrameSize) = false) as Hfail
    by (vm_compute; reflexivity).
  split_and!; try done.
  exact (frame_bypassed_when_inference_fails (rt true false) (prepared true false 1 512)
           Examples.fedTwice Hwf Hav Hlen Hcap Hfail).
Defined.

(** The example starts the second pass as well: after the first frame a
    full frame is left. *)
Lemma second_frame_waits :
  exists d' state',
    frameStep (rt true false) (prepared true false 1 512) Examples.fedTwice
    = Some (d', state') /\
    modelFrameSize <= RingBuffer.available (inputFifo state') /\
    RingBuffer.available (inputFifo state') = 520.
Proof. eexists _, _. split; [ vm_compute; reflexivity | ]. split; vm_compute; congruence. Qed.


(** Without the bound on what the interpolator returns the read leaves
    [tempIn]: at 96 kHz a block of four samples asks for two samples at
    the model rate, [tempIn] is resized to two elements, and an
    interpolator that reports the four input samples as used makes [push]
    read four. *)
Lemma read_past_tempIn_above_model_rate :
  targetSamplesOf Examples.prepared96 4 = 2 /\
  processBlock Examples.rtWhole Examples.prepared96 Examples.fourSamples (smp 1 0) = None /\
  ~ reads_within Examples.rtWhole (resampleInRatio Examples.prepared96).
Proof.
  split; [ vm_compute; reflexivity | ]. split; [ vm_compute; reflexivity | ].
  intros H. specialize (H tt (ramp 1) 0). simpl in H. lia.
Qed.

(** * Further properties *)

(** ** RingBuffer: resize, clear, pop and the FIFO round trip *)

Section RingBufferMore.
Import RingBuffer RingBufferFacts.
(** X1: [resize] at any requested capacity, from any state, yields a
    well-formed empty buffer of capacity [max (newCapacity, 1)]; a [pop]
    from it returns 0 samples and leaves [dest] as it is, or zeroes its
    first [count] elements when [fillIfInsufficient] is set. *)
Theorem resize_gives_empty_buffer rb newCapacity :
  wf (resize rb newCapacity) /\
  capacity (resize rb newCapacity) = Z.max newCapacity 1 /\
  available (resize rb newCapacity) = 0 /\
  contents (resize rb newCapacity) = [] /\
  forall dest count fill, 0 < count <= Z.of_nat (length dest) ->
    pop (resize rb newCapacity) dest count fill
    = Some (resize rb newCapacity,
            if fill then fill_range dest 0 count F32.zero else dest, 0).
Proof.
  split_and!.
  - apply wf_resize.
  - unfold resize; simpl. apply jmax_max.
  - done.
  - done.
  - intros dest count fill Hc. unfold pop.
    destruct (Z.leb_spec count 0); [ lia | ].
    simpl. rewrite jmin_min. replace (Z.min count 0) with 0 by lia. simpl.
    destruct (Z.ltb_spec 0 count); [ | lia ]. rewrite andb_true_r.
    by destruct fill.
Qed.

(** X2: [clear] keeps the capacity and the size of the storage and leaves a
    well-formed empty buffer; a following [push] of up to [capacity]
    samples stores exactly the pushed samples. *)
Theorem clear_empties_and_keeps_capacity rb :
  wf rb ->
  wf (clear rb) /\ capacity (clear rb) = capacity rb /\
  length (buffer (clear rb)) = length (buffer rb) /\
  available (clear rb) = 0 /\ contents (clear rb) = [] /\
  forall data count, 0 <= count <= capacity rb -> count <= Z.of_nat (length data) ->
    exists rb', push (clear rb) data count = Some rb' /\
                contents rb' = take (Z.to_nat count) data.
Proof.
  intros Hwf. pose proof (wf_clear rb Hwf) as Hc.
  split_and!; try done.
  - unfold clear; simpl. apply length_replicate.
  - intros data count Hcount Hdata.
    destruct (push_contents (clear rb) data count Hc Hdata) as (rb' & Hp & _ & _ & Hcont).
    exists rb'. split; [ done | ]. simpl in Hcont.
    replace (Z.max 0 (Z.min count (capacity rb))) with count in Hcont by lia.
    replace (Z.min (capacity rb) (0 + count)) with count in Hcont by lia.
    rewrite Hcont. unfold lastn. simpl.
    rewrite length_take. replace (_ - _)%nat with 0%nat by lia. done.
Qed.

(** X4: round trip. When the pushed samples fit beside what the buffer
    holds, a [pop] of everything hands out the previous contents followed
    by the pushed samples, in order, and leaves the buffer empty. *)
Theorem push_then_pop_returns_everything rb data count dest :
  wf rb -> 0 < count -> count <= Z.of_nat (length data) ->
  availableSamples rb + count <= capacity rb ->
  length dest = Z.to_nat (availableSamples rb + count) ->
  exists rb1 rb2,
    push rb data count = Some rb1 /\
    pop rb1 dest (availableSamples rb + count) false
    = Some (rb2, contents rb ++ take (Z.to_nat count) data, availableSamples rb + count) /\
    wf rb2 /\ available rb2 = 0 /\ contents rb2 = [].
Proof.
  intros Hwf Hpos Hdata Hroom Hdest.
  pose proof Hwf as (_ & Hav & _).
  destruct (push_contents rb data count Hwf Hdata) as (rb1 & Hp & Hwf1 & Hcap1 & Hcont).
  destruct (push_wf rb data count Hwf) as (rb1' & Hp' & _ & _ & Hav1).
  rewrite Hp in Hp'. injection Hp' as <-.
  destruct (Z.leb_spec count 0); [ lia | ].
  simpl in Hcont.
  replace (Z.max 0 (Z.min count (capacity rb))) with count in Hcont by lia.
  replace (Z.min count (capacity rb)) with count in Hav1 by lia.
  replace (Z.min (capacity rb) (availableSamples rb + count))
    with (availableSamples rb + count) in * by lia.
  assert (contents rb1 = contents rb ++ take (Z.to_nat count) data) as Hall.
  { rewrite Hcont. unfold lastn. rewrite length_app, contents_length, length_take.
    replace (_ - _)%nat with 0%nat by lia. done. }
  destruct (pop_full_frame rb1 dest (availableSamples rb + count) Hwf1)
    as (rb2 & Hpop & Hwf2 & _ & Hav2 & Hrest); try lia.
  exists rb1, rb2. split; [ done | ].
  rewrite Hpop, Hall.
  rewrite take_ge by (rewrite length_app, contents_length, length_take; lia).
  split_and!; try done.
  - unfold available. lia.
  - rewrite Hrest, Hall.
    apply drop_ge. rewrite length_app, contents_length, length_take. lia.
Qed.

(** X5: the fallback order never repeats a provider and never contains
    [autoSelect]; a preferred provider other than [autoSelect] comes first;
    for [autoSelect] the order is the fixed priority list; with fallback
    allowed every real provider is tried, and the last one is the CPU
    (CoreML when the CPU itself is preferred). *)
Theorem fallback_order_shape (X : Provider) (allow : bool) :
  NoDup (providerFallbackOrder X allow) /\
  (autoSelect ∉ providerFallbackOrder X allow) /\
  (X <> autoSelect -> head (providerFallbackOrder X allow) = Some X) /\
  (X = autoSelect -> providerFallbackOrder X allow = [qnn; dml; cuda; rocm; coreml; cpu]) /\
  (allow = true -> forall p, p <> autoSelect -> p ∈ providerFallbackOrder X allow) /\
  (allow = true -> last (providerFallbackOrder X allow)
                   = Some (if bool_decide (X = cpu) then coreml else cpu)).
Proof.
  split_and!.
  - apply fallback_order_NoDup.
  - destruct X, allow; apply (bool_decide_unpack _); vm_compute; exact I.
  - destruct X, allow; intros H; try done.
  - intros ->. by destruct allow.
  - intros -> p Hp. destruct X, p; try done; apply (bool_decide_unpack _); vm_compute; exact I.
  - intros ->. by destruct X.
Qed.

End RingBufferMore.

Section RingBufferPop.
Import RingBuffer RingBufferFacts.
(** X3: on a well-formed buffer [pop] never fails and returns
    [n = min (count, available)]; [dest] receives the [n] oldest samples in
    arrival order, its positions from [n] up to [count] are zeroed exactly
    when [fillIfInsufficient] is set, the rest of [dest] is untouched, and
    the buffer keeps the samples that were not handed out. *)
Theorem pop_hands_out_oldest_first rb dest count fill :
  wf rb -> 0 < count <= Z.of_nat (length dest) ->
  let n := Z.min count (availableSamples rb) in
  exists rb' dest',
    pop rb dest count fill = Some (rb', dest', n) /\ wf rb' /\
    capacity rb' = capacity rb /\ length dest' = length dest /\
    contents rb' = drop (Z.to_nat n) (contents rb) /\
    forall j, 0 <= j ->
      dest' !!! Z.to_nat j =
        if j <? n then contents rb !!! Z.to_nat j
        else if (fill && (j <? count))%bool then F32.zero
        else dest !!! Z.to_nat j.
Proof. apply pop_oldest_first. Qed.

End RingBufferPop.

(** ** Provider names, input shape and model candidates *)

Section StringFacts.
Import JuceString.
Lemma toLowerChar_idem c : toLowerChar (toLowerChar c) = toLowerChar c.
Proof. destruct c as [[] [] [] [] [] [] [] []]; reflexivity. Qed.

Lemma isWhitespace_toLowerChar c : isWhitespace (toLowerChar c) = isWhitespace c.
Proof. destruct c as [[] [] [] [] [] [] [] []]; reflexivity. Qed.

Lemma toLowerCase_idem s : toLowerCase (toLowerCase s) = toLowerCase s.
Proof. induction s as [ | c s IH ]; simpl; [ done | ]. by rewrite toLowerChar_idem, IH. Qed.

Lemma trimStart_toLowerCase s : trimStart (toLowerCase s) = toLowerCase (trimStart s).
Proof.
  induction s as [ | c s IH ]; simpl; [ done | ].
  rewrite isWhitespace_toLowerChar. by destruct (isWhitespace c).
Qed.

Lemma trimEnd_toLowerCase s : trimEnd (toLowerCase s) = toLowerCase (trimEnd s).
Proof.
  induction s as [ | c s IH ]; simpl; [ done | ].
  rewrite IH, isWhitespace_toLowerChar.
  destruct (trimEnd s); simpl; [ by destruct (isWhitespace c) | done ].
Qed.

Lemma trim_toLowerCase s : trim (toLowerCase s) = toLowerCase (trim s).
Proof. unfold trim. by rewrite trimStart_toLowerCase, trimEnd_toLowerCase. Qed.



Lemma trimStart_clean s : clean_start (trimStart s).
Proof.
  induction s as [ | c s IH ]; simpl; [ done | ].
  destruct (isWhitespace c) eqn:E; [ done | simpl; done ].
Qed.

Lemma trimStart_of_clean s : clean_start s -> trimStart s = s.
Proof. destruct s as [ | c s ]; simpl; [ done | ]. by intros ->. Qed.

Lemma trimEnd_clean s : clean_start s -> clean_start (trimEnd s).
Proof.
  destruct s as [ | c s ]; simpl; [ done | ]. intros Hc.
  destruct (trimEnd s); simpl; [ by rewrite Hc | done ].
Qed.

Lemma trimEnd_idem s : trimEnd (trimEnd s) = trimEnd s.
Proof.
  induction s as [ | c s IH ]; simpl; [ done | ].
  destruct (trimEnd s) as [ | c' t ] eqn:E.
  - destruct (isWhitespace c) eqn:Ec; simpl; [ done | by rewrite Ec ].
  - simpl in *. rewrite IH. done.
Qed.

Lemma trim_idem s : trim (trim s) = trim s.
Proof.
  unfold trim.
  rewrite (trimStart_of_clean (trimEnd (trimStart s)))
    by (apply trimEnd_clean, trimStart_clean).
  apply trimEnd_idem.
Qed.

(** X6: [providerFromString] does not depend on the case of the letters of
    the name nor on white space around it. *)
Theorem providerFromString_ignores_case_and_padding (name : string) :
  providerFromString (toLowerCase name) = providerFromString name /\
  providerFromString (trim name) = providerFromString name.
Proof.
  unfold providerFromString. split.
  - by rewrite trim_toLowerCase, toLowerCase_idem.
  - by rewrite trim_idem.
Qed.

End StringFacts.

Section Shape.
Context {OrtSession Interp : Type}.
Implicit Types d : @OnnxDenoiser OrtSession Interp.

(** X7: for a model input of rank at most 3 (also for an unknown shape) the
    resolved shape holds exactly [frameSize] elements; the rank of a known
    shape is kept; no dimension of the result is negative; for higher ranks
    only the dynamic (negative) dimensions are replaced, by [frameSize]. *)
Theorem resolveInputShape_single_frame d (frameSize : Z) :
  ((length (modelInputShape d) <= 3)%nat ->
     shapeElements (resolveInputShape d frameSize) = frameSize) /\
  (modelInputShape d <> [] ->
     length (resolveInputShape d frameSize) = length (modelInputShape d)) /\
  (0 <= frameSize -> Forall (fun dim => 0 <= dim) (resolveInputShape d frameSize)) /\
  ((3 < length (modelInputShape d))%nat ->
     resolveInputShape d frameSize
     = (fun dim => if dim <? 0 then frameSize else dim) <$> modelInputShape d).
Proof.
  unfold resolveInputShape.
  destruct (modelInputShape d) as [ | a [ | b [ | c [ | e rest ] ] ] ]; simpl.
  - split_and!; try done; try lia. intros H. repeat constructor; lia.
  - split_and!; try done; try lia. intros H. repeat constructor; lia.
  - split_and!; try done; try lia. intros H. repeat constructor; lia.
  - split_and!; try done; try lia. intros H. repeat constructor; lia.
  - split_and!; try done; try lia.
    + by rewrite length_fmap.
    + intros H. repeat (constructor; [ destruct (_ <? _) eqn:E; lia | ]).
      apply Forall_fmap, Forall_true. intros x. simpl. destruct (Z.ltb_spec x 0); lia.
Qed.
End Shape.

Section Candidates.
Context {OrtSession Interp : Type} (rt : Runtime OrtSession Interp).
Implicit Types (d : @OnnxDenoiser OrtSession Interp).

Lemma addIfNotAlreadyThere_NoDup (a : list string) (s : string) :
  NoDup a -> NoDup (addIfNotAlreadyThere a s).
Proof.
  intros Ha. unfold addIfNotAlreadyThere. case_bool_decide; [ done | ].
  apply NoDup_app. split_and!; [ done | | apply NoDup_singleton ].
  intros x Hx Hs. apply list_elem_of_singleton in Hs. by subst.
Qed.

Lemma concat_fmap_length {A B} (f : A -> list B) (l : list A) (k : nat) :
  (forall x, length (f x) = k) -> length (concat (f <$> l)) = (length l * k)%nat.
Proof.
  intros Hf. induction l as [ | x l IH ]; [ done | ].
  rewrite fmap_cons. cbn [concat]. rewrite length_app, Hf, IH. simpl. done.
Qed.

(** X8: the candidates are every file name in every search directory's
    [models] folder, directory by directory; directories and file names are
    free of duplicates; the file names end with the two CPU models, after
    the one model of the preferred provider (none for the CPU, the five
    accelerator models for [autoSelect]). *)
Theorem getModelCandidates_layout d :
  getModelCandidates rt d
  = concat ((fun dir => (fun name => getChildFile rt (getChildFile rt dir "models") name)
                          <$> modelFilenames (preferredProvider d))
            <$> modelSearchDirs rt) /\
  length (getModelCandidates rt d)
  = (length (modelSearchDirs rt) * length (modelFilenames (preferredProvider d)))%nat /\
  NoDup (modelSearchDirs rt) /\
  NoDup (modelFilenames (preferredProvider d)) /\
  (exists specific,
     modelFilenames (preferredProvider d)
     = specific ++ ["rnnoise_48k_olive_cpu.onnx"; "rnnoise_48k.onnx"]%string /\
     (length specific
      = if bool_decide (preferredProvider d = autoSelect) then 5
        else if bool_decide (preferredProvider d = cpu) then 0 else 1)%nat).
Proof.
  split_and!.
  - reflexivity.
  - unfold getModelCandidates. fold (modelSearchDirs rt).
    fold (modelFilenames (preferredProvider d)).
    apply concat_fmap_length. intros dir. by rewrite length_fmap.
  - unfold modelSearchDirs.
    assert (NoDup (match env_VRS_MODEL_DIR rt with Some e => [e] | None => [] end)) as H0.
    { destruct (env_VRS_MODEL_DIR rt); [ apply NoDup_singleton | apply NoDup_nil_2 ]. }
    destruct (executableDir rt), (applicationDir rt);
      repeat apply addIfNotAlreadyThere_NoDup; done.
  - destruct (preferredProvider d); apply (bool_decide_unpack _); vm_compute; exact I.
  - exists (take (length (modelFilenames (preferredProvider d)) - 2)
              (modelFilenames (preferredProvider d))).
    destruct (preferredProvider d); split; vm_compute; reflexivity.
Qed.

End Candidates.

(** ** Loading a model *)

Section Loading.
Context {OrtSession Interp : Type} (rt : Runtime OrtSession Interp).
Implicit Types d : @OnnxDenoiser OrtSession Interp.

Lemma same_preferences_refl d : same_preferences d d.
Proof. by unfold same_preferences. Qed.

Lemma same_preferences_trans d1 d2 d3 :
  same_preferences d1 d2 -> same_preferences d2 d3 -> same_preferences d1 d3.
Proof.
  unfold same_preferences. intros (-> & -> & -> & -> & ->) (-> & -> & -> & -> & ->). done.
Qed.

(** One attempt. *)
Lemma tryCreate_facts d file provider :
  same_preferences d (fst (tryCreateSessionForProvider rt d file provider)) /\
  modelPath (fst (tryCreateSessionForProvider rt d file provider)) = modelPath d /\
  (existsAsFile rt file = false ->
     tryCreateSessionForProvider rt d file provider = (d, false)) /\
  (existsAsFile rt file = true ->
     snd (tryCreateSessionForProvider rt d file provider)
     = isReady (fst (tryCreateSessionForProvider rt d file provider))) /\
  (snd (tryCreateSessionForProvider rt d file provider) = true ->
     existsAsFile rt file = true /\
     activeProvider (fst (tryCreateSessionForProvider rt d file provider)) = provider /\
     ortCreateSession rt file provider
     = session (fst (tryCreateSessionForProvider rt d file provider)) /\
     (provider <> autoSelect -> isProviderUsable rt provider = true)) /\
  (snd (tryCreateSessionForProvider rt d file provider) = false ->
     activeProvider (fst (tryCreateSessionForProvider rt d file provider))
     = activeProvider d).
Proof.
  unfold tryCreateSessionForProvider.
  destruct (existsAsFile rt file) eqn:Hex; simpl.
  2: { split_and!; try done; try apply same_preferences_refl. }
  match goal with |- context [negb ?b] => destruct b eqn:Hready end; simpl.
  2: { split_and!; try done. }
  destruct (ortCreateSession rt file provider) as [s | ] eqn:Hs; simpl.
  2: { split_and!; try done. }
  destruct (ortInputName rt s); simpl.
  2: { split_and!; try done. }
  destruct (ortOutputName rt s); simpl.
  2: { split_and!; try done. }
  destruct (ortInputShape rt s); simpl.
  2: { split_and!; try done. }
  split_and!; try done.
  intros _. split_and!; try done.
  intros Hp. destruct provider; simpl in *; try done;
    repeat match type of Hready with
           | (if ?b then _ else _) = true => destruct b; try discriminate
           end; done.
Qed.

Lemma tryProviders_facts d file providers :
  isReady d = false ->
  same_preferences d (fst (tryProviders rt d file providers)) /\
  modelPath (fst (tryProviders rt d file providers)) = modelPath d /\
  (snd (tryProviders rt d file providers) = true ->
     existsAsFile rt file = true /\
     activeProvider (fst (tryProviders rt d file providers)) ∈ providers /\
     isProviderUsable rt (activeProvider (fst (tryProviders rt d file providers))) = true /\
     ortCreateSession rt file (activeProvider (fst (tryProviders rt d file providers)))
     = session (fst (tryProviders rt d file providers))) /\
  (snd (tryProviders rt d file providers) = false ->
     isReady (fst (tryProviders rt d file providers)) = false /\
     activeProvider (fst (tryProviders rt d file providers)) = activeProvider d).
Proof.
  revert d. induction providers as [ | p ps IH ]; intros d Hd; simpl.
  - split_and!; try done; try apply same_preferences_refl.
  - destruct (isProviderUsable rt p) eqn:Hu; simpl.
    2: { destruct (IH d Hd) as (Hs & Hm & Ht & Hf). split_and!; try done.
         intros H. destruct (Ht H) as (? & ? & ? & ?). split_and!; try done.
         by apply list_elem_of_further. }
    pose proof (tryCreate_facts d file p) as (Hs1 & Hm1 & Hno & Hyes & Hok & Hbad).
    pose proof (tryCreateSessionForProvider_ready rt d file p Hd) as Hr1.
    destruct (tryCreateSessionForProvider rt d file p) as [d1 ok]; simpl in *.
    destruct ok; simpl.
    + split_and!; try done. intros _.
      destruct (Hok eq_refl) as (? & -> & ? & _). split_and!; try done.
      apply list_elem_of_here.
    + destruct (IH d1 (eq_sym Hr1)) as (Hs & Hm & Ht & Hf). split_and!.
      * eapply same_preferences_trans; eauto.
      * congruence.
      * intros H. destruct (Ht H) as (? & ? & ? & ?). split_and!; try done.
        by apply list_elem_of_further.
      * intros H. destruct (Hf H) as (? & ?). split; [ done | ].
        rewrite <- (Hbad eq_refl). done.
Qed.

Lemma tryCandidates_facts d candidates providers :
  isReady d = false ->
  same_preferences d (fst (tryCandidates rt d candidates providers)) /\
  (snd (tryCandidates rt d candidates providers) = true ->
     modelPath (fst (tryCandidates rt d candidates providers)) ∈ candidates /\
     existsAsFile rt (modelPath (fst (tryCandidates rt d candidates providers))) = true /\
     activeProvider (fst (tryCandidates rt d candidates providers)) ∈ providers /\
     isProviderUsable rt (activeProvider (fst (tryCandidates rt d candidates providers)))
     = true /\
     ortCreateSession rt (modelPath (fst (tryCandidates rt d candidates providers)))
       (activeProvider (fst (tryCandidates rt d candidates providers)))
     = session (fst (tryCandidates rt d candidates providers))) /\
  (snd (tryCandidates rt d candidates providers) = false ->
     modelPath (fst (tryCandidates rt d candidates providers)) = modelPath d /\
     activeProvider (fst (tryCandidates rt d candidates providers)) = activeProvider d).
Proof.
  revert d. induction candidates as [ | c cs IH ]; intros d Hd; simpl.
  - split_and!; try done; try apply same_preferences_refl.
  - destruct (existsAsFile rt c) eqn:Hex; simpl.
    2: { destruct (IH d Hd) as (Hs & Ht & Hf). split_and!; try done.
         intros H. destruct (Ht H) as (? & ? & ? & ? & ?). split_and!; try done.
         by apply list_elem_of_further. }
    pose proof (tryProviders_facts d c providers Hd) as (Hs1 & Hm1 & Hok & Hbad).
    destruct (tryProviders rt d c providers) as [d1 ok]; simpl in *.
    destruct ok; simpl.
    + split_and!; try done. intros _.
      destruct (Hok eq_refl) as (? & ? & ? & ?). split_and!; try done.
      apply list_elem_of_here.
    + destruct (Hbad eq_refl) as (Hr1 & Ha1).
      destruct (IH d1 Hr1) as (Hs & Ht & Hf). split_and!.
      * eapply same_preferences_trans; eauto.
      * intros H. destruct (Ht H) as (? & ? & ? & ? & ?). split_and!; try done.
        by apply list_elem_of_further.
      * intros H. destruct (Hf H) as (? & ?). split; congruence.
Qed.

Lemma getModelCandidates_same_preferences d d' :
  same_preferences d d' -> getModelCandidates rt d' = getModelCandidates rt d.
Proof. intros (Hp & _). unfold getModelCandidates. by rewrite Hp. Qed.

Lemma load_facts d :
  isReady d = false ->
  same_preferences d (fst (loadDefaultModelIfNeeded rt d)) /\
  (snd (loadDefaultModelIfNeeded rt d) = true ->
     (modelPath (fst (loadDefaultModelIfNeeded rt d)) = modelPath d \/
      modelPath (fst (loadDefaultModelIfNeeded rt d)) ∈ getModelCandidates rt d) /\
     existsAsFile rt (modelPath (fst (loadDefaultModelIfNeeded rt d))) = true /\
     activeProvider (fst (loadDefaultModelIfNeeded rt d)) ∈ getProviderFallbackOrder d /\
     isProviderUsable rt (activeProvider (fst (loadDefaultModelIfNeeded rt d))) = true /\
     ortCreateSession rt (modelPath (fst (loadDefaultModelIfNeeded rt d)))
       (activeProvider (fst (loadDefaultModelIfNeeded rt d)))
     = session (fst (loadDefaultModelIfNeeded rt d))) /\
  (snd (loadDefaultModelIfNeeded rt d) = false ->
     modelPath (fst (loadDefaultModelIfNeeded rt d)) = modelPath d /\
     activeProvider (fst (loadDefaultModelIfNeeded rt d)) = activeProvider d).
Proof.
  intros Hd. unfold loadDefaultModelIfNeeded. rewrite Hd.
  destruct (existsAsFile rt (modelPath d)) eqn:Hex.
  - pose proof (tryProviders_facts d (modelPath d) (getProviderFallbackOrder d) Hd)
      as (Hs1 & Hm1 & Hok & Hbad).
    destruct (tryProviders rt d (modelPath d) (getProviderFallbackOrder d)) as [d1 ok].
    simpl in *. destruct ok; simpl.
    + split_and!; try done. intros _.
      destruct (Hok eq_refl) as (? & ? & ? & ?). rewrite Hm1. split_and!; try done.
      by left.
    + destruct (Hbad eq_refl) as (Hr1 & Ha1).
      destruct (tryCandidates_facts d1 (getModelCandidates rt d1) (getProviderFallbackOrder d) Hr1)
        as (Hs & Ht & Hf).
      rewrite (getModelCandidates_same_preferences d d1 Hs1) in *.
      split_and!.
      * eapply same_preferences_trans; eauto.
      * intros H. destruct (Ht H) as (? & ? & ? & ? & ?). split_and!; try done. by right.
      * intros H. destruct (Hf H) as (? & ?). split; congruence.
  - destruct (tryCandidates_facts d (getModelCandidates rt d) (getProviderFallbackOrder d) Hd)
      as (Hs & Ht & Hf).
    split_and!; try done.
    intros H. destruct (Ht H) as (? & ? & ? & ? & ?). split_and!; try done. by right.
Qed.

(** X9: an attempt on an existing model file that fails leaves the object
    without a session, also when it had one, and keeps the recorded active
    provider and model path. *)
Theorem failed_attempt_destroys_session d file provider :
  existsAsFile rt file = true ->
  snd (tryCreateSessionForProvider rt d file provider) = false ->
  isReady (fst (tryCreateSessionForProvider rt d file provider)) = false /\
  activeProvider (fst (tryCreateSessionForProvider rt d file provider)) = activeProvider d /\
  modelPath (fst (tryCreateSessionForProvider rt d file provider)) = modelPath d.
Proof.
  intros Hex Hfail.
  pose proof (tryCreate_facts d file provider) as (_ & Hm & _ & Hyes & _ & Hbad).
  split_and!; [ | by apply Hbad | done ].
  rewrite <- (Hyes Hex). done.
Qed.

(** X10: a load that succeeds from an object without session leaves a
    session created for a provider of the fallback order that is usable in
    this build, from an existing file that is the configured path or one of
    the candidates, and records that provider and file; the preferences are
    kept. *)
Theorem loaded_session_comes_from_fallback_order d :
  isReady d = false ->
  snd (loadDefaultModelIfNeeded rt d) = true ->
  let d' := fst (loadDefaultModelIfNeeded rt d) in
  isReady d' = true /\
  activeProvider d' ∈ getProviderFallbackOrder d /\
  isProviderUsable rt (activeProvider d') = true /\
  (modelPath d' = modelPath d \/ modelPath d' ∈ getModelCandidates rt d) /\
  existsAsFile rt (modelPath d') = true /\
  session d' = ortCreateSession rt (modelPath d') (activeProvider d') /\
  preferredProvider d' = preferredProvider d /\ allowFallback d' = allowFallback d.
Proof.
  intros Hd Hok. simpl.
  destruct (load_facts d Hd) as ((Hp & Ha & _) & Ht & _).
  destruct (Ht Hok) as (? & ? & ? & ? & ?).
  split_and!; try done.
  rewrite <- (loadDefaultModelIfNeeded_ready rt d). done.
Qed.

(** X11: with fallback disallowed and a real provider preferred, a load
    that succeeds runs on the preferred provider. *)
Theorem no_fallback_means_preferred_provider d :
  isReady d = false ->
  allowFallback d = false ->
  preferredProvider d <> autoSelect ->
  snd (loadDefaultModelIfNeeded rt d) = true ->
  activeProvider (fst (loadDefaultModelIfNeeded rt d)) = preferredProvider d.
Proof.
  intros Hd Hno Hp Hok.
  destruct (load_facts d Hd) as (_ & Ht & _).
  destruct (Ht Hok) as (_ & _ & Hin & _).
  unfold getProviderFallbackOrder in Hin. rewrite Hno in Hin.
  destruct (preferredProvider d); try done;
    apply list_elem_of_singleton in Hin; done.
Qed.

(** X12: a load that fails from an object without session leaves it without
    session and keeps the model path, the active provider, the preferences,
    the enabled flag and the channels. *)
Theorem failed_load_changes_nothing_visible d :
  isReady d = false ->
  snd (loadDefaultModelIfNeeded rt d) = false ->
  let d' := fst (loadDefaultModelIfNeeded rt d) in
  isReady d' = false /\ modelPath d' = modelPath d /\ activeProvider d' = activeProvider d /\
  preferredProvider d' = preferredProvider d /\ allowFallback d' = allowFallback d /\
  enabled d' = enabled d /\ channels d' = channels d.
Proof.
  intros Hd Hbad. simpl.
  destruct (load_facts d Hd) as ((Hp & Ha & _ & _ & He) & _ & Hf).
  destruct (Hf Hbad) as (? & ?).
  destruct (loadDefaultModelIfNeeded_wiring rt d) as (Hch & _).
  split_and!; try done.
  rewrite <- (loadDefaultModelIfNeeded_ready rt d). done.
Qed.

End Loading.

(** ** Inference on a frame *)

Section Inference.
Context {OrtSession Interp : Type} (rt : Runtime OrtSession Interp).
Implicit Types (d : @OnnxDenoiser OrtSession Interp) (state : @ChannelState Interp).
Import RingBuffer RingBufferFacts.

(** The output array after a successful run. *)
Lemma copy_and_pad (output outputData : list float32) (frameSize : Z) :
  0 <= frameSize <= Z.of_nat (length output) ->
  (let samplesToCopy := jmin frameSize (Z.of_nat (length outputData)) in
   let out := memcpy output 0 outputData 0 samplesToCopy in
   if samplesToCopy <? frameSize
   then fill_range out samplesToCopy frameSize F32.zero else out)
  = take (Z.to_nat frameSize) outputData
    ++ replicate (Z.to_nat frameSize - length outputData) F32.zero
    ++ drop (Z.to_nat frameSize) output.
Proof.
  intros Hfs. simpl. rewrite jmin_min.
  set (n := Z.min frameSize (Z.of_nat (length outputData))).
  apply list_eq_total.
  { destruct (n <? frameSize); rewrite ?fill_range_length, memcpy_length;
      rewrite !length_app, length_take, length_replicate, length_drop; lia. }
  intros j Hj.
  assert (memcpy output 0 outputData 0 n !!! Z.to_nat j
          = if j <? n then outputData !!! Z.to_nat j else output !!! Z.to_nat j) as Hcopy.
  { rewrite memcpy_lookup by lia.
    destruct (Z.leb_spec 0 j); [ | lia ]. simpl.
    destruct (Z.ltb_spec j (0 + n)), (Z.ltb_spec j n); try lia; [ | done ].
    f_equal. lia. }
  assert (length (take (Z.to_nat frameSize) outputData) = Z.to_nat n) as Hlt
    by (rewrite length_take; lia).
  assert ((take (Z.to_nat frameSize) outputData
           ++ replicate (Z.to_nat frameSize - length outputData) F32.zero
           ++ drop (Z.to_nat frameSize) output) !!! Z.to_nat j
          = if j <? n then outputData !!! Z.to_nat j
            else if j <? frameSize then F32.zero else output !!! Z.to_nat j) as ->.
  { destruct (Z.ltb_spec j n).
    - rewrite lookup_total_app_l by lia. apply lookup_total_take_lt. lia.
    - rewrite lookup_total_app_r by lia. rewrite Hlt.
      destruct (Z.ltb_spec j frameSize).
      + rewrite lookup_total_app_l by (rewrite length_replicate; lia).
        apply lookup_total_replicate_2. lia.
      + rewrite lookup_total_app_r by (rewrite length_replicate; lia).
        rewrite length_replicate, lookup_total_drop. f_equal. lia. }
  destruct (Z.ltb_spec n frameSize).
  - rewrite fill_range_lookup by (rewrite ?memcpy_length; lia). rewrite Hcopy.
    destruct (Z.leb_spec n j), (Z.ltb_spec j frameSize), (Z.ltb_spec j n); simpl; try lia; done.
  - rewrite Hcopy.
    destruct (Z.ltb_spec j n), (Z.ltb_spec j frameSize); try lia; done.
Qed.

(** X13: when the model returns a readable first output, [runModel] returns
    true, stores the session as the run left it, and writes to [output] the
    first [frameSize] output samples, zero-padded up to [frameSize] when
    the model returned fewer; [output] beyond [frameSize] is untouched. *)
Theorem runModel_copies_and_pads d s s' outputData rest (input output : list float32)
    (frameSize : Z) :
  session d = Some s ->
  ortRun rt s (inputName d) (outputName d) (resolveInputShape d frameSize)
    (take (Z.to_nat frameSize) input)
  = (s', RunOutputs (Some outputData :: rest)) ->
  0 <= frameSize <= Z.of_nat (length output) ->
  runModel rt d input output frameSize
  = (with_session d (Some s'),
     take (Z.to_nat frameSize) outputData
     ++ replicate (Z.to_nat frameSize - length outputData) F32.zero
     ++ drop (Z.to_nat frameSize) output,
     true).
Proof.
  intros Hs Hrun Hfs. unfold runModel. rewrite Hs, Hrun.
  do 2 f_equal. by apply copy_and_pad.
Qed.

(** X14: one pass of the frame loop whose inference succeeds consumes the
    oldest frame of the input FIFO and appends the model's output frame to
    the output FIFO; the readiness of the object does not change. *)
Theorem frame_output_pushed_when_inference_succeeds d state :
  fifos_wf state ->
  modelFrameSize <= available (inputFifo state) ->
  length (frameIn state) = Z.to_nat modelFrameSize ->
  length (frameOut state) = Z.to_nat modelFrameSize ->
  modelFrameSize <= capacity (outputFifo state) ->
  snd (runModel rt d (take (Z.to_nat modelFrameSize) (contents (inputFifo state)))
         (frameOut state) modelFrameSize) = true ->
  exists d' state',
    frameStep rt d state = Some (d', state') /\
    isReady d' = isReady d /\
    frameOut state'
    = snd (fst (runModel rt d (take (Z.to_nat modelFrameSize) (contents (inputFifo state)))
                  (frameOut state) modelFrameSize)) /\
    length (frameOut state') = Z.to_nat modelFrameSize /\
    contents (inputFifo state')
    = drop (Z.to_nat modelFrameSize) (contents (inputFifo state)) /\
    contents (outputFifo state')
    = lastn (Z.to_nat (Z.min (capacity (outputFifo state))
                         (availableSamples (outputFifo state) + modelFrameSize)))
        (contents (outputFifo state) ++ frameOut state').
Proof.
  intros (Hin & Hout) Hav Hlen HlenO Hcap Hok.
  set (frame := take (Z.to_nat modelFrameSize) (contents (inputFifo state))) in *.
  destruct (pop_full_frame (inputFifo state) (frameIn state) modelFrameSize Hin
              ltac:(unfold modelFrameSize; lia) Hav Hlen)
    as (fifoIn & Hpop & HwfIn & _ & _ & Hrest).
  fold frame in Hpop.
  destruct (runModel_spec rt d frame (frameOut state) modelFrameSize)
    as (d' & fOut & ok & Hrun & _ & Hready & HlenOut & _).
  rewrite Hrun in Hok |- *. simpl in Hok |- *. subst ok.
  destruct (push_contents (outputFifo state) fOut modelFrameSize Hout
              ltac:(rewrite HlenOut, HlenO; unfold modelFrameSize; lia))
    as (fifoOut & Hpush & _ & _ & Hcont).
  simpl in Hcont.
  replace (Z.max 0 (Z.min modelFrameSize (capacity (outputFifo state))))
    with modelFrameSize in Hcont by (unfold modelFrameSize in *; lia).
  rewrite (take_ge fOut) in Hcont by lia.
  eexists _, _. split.
  { unfold frameStep. rewrite Hpop. simpl. rewrite Hrun. rewrite Hpush. reflexivity. }
  simpl. split_and!; try done. congruence.
Qed.

End Inference.

(** ** What processing leaves behind *)

Lemma same_shape_except_refl p h : same_shape_except p h h.
Proof. split; [ done | ]. intros q. by split. Qed.

Lemma insert_row_shape (h : Heap) p row :
  length row = length (h !!! p) -> same_shape_except p h (<[p := row]> h).
Proof.
  intros Hrow. unfold same_shape_except, Heap in *. split; [ apply length_insert | ].
  intros q. destruct (decide (p = q)) as [-> | Hne].
  - split; [ | done ].
    destruct (decide (q < length h)%nat).
    + by rewrite list_lookup_total_insert_eq.
    + by rewrite list_insert_ge by lia.
  - rewrite list_lookup_total_insert_ne by done. split; [ done | ]. done.
Qed.

Lemma same_shape_except_trans p h1 h2 h3 :
  same_shape_except p h1 h2 -> same_shape_except p h2 h3 -> same_shape_except p h1 h3.
Proof.
  intros (Hl1 & H1) (Hl2 & H2). split; [ congruence | ].
  intros q. destruct (H1 q) as (Ha & Hb), (H2 q) as (Hc & Hd).
  split; [ congruence | ]. intros Hq. rewrite Hd, Hb; done.
Qed.

Lemma mixLoop_shape iters i (h : Heap) input output dryMix mix :
  same_shape_except output h (mixLoop iters i h input output dryMix mix).
Proof.
  revert i h. induction iters as [ | iters IH ]; intros i h; simpl.
  - apply same_shape_except_refl.
  - eapply same_shape_except_trans; [ | apply IH ].
    unfold store. apply insert_row_shape. unfold Heap in *. apply length_insert.
Qed.

Section Processing.
Context {OrtSession Interp : Type} (rt : Runtime OrtSession Interp).
Implicit Types (d : @OnnxDenoiser OrtSession Interp) (state : @ChannelState Interp).
Import RingBuffer RingBufferFacts.

Lemma same_settings_refl d : same_settings d d.
Proof. split_and!; try done; try apply same_preferences_refl. Qed.

Lemma same_settings_trans d1 d2 d3 :
  same_settings d1 d2 -> same_settings d2 d3 -> same_settings d1 d3.
Proof.
  intros (Hp & Ha & Hm) (Hp' & Ha' & Hm'). split_and!; try congruence.
  eapply same_preferences_trans; eauto.
Qed.

Lemma runModel_settings d input output frameSize :
  same_settings d (fst (fst (runModel rt d input output frameSize))).
Proof.
  unfold runModel. destruct (session d) as [s | ]; [ | apply same_settings_refl ].
  destruct (ortRun rt s _ _ _ _) as [s' r].
  destruct r as [ | [ | [outputData | ] rest ] ]; simpl; by split_and!.
Qed.

Lemma frameStep_settings d state d' state' :
  frameStep rt d state = Some (d', state') -> same_settings d d'.
Proof.
  unfold frameStep. intros H.
  destruct (pop (inputFifo state) (frameIn state) modelFrameSize false)
    as [[[fifoIn fIn] n] | ]; simpl in H; [ | done ].
  pose proof (runModel_settings d fIn (frameOut state) modelFrameSize) as Hs.
  destruct (runModel rt d fIn (frameOut state) modelFrameSize) as [[d1 fOut] ok].
  simpl in *.
  destruct (if ok then _ else _); simpl in H; [ | done ].
  by injection H as <- _.
Qed.

Lemma frameLoop_settings fuel d state d' state' :
  frameLoop rt fuel d state = Some (d', state') -> same_settings d d'.
Proof.
  revert d state. induction fuel as [ | fuel IH ]; intros d state; simpl.
  - destruct (_ <=? _); [ done | ]. intros H. injection H as <- _. apply same_settings_refl.
  - destruct (_ <=? _).
    + destruct (frameStep rt d state) as [[d1 st1] | ] eqn:Hstep; simpl; [ | done ].
      intros H. eapply same_settings_trans; [ eapply frameStep_settings; eauto | eauto ].
    + intros H. injection H as <- _. apply same_settings_refl.
Qed.

(** Whatever the loops return, the settings and the session stay. *)
Lemma frameStep_ready d state d' state' :
  frameStep rt d state = Some (d', state') -> isReady d' = isReady d.
Proof.
  unfold frameStep. intros H.
  destruct (pop (inputFifo state) (frameIn state) modelFrameSize false)
    as [[[fifoIn fIn] n] | ]; simpl in H; [ | done ].
  destruct (runModel_spec rt d fIn (frameOut state) modelFrameSize)
    as (d1 & fOut & ok & Hrun & _ & Hready & _).
  rewrite Hrun in H.
  destruct (if ok then _ else _); simpl in H; [ | done ].
  by injection H as <- _.
Qed.

Lemma frameLoop_ready fuel d state d' state' :
  frameLoop rt fuel d state = Some (d', state') -> isReady d' = isReady d.
Proof.
  revert d state. induction fuel as [ | fuel IH ]; intros d state; simpl.
  - destruct (_ <=? _); [ done | ]. intros H. by injection H as <- _.
  - destruct (_ <=? _).
    + destruct (frameStep rt d state) as [[d1 st1] | ] eqn:Hstep; simpl; [ | done ].
      intros H. rewrite (IH _ _ H). eapply frameStep_ready; eauto.
    + intros H. by injection H as <- _.
Qed.

Lemma processChannel_keeps d state (h : Heap) (input output : nat) numSamples mix
    d' state' h' :
  processChannel rt d state h input output numSamples mix = Some (d', state', h') ->
  same_settings d d' /\ isReady d' = isReady d.
Proof.
  unfold processChannel. intros Hrun.
  destruct (interpProcess rt (resamplerIn state) (resampleInRatio d) (h !!! input)
              (targetSamplesOf d numSamples)) as [[rIn written] producedSamples].
  destruct (Z.of_nat _ <? jmin producedSamples _); [ done | ].
  destruct (push (inputFifo state) _ producedSamples) as [fifoIn | ] eqn:Hpush;
    simpl in Hrun; [ | done ].
  match type of Hrun with context [frameLoop rt ?f d ?st] =>
    destruct (frameLoop rt f d st) as [[d2 st2] | ] eqn:Hloop; simpl in Hrun; [ | done ]
  end.
  match type of Hrun with context [pop (outputFifo st2) ?t ?c true] =>
    destruct (pop (outputFifo st2) t c true) as [[[fifoOut tOut] n] | ] eqn:Hpop;
      simpl in Hrun; [ | done ]
  end.
  destruct (interpProcess rt (resamplerOut st2) (resampleOutRatio d2) tOut numSamples)
    as [[rOut written'] ret].
  injection Hrun as <- _ _.
  split; [ eapply frameLoop_settings; eauto | eapply frameLoop_ready; eauto ].
Qed.

Lemma channelLoop_keeps iters ch d (h : Heap) numSamples mix d' h' :
  channelLoop rt iters ch d h numSamples mix = Some (d', h') ->
  same_settings d d' /\ isReady d' = isReady d.
Proof.
  revert ch d h. induction iters as [ | iters IH ]; intros ch d h; simpl.
  - intros H. injection H as <- _. split; [ apply same_settings_refl | done ].
  - destruct (channels d !! ch) as [state | ]; simpl; [ | done ].
    destruct (processChannel rt d state h ch ch numSamples mix) as [[[d1 st1] h1] | ] eqn:Hp;
      simpl; [ | done ].
    intros H. destruct (processChannel_keeps _ _ _ _ _ _ _ _ _ _ Hp) as (Hs1 & Hr1).
    destruct (IH _ _ _ H) as (Hs2 & Hr2).
    split.
    + eapply same_settings_trans; [ exact Hs1 | ].
      destruct Hs2 as ((? & ? & ? & ? & ?) & ? & ?). by split_and!.
    + rewrite Hr2. exact Hr1.
Qed.

(** One channel: what [processChannel] leaves behind. *)
Lemma processChannel_effects d state (h : Heap) (input output : nat) numSamples mix :
  fifos_wf state ->
  reads_within rt (resampleInRatio d) ->
  exists d' state' h',
    processChannel rt d state h input output numSamples mix = Some (d', state', h') /\
    fifos_wf state' /\ same_wiring d d' /\ same_settings d d' /\ isReady d' = isReady d /\
    same_shape_except output h h' /\
    available (inputFifo state') < modelFrameSize.
Proof.
  intros Hwf Hrw.
  destruct (processChannel_total rt d state h input output numSamples mix Hwf Hrw)
    as (d' & state' & h' & Hrun & Hwf' & Hwire & Hready & _).
  pose proof Hrun as Hrun0.
  unfold processChannel in Hrun.
  destruct (interpProcess rt (resamplerIn state) (resampleInRatio d) (h !!! input)
              (targetSamplesOf d numSamples)) as [[rIn written] producedSamples].
  destruct (Z.of_nat _ <? jmin producedSamples _); [ done | ].
  destruct (push (inputFifo state) _ producedSamples) as [fifoIn | ] eqn:Hpush;
    simpl in Hrun; [ | done ].
  match type of Hrun with context [frameLoop rt ?f d ?st] =>
    destruct (frameLoop rt f d st) as [[d2 st2] | ] eqn:Hloop; simpl in Hrun; [ | done ]
  end.
  match type of Hrun with context [pop (outputFifo st2) ?t ?c true] =>
    destruct (pop (outputFifo st2) t c true) as [[[fifoOut tOut] n] | ] eqn:Hpop;
      simpl in Hrun; [ | done ]
  end.
  destruct (interpProcess rt (resamplerOut st2) (resampleOutRatio d2) tOut numSamples)
    as [[rOut written'] ret].
  injection Hrun as <- <- <-.
  eexists _, _, _. split; [ exact Hrun0 | ]. split_and!; try done.
  - eapply frameLoop_settings; eauto.
  - set (h1 := <[output := memcpy (h !!! output) 0 written' 0 numSamples]> h).
    assert (same_shape_except output h h1) as H1
      by (apply insert_row_shape, memcpy_length).
    destruct (F32.ltb mix F32.one); [ | done ].
    eapply same_shape_except_trans; [ exact H1 | apply mixLoop_shape ].
  - simpl.
    match type of Hpush with push ?r ?dt ?c = _ =>
      destruct (push_wf r dt c (proj1 Hwf)) as (f & Hp & Hwf1 & _)
    end.
    rewrite Hpush in Hp. injection Hp as <-.
    match type of Hloop with frameLoop rt ?f d ?st = _ =>
      destruct (frameLoop_total rt f d st) as (d3 & st3 & Hl & _ & _ & _ & _ & _ & _ & Hav);
        [ split; [ done | apply Hwf ] | done | ]
    end.
    rewrite Hloop in Hl. injection Hl as <- <-. done.
Qed.

Lemma channelLoop_effects iters ch d (h : Heap) numSamples mix :
  Forall fifos_wf (channels d) ->
  reads_within rt (resampleInRatio d) ->
  (ch + iters <= length (channels d))%nat ->
  exists d' h',
    channelLoop rt iters ch d h numSamples mix = Some (d', h') /\
    same_settings d d' /\ isReady d' = isReady d /\
    length (channels d') = length (channels d) /\
    length h' = length h /\
    (forall q, length (h' !!! q) = length (h !!! q) /\
               ((q < ch \/ ch + iters <= q)%nat -> h' !!! q = h !!! q)) /\
    (forall q c, (ch <= q < ch + iters)%nat -> channels d' !! q = Some c ->
                 available (inputFifo c) < modelFrameSize) /\
    (forall q, (q < ch \/ ch + iters <= q)%nat -> channels d' !! q = channels d !! q).
Proof.
  revert ch d h. induction iters as [ | iters IH ]; intros ch d h Hwf Hrw Hrange.
  - simpl. exists d, h. split_and!; try done; try apply same_settings_refl.
    intros q c Hq. lia.
  - simpl.
    destruct (lookup_lt_is_Some_2 (channels d) ch ltac:(lia)) as (state & Hstate).
    rewrite Hstate. simpl.
    destruct (processChannel_effects d state h ch ch numSamples mix
                (Forall_lookup_1 _ _ _ _ Hwf Hstate) Hrw)
      as (d1 & st1 & h1 & -> & Hwf1 & (Hch1 & Hri1 & _) & Hset1 & Hready1 & (Hlen1 & Hrows1)
          & Hav1).
    simpl.
    set (d2 := with_channels d1 (<[ch := st1]> (channels d1))).
    assert (channels d2 = <[ch := st1]> (channels d)) as Hch2 by (simpl; by rewrite Hch1).
    destruct (IH (S ch) d2 h1)
      as (d3 & h3 & -> & Hset3 & Hready3 & Hlen3 & Hhl3 & Hrows3 & Hav3 & Hsame3).
    { rewrite Hch2. by apply Forall_insert. }
    { unfold d2; simpl. by rewrite Hri1. }
    { rewrite Hch2, length_insert. lia. }
    exists d3, h3. split_and!; try done.
    + eapply same_settings_trans; [ exact Hset1 | ].
      destruct Hset3 as ((? & ? & ? & ? & ?) & ? & ?). by split_and!.
    + rewrite Hready3. exact Hready1.
    + rewrite Hlen3, Hch2. apply length_insert.
    + congruence.
    + intros q. destruct (Hrows3 q) as (Ha & Hb), (Hrows1 q) as (Hc & Hd).
      split; [ congruence | ]. intros Hq. rewrite Hb by lia. apply Hd. lia.
    + intros q c Hq Hc. destruct (decide (q = ch)) as [-> | Hne].
      * rewrite Hsame3 in Hc by lia. rewrite Hch2 in Hc.
        rewrite list_lookup_insert_eq in Hc by (apply lookup_lt_is_Some; eauto).
        by injection Hc as <-.
      * apply (Hav3 q c); [ lia | done ].
    + intros q Hq. rewrite Hsame3 by lia. rewrite Hch2.
      apply list_lookup_insert_ne. lia.
Qed.

End Processing.

Section Block2.
Context {OrtSession Interp : Type} (rt : Runtime OrtSession Interp).
Implicit Types (d : @OnnxDenoiser OrtSession Interp) (state : @ChannelState Interp).
Import RingBuffer RingBufferFacts.

Lemma leb_zero_nonpositive (mix : float32) : F32.leb mix F32.zero = nonpositive mix.
Proof. destruct mix as [ [] | [] | | [] m e ]; reflexivity. Qed.

Lemma load_settings d :
  same_preferences d (fst (loadDefaultModelIfNeeded rt d)) /\
  (isReady d = true -> loadDefaultModelIfNeeded rt d = (d, true)).
Proof.
  destruct (isReady d) eqn:Hd.
  - unfold loadDefaultModelIfNeeded. rewrite Hd. simpl. split; [ | done ].
    apply same_preferences_refl.
  - split; [ | done ]. by destruct (load_facts rt d Hd).
Qed.

(** Whatever [processBlock] returns: the object it was given, or the
    object the load left, with the settings and the session of that. *)
Lemma processBlock_keeps d (buffer : AudioBuffer) (mix : float32) d' buffer' :
  processBlock rt d buffer mix = Some (d', buffer') ->
  d' = d \/
  (same_settings (fst (loadDefaultModelIfNeeded rt d)) d' /\
   isReady d' = snd (loadDefaultModelIfNeeded rt d)).
Proof.
  unfold processBlock.
  destruct (enabled d); simpl; [ | intros H; injection H as <- _; by left ].
  destruct (F32.leb mix F32.zero); [ intros H; injection H as <- _; by left | ].
  pose proof (loadDefaultModelIfNeeded_ready rt d) as Hlr.
  destruct (loadDefaultModelIfNeeded rt d) as [d1 loaded]. simpl in *.
  destruct loaded; simpl.
  2: { intros H. injection H as <- _. right. split; [ apply same_settings_refl | done ]. }
  destruct (channelLoop rt _ 0 d1 (channelData buffer) (getNumSamples buffer) _)
    as [[d2 h2] | ] eqn:Hloop; simpl; [ | done ].
  intros H. injection H as <- _.
  destruct (channelLoop_keeps rt _ _ _ _ _ _ _ _ Hloop) as (Hs & Hr).
  right. split; [ done | congruence ].
Qed.

(** Everything [processBlock] does, in one place. *)
Lemma processBlock_effects d (buffer : AudioBuffer) (mix : float32) :
  Forall fifos_wf (channels d) ->
  reads_within rt (resampleInRatio d) ->
  exists d' buffer',
    processBlock rt d buffer mix = Some (d', buffer') /\
    same_preferences d d' /\
    length (channels d') = length (channels d) /\
    (isReady d = true ->
       isReady d' = true /\ activeProvider d' = activeProvider d /\
       modelPath d' = modelPath d) /\
    getNumSamples buffer' = getNumSamples buffer /\
    getNumChannels buffer' = getNumChannels buffer /\
    (forall q, length (channelData buffer' !!! q) = length (channelData buffer !!! q)) /\
    (forall q, (length (channels d) <= q)%nat ->
               channelData buffer' !!! q = channelData buffer !!! q) /\
    (enabled d = true -> nonpositive mix = false -> isReady d' = true ->
       forall q c, Z.of_nat q < getNumChannels buffer -> channels d' !! q = Some c ->
                   available (inputFifo c) < modelFrameSize) /\
    (isReady d' = false -> buffer' = buffer) /\
    (d' = d \/
     (same_settings (fst (loadDefaultModelIfNeeded rt d)) d' /\
      isReady d' = snd (loadDefaultModelIfNeeded rt d))).
Proof.
  intros Hwf Hrw. unfold processBlock.
  destruct (enabled d) eqn:Hen; simpl.
  2: { exists d, buffer. split_and!; try done; try apply same_preferences_refl. by left. }
  rewrite leb_zero_nonpositive.
  destruct (nonpositive mix) eqn:Hmix.
  { exists d, buffer. split_and!; try done; try apply same_preferences_refl. by left. }
  pose proof (load_settings d) as (Hprefs & Hready).
  pose proof (loadDefaultModelIfNeeded_wiring rt d) as (Hch & Hri & _).
  pose proof (loadDefaultModelIfNeeded_ready rt d) as Hlr.
  destruct (loadDefaultModelIfNeeded rt d) as [d1 loaded] eqn:Hload. simpl in *.
  destruct loaded; simpl.
  2: { exists d1, buffer. split_and!; try done; try congruence.
       - intros Hr. specialize (Hready Hr). congruence.
       - right. split; [ apply same_settings_refl | congruence ]. }
  rewrite jmin_min.
  set (n := Z.to_nat (Z.min (getNumChannels buffer) (Z.of_nat (length (channels d1))))).
  destruct (channelLoop_effects rt n 0 d1 (channelData buffer) (getNumSamples buffer)
              (jlimit F32.zero F32.one mix))
    as (d2 & h2 & -> & (Hp2 & Ha2 & Hm2) & Hr2 & Hlc2 & Hlh2 & Hrows2 & Hav2 & Hsame2).
  { by rewrite Hch. }
  { by rewrite Hri. }
  { unfold n. lia. }
  simpl. eexists _, _. split; [ reflexivity | ]. simpl.
  split_and!.
  - eapply same_preferences_trans; eauto.
  - congruence.
  - intros Hr. specialize (Hready Hr). injection Hready as ->.
    split_and!; congruence.
  - done.
  - unfold getNumChannels. simpl. by rewrite Hlh2.
  - intros q. apply Hrows2.
  - intros q Hq. apply Hrows2. right. unfold n. rewrite Hch. simpl. lia.
  - intros _ _ _ q c Hq Hc.
    apply (Hav2 q c); [ | done ].
    apply lookup_lt_Some in Hc. rewrite Hlc2 in Hc. unfold n. lia.
  - intros Hr. rewrite Hr2 in Hr. congruence.
  - right. split; [ by split_and! | congruence ].
Qed.




(** X15: at a mix of zero (of either sign) or below, [processBlock] changes
    neither the buffer nor the object, and does not try to load a model. *)
Theorem processBlock_dry_bypass d (buffer : AudioBuffer) (mix : float32) :
  nonpositive mix = true ->
  processBlock rt d buffer mix = Some (d, buffer).
Proof.
  intros H. unfold processBlock. rewrite leb_zero_nonpositive, H.
  by destruct (enabled d).
Qed.

End Block2.

(** ** Callers of the denoiser *)

Section Callers.
Context {OrtSession Interp : Type} (rt : Runtime OrtSession Interp).
Implicit Types (d : @OnnxDenoiser OrtSession Interp).



Lemma isEmpty_spec s : JuceString.isEmpty s = true <-> s = ""%string.
Proof. unfold JuceString.isEmpty. destruct (string_dec s ""); split; congruence. Qed.

(** [applyDenoiserSettings] always leaves the denoiser without
    session, with the preferences of the settings (the provider parsed from
    its name, so the canonical name of a provider selects that provider)
    and the model path of the settings (cleared when that is empty); the
    enabled flag and the channels are kept. *)
Lemma applyDenoiserSettings_resets_and_configures d (settings : SettingsManager.DenoiseSettings) :
  isReady (applyDenoiserSettings d settings) = false /\
  preferredProvider (applyDenoiserSettings d settings)
  = providerFromString (SettingsManager.provider settings) /\
  (forall p, SettingsManager.provider settings = providerToString p ->
             preferredProvider (applyDenoiserSettings d settings) = p) /\
  allowFallback (applyDenoiserSettings d settings) = SettingsManager.allowFallback settings /\
  dmlDeviceId (applyDenoiserSettings d settings) = SettingsManager.dmlDeviceId settings /\
  qnnBackendPath (applyDenoiserSettings d settings) = SettingsManager.qnnBackendPath settings /\
  modelPath (applyDenoiserSettings d settings) = SettingsManager.modelPath settings /\
  enabled (applyDenoiserSettings d settings) = enabled d /\
  channels (applyDenoiserSettings d settings) = channels d.
Proof.
  unfold applyDenoiserSettings.
  destruct (JuceString.isEmpty (SettingsManager.modelPath settings)) eqn:He; simpl.
  - apply isEmpty_spec in He. rewrite He. split_and!; try done.
    intros p ->. by destruct p.
  - split_and!; try done. intros p ->. by destruct p.
Qed.

(** X22: when the provider test of the settings dialog reports success
    for a real provider, the session was created for that very provider,
    which is usable in this build, from an existing model file; and the
    test completes as long as the interpolator, at the speed ratio 1 of the
    test, returns no more than the number of samples it was asked for. *)
Theorem provider_test_never_passes_through_fallback
    (settings : SettingsManager.DenoiseSettings) (provider : Provider) :
  (forall tester,
     runProviderTest rt settings provider = Some tester ->
     isReady tester = true -> provider <> autoSelect ->
     activeProvider tester = provider /\
     isProviderUsable rt provider = true /\
     existsAsFile rt (modelPath tester) = true /\
     is_Some (ortCreateSession rt (modelPath tester) provider)) /\
  (reads_within rt (F64.div (F64.of_int 48000) modelSampleRate) ->
   exists tester, runProviderTest rt settings provider = Some tester).
Proof.
  unfold runProviderTest.
  set (t0 := if negb (JuceString.isEmpty (SettingsManager.modelPath settings)) then _ else _).
  assert (isReady t0 = false /\ allowFallback t0 = false /\ preferredProvider t0 = provider)
    as (Hr0 & Hf0 & Hp0).
  { unfold t0. by destruct (negb _). }
  (* what a successful load from an unready tester with these preferences gives *)
  assert (forall t, isReady t = false -> allowFallback t = false ->
                    preferredProvider t = provider -> provider <> autoSelect ->
                    snd (loadDefaultModelIfNeeded rt t) = true ->
                    let t' := fst (loadDefaultModelIfNeeded rt t) in
                    activeProvider t' = provider /\
                    isProviderUsable rt provider = true /\
                    existsAsFile rt (modelPath t') = true /\
                    is_Some (ortCreateSession rt (modelPath t') provider)) as Hgood.
  { intros t Hr Hf Hp Hne Hok. simpl.
    destruct (load_facts rt t Hr) as (_ & Ht & _).
    destruct (Ht Hok) as (_ & Hex & Hin & Hus & Hs).
    unfold getProviderFallbackOrder in Hin. rewrite Hf, Hp in Hin.
    assert (activeProvider (fst (loadDefaultModelIfNeeded rt t)) = provider) as Ha.
    { destruct provider; try done; apply list_elem_of_singleton in Hin; done. }
    rewrite Ha in *. split_and!; try done.
    pose proof (loadDefaultModelIfNeeded_ready rt t) as Hlr. rewrite Hok in Hlr.
    unfold isReady in Hlr. rewrite Hs.
    destruct (session (fst (loadDefaultModelIfNeeded rt t))); [ by eexists | done ]. }
  unfold prepare.
  match goal with |- context [loadDefaultModelIfNeeded rt ?d0] => set (p0 := d0) end.
  assert (isReady p0 = false /\ allowFallback p0 = false /\ preferredProvider p0 = provider)
    as (Hrp & Hfp & Hpp) by done.
  set (t1 := fst (loadDefaultModelIfNeeded rt p0)).
  set (t2 := setEnabled t1 true).
  assert (Forall fifos_wf (channels t2)) as Hwf
    by (apply (prepare_fifos_wf rt t0 (F64.of_int 48000) 1 480)).
  destruct (load_facts rt p0 Hrp) as ((Hq1 & Hq2 & _) & _ & _). fold t1 in Hq1, Hq2.
  assert (allowFallback t2 = false /\ preferredProvider t2 = provider) as (Hf2 & Hp2)
    by (simpl; split; congruence).
  split.
  - intros tester Hrun Hready Hne.
    destruct (processBlock rt t2 _ F32.one) as [[tester' b'] | ] eqn:Hblock;
      simpl in Hrun; [ | done ].
    injection Hrun as ->.
    pose proof (processBlock_keeps rt _ _ _ _ _ Hblock) as Hlast.
    assert (forall t, same_settings t tester ->
              activeProvider t = provider /\
              isProviderUsable rt provider = true /\
              existsAsFile rt (modelPath t) = true /\
              is_Some (ortCreateSession rt (modelPath t) provider) ->
              activeProvider tester = provider /\
              isProviderUsable rt provider = true /\
              existsAsFile rt (modelPath tester) = true /\
              is_Some (ortCreateSession rt (modelPath tester) provider)) as Hmove.
    { intros t (_ & Ha & Hm) (? & ? & ? & ?). rewrite Ha, Hm. by split_and!. }
    destruct (isReady t1) eqn:Hr1.
    + (* the load in prepare succeeded *)
      assert (snd (loadDefaultModelIfNeeded rt p0) = true) as Hok
        by (rewrite (loadDefaultModelIfNeeded_ready rt p0); exact Hr1).
      pose proof (Hgood p0 Hrp Hfp Hpp Hne Hok) as Hfacts. simpl in Hfacts.
      fold t1 in Hfacts.
      assert (loadDefaultModelIfNeeded rt t2 = (t2, true)) as Hl2
        by (unfold loadDefaultModelIfNeeded; unfold isReady in *; simpl; by rewrite Hr1).
      rewrite Hl2 in Hlast. simpl in Hlast.
      apply (Hmove t2); [ | exact Hfacts ].
      destruct Hlast as [-> | (Hs & _)]; [ apply same_settings_refl | exact Hs ].
    + (* prepare left the tester without a session: processBlock loads again *)
      assert (isReady t2 = false) as Hr2 by exact Hr1.
      destruct Hlast as [-> | (Hs & Hr)]; [ congruence | ].
      rewrite Hready in Hr.
      apply (Hmove _ Hs). apply (Hgood t2 Hr2 Hf2 Hp2 Hne). by symmetry.
  - intros Hrw.
    assert (reads_within rt (resampleInRatio t2)) as Hrw2.
    { unfold t2, t1. simpl.
      destruct (loadDefaultModelIfNeeded_wiring rt p0) as (_ & -> & _). exact Hrw. }
    destruct (processBlock_effects rt t2
                {| numSamplesOf := 480; channelData := [replicate 480 F32.zero] |}
                F32.one Hwf Hrw2)
      as (tester & b' & -> & _).
    simpl. by exists tester.
Qed.

End Callers.

Section SourceFacts.
Context {OrtSession Interp : Type} (rt : Runtime OrtSession Interp).
Implicit Types (d : @OnnxDenoiser OrtSession Interp).
Import RingBuffer RingBufferFacts.

(** X19: [prepare] leaves exactly [newNumChannels] channels, each with empty
    well-formed FIFOs of capacity 15360, empty resampling scratch and
    frames of 480 samples, sets the two ratios from the sample rate, and
    keeps the preferences and a live session. *)
Theorem prepare_sets_up_channels d (newSampleRate : double) (newNumChannels maxBlockSize : Z) :
  0 <= newNumChannels ->
  let d' := prepare rt d newSampleRate newNumChannels maxBlockSize in
  Z.of_nat (length (channels d')) = newNumChannels /\
  Forall freshly_prepared (channels d') /\
  resampleInRatio d' = F64.div newSampleRate modelSampleRate /\
  resampleOutRatio d' = F64.div modelSampleRate newSampleRate /\
  enabled d' = enabled d /\ preferredProvider d' = preferredProvider d /\
  allowFallback d' = allowFallback d /\
  (isReady d = true -> isReady d' = true /\ activeProvider d' = activeProvider d).
Proof.
  intros Hn. simpl. unfold prepare.
  match goal with |- context [loadDefaultModelIfNeeded rt ?d0] => set (p0 := d0) end.
  destruct (loadDefaultModelIfNeeded_wiring rt p0) as (Hch & Hri & Hro).
  destruct (load_settings rt p0) as ((Hp & Ha & _ & _ & He) & Hready).
  rewrite Hch, Hri, Hro, Hp, Ha, He. simpl.
  split_and!; try done.
  - rewrite length_fmap. unfold resizeChannels.
    rewrite length_app, length_take, length_replicate. lia.
  - apply Forall_fmap, Forall_true. intros c. unfold freshly_prepared. simpl.
    split_and!; try done; try apply vec_resize_length.
    split; apply wf_resize.
  - intros Hr. rewrite (Hready Hr). simpl. done.
Qed.


(** *** DenoiseAudioSource *)



End SourceFacts.



Section SourceTheorem.
Context {OrtSession Interp : Type} (rt : Runtime OrtSession Interp).
Import RingBuffer RingBufferFacts.


End SourceTheorem.

(** ** Decrackle *)

Section DecrackleFacts.
Import Decrackle.
Lemma flagsOf_length data n s : length (flagsOf data n s) = Z.to_nat n.
Proof.
  unfold flagsOf.
  assert (forall l flags, length (fold_left (fun flags i =>
               let dy0 := F32.sub (at_ data (i - 1)) (at_ data (i - 2)) in
               let dy1 := F32.sub (at_ data i) (at_ data (i - 1)) in
               let dy2dx := F32.sub dy1 dy0 in
               if F32.ltb s (fabs dy2dx)
               then <[Z.to_nat (i - 1) := true]> flags else flags) l flags) = length flags) as H.
  { induction l as [ | i l IH ]; intros flags; simpl; [ done | ].
    rewrite IH. destruct (F32.ltb _ _); [ apply length_insert | done ]. }
  rewrite H. apply length_replicate.
Qed.

(** Only interior indices are ever flagged. *)
Lemma flagsOf_interior data n s j :
  0 <= j -> flag (flagsOf data n s) j = true -> 1 <= j <= n - 2.
Proof.
  intros Hj. unfold flagsOf.
  assert (forall l (flags : list bool),
            Forall (fun i => 2 <= i <= n - 1) l ->
            flag (fold_left (fun flags i =>
               let dy0 := F32.sub (at_ data (i - 1)) (at_ data (i - 2)) in
               let dy1 := F32.sub (at_ data i) (at_ data (i - 1)) in
               let dy2dx := F32.sub dy1 dy0 in
               if F32.ltb s (fabs dy2dx)
               then <[Z.to_nat (i - 1) := true]> flags else flags) l flags) j = true ->
            flag flags j = true \/ 1 <= j <= n - 2) as H.
  { induction l as [ | i l IH ]; intros flags Hl; simpl; [ by left | ].
    inversion Hl as [ | ? ? Hi Hl' ]; subst. intros Hf.
    destruct (IH _ Hl' Hf) as [Hset | ?]; [ | by right ].
    destruct (F32.ltb _ _); [ | by left ].
    destruct (decide (Z.to_nat (i - 1) = Z.to_nat j)) as [Heq | Hne].
    - right. lia.
    - left. unfold flag in *. by rewrite list_lookup_insert_ne in Hset. }
  intros Hf.
  assert (Forall (fun i => 2 <= i <= n - 1) (seqZ 2 (n - 2))) as Hall.
  { apply Forall_forall. intros i Hi. apply elem_of_seqZ in Hi. lia. }
  destruct (H _ _ Hall Hf) as [Hbad | ?]; [ | done ].
  unfold flag in Hbad.
  destruct (replicate (Z.to_nat n) false !! Z.to_nat j) as [b | ] eqn:Hb; [ | done ].
  apply lookup_replicate in Hb. destruct Hb as [-> _]. done.
Qed.

Lemma smoothStep_length flags n w temp i : length (smoothStep flags n w temp i) = length temp.
Proof.
  unfold smoothStep. destruct (flag flags i); [ apply length_insert | ].
  destruct (_ || _)%bool; [ apply length_insert | done ].
Qed.

Lemma smoothStep_other flags n w temp i j :
  0 <= i -> 0 <= j -> i <> j -> at_ (smoothStep flags n w temp i) j = at_ temp j.
Proof.
  intros Hi Hj Hne. unfold smoothStep, at_.
  destruct (flag flags i); [ apply list_lookup_total_insert_ne; lia | ].
  destruct (_ || _)%bool; [ apply list_lookup_total_insert_ne; lia | done ].
Qed.

Lemma smoothStep_quiet flags n w temp i :
  0 <= i < n -> quiet flags n i -> smoothStep flags n w temp i = temp.
Proof.
  intros Hi (H0 & H1 & H2). unfold smoothStep. rewrite H0. simpl.
  destruct (Z.ltb_spec 0 i); [ rewrite H1 by done | ]; simpl;
    (destruct (Z.ltb_spec (i + 1) n); [ rewrite H2 by done | ]; done).
Qed.

Lemma smooth_fold_quiet flags n w (m : nat) k temp j :
  0 <= k -> k + Z.of_nat m <= n -> 0 <= j < n ->
  quiet flags n j ->
  at_ (fold_left (smoothStep flags n w) (seqZ k (Z.of_nat m)) temp) j = at_ temp j.
Proof.
  revert k temp. induction m as [ | m IH ]; intros k temp Hk Hm Hj Hq; [ done | ].
  rewrite seqZ_cons by lia. simpl.
  replace (Z.pred (Z.of_nat (S m))) with (Z.of_nat m) by lia.
  rewrite IH; try done; try lia.
  destruct (decide (k = j)) as [-> | Hne].
  - rewrite smoothStep_quiet; [ done | lia | done ].
  - apply smoothStep_other; lia.
Qed.

Lemma smooth_fold_length flags n w l temp :
  length (fold_left (smoothStep flags n w) l temp) = length temp.
Proof.
  revert temp. induction l as [ | i l IH ]; intros temp; simpl; [ done | ].
  by rewrite IH, smoothStep_length.
Qed.

Lemma processData_quiet dc (numSamples width : Z) (data : list float32)
    (i : Z) :
  Z.of_nat (length data) = numSamples ->
  0 <= i < numSamples ->
  quiet (crackleFlags dc numSamples data) numSamples i ->
  at_ (processData dc numSamples width data) i = at_ data i.
Proof.
  intros Hlen Hi Hq. unfold processData, at_.
  rewrite memcpy_lookup; rewrite ?smooth_fold_length, ?length_take; try lia.
  destruct (Z.leb_spec 0 i); [ | lia ]. destruct (Z.ltb_spec i (0 + numSamples)); [ | lia ].
  simpl. replace (0 + (i - 0)) with i by lia.
  replace numSamples with (Z.of_nat (Z.to_nat numSamples)) at 3 by lia.
  change (at_ (fold_left (smoothStep (crackleFlags dc numSamples data) numSamples width)
                 (seqZ 0 (Z.of_nat (Z.to_nat numSamples)))
                 (take (Z.to_nat numSamples) data)) i = data !!! Z.to_nat i).
  rewrite smooth_fold_quiet by (try done; lia).
  unfold at_. apply lookup_total_take_lt. lia.
Qed.

Lemma sub_self_cases (x : float32) :
  F32.sub x x = S754_zero false \/ F32.sub x x = S754_nan.
Proof.
  destruct x as [ [] | [] | | s m e ]; try (by left); try (by right).
  left. unfold F32.sub, SFsub. rewrite Z.min_id.
  destruct s; simpl; unfold shl_align; rewrite Z.sub_diag; simpl;
    rewrite ?Z.pos_sub_diag; reflexivity.
Qed.

Lemma second_difference_of_constant (x : float32) :
  let d := F32.sub x x in
  fabs (F32.sub d d) = S754_zero false \/ fabs (F32.sub d d) = S754_nan.
Proof. simpl. destruct (sub_self_cases x) as [-> | ->]; [ by left | by right ]. Qed.

Lemma ltb_nan_r (s : float32) : F32.ltb s S754_nan = false.
Proof. by destruct s as [ [] | [] | | [] ? ? ]. Qed.

Lemma at_replicate (n : nat) (x : float32) (i : Z) :
  0 <= i < Z.of_nat n -> at_ (replicate n x) i = x.
Proof. intros Hi. unfold at_. apply lookup_total_replicate_2. lia. Qed.

Lemma absDeltaSum_constant_zero (n : nat) (x : float32) (N : Z) :
  N <= Z.of_nat n -> F32.sub x x = S754_zero false ->
  absDeltaSum (replicate n x) N = S754_zero false.
Proof.
  intros HN Hx. unfold absDeltaSum.
  assert (forall l acc, Forall (fun i => 1 <= i < N) l -> acc = S754_zero false ->
            fold_left (fun absSum i => dadd absSum
               (to_double (fabs (F32.sub (at_ (replicate n x) i) (at_ (replicate n x) (i - 1))))))
              l acc = S754_zero false) as H.
  { induction l as [ | i l IH ]; intros acc Hl ->; simpl; [ done | ].
    inversion Hl as [ | ? ? Hi Hl' ]; subst.
    apply IH; [ done | ]. rewrite !at_replicate by lia. rewrite Hx. reflexivity. }
  apply H; [ | reflexivity ].
  apply Forall_forall. intros i Hi. apply elem_of_seqZ in Hi. lia.
Qed.

Lemma scaledFactor_of_zero_sum_not_above_zero (factor : float32) (X : double) :
  F32.ltb (F32.mul factor (to_float (F64.div (S754_zero false) X))) (S754_zero false) = false.
Proof.
  destruct X as [ [] | [] | | [] m e ]; destruct factor as [ [] | [] | | [] m' e' ];
    reflexivity.
Qed.

Lemma flagsOf_none data n s :
  (forall i, 2 <= i < n ->
     F32.ltb s (fabs (F32.sub (F32.sub (at_ data i) (at_ data (i - 1)))
                        (F32.sub (at_ data (i - 1)) (at_ data (i - 2))))) = false) ->
  flagsOf data n s = replicate (Z.to_nat n) false.
Proof.
  intros Hno. unfold flagsOf.
  assert (forall l (flags : list bool), Forall (fun i => 2 <= i < n) l ->
            fold_left (fun flags i =>
               let dy0 := F32.sub (at_ data (i - 1)) (at_ data (i - 2)) in
               let dy1 := F32.sub (at_ data i) (at_ data (i - 1)) in
               let dy2dx := F32.sub dy1 dy0 in
               if F32.ltb s (fabs dy2dx)
               then <[Z.to_nat (i - 1) := true]> flags else flags) l flags = flags) as H.
  { induction l as [ | i l IH ]; intros flags Hl; simpl; [ done | ].
    inversion Hl as [ | ? ? Hi Hl' ]; subst. rewrite (Hno i Hi). by apply IH. }
  apply H. apply Forall_forall. intros i Hi. apply elem_of_seqZ in Hi. lia.
Qed.

Lemma flag_replicate_false n j : flag (replicate n false) j = false.
Proof.
  unfold flag. destruct (replicate n false !! Z.to_nat j) as [b | ] eqn:Hb; [ | done ].
  apply lookup_replicate in Hb. by destruct Hb as [-> _].
Qed.

Lemma crackleFlags_constant dc (n : nat) (x : float32) :
  crackleFlags dc (Z.of_nat n) (replicate n x) = replicate n false.
Proof.
  unfold crackleFlags. rewrite flagsOf_none; [ by rewrite Nat2Z.id | ].
  intros i Hi. rewrite !at_replicate by lia.
  destruct (sub_self_cases x) as [Hx | Hx]; rewrite Hx.
  - change (F32.sub (S754_zero false) (S754_zero false)) with (S754_zero false).
    change (fabs (S754_zero false)) with (S754_zero false).
    unfold scaledFactor, meanAbsDelta.
    destruct (Z.ltb_spec 1 (Z.of_nat n)); [ | lia ].
    rewrite absDeltaSum_constant_zero by (done || lia).
    apply scaledFactor_of_zero_sum_not_above_zero.
  - change (fabs (F32.sub S754_nan S754_nan)) with S754_nan. apply ltb_nan_r.
Qed.

Lemma processData_without_flags dc (numSamples width : Z) (data : list float32) :
  Z.of_nat (length data) = numSamples ->
  (forall j, flag (crackleFlags dc numSamples data) j = false) ->
  processData dc numSamples width data = data.
Proof.
  intros Hlen Hno. apply list_eq_total.
  { unfold processData. apply memcpy_length. }
  intros i Hi. unfold processData in Hi. rewrite memcpy_length in Hi.
  apply (processData_quiet dc numSamples width data i Hlen); [ lia | ].
  by split_and!.
Qed.

(** X26: a buffer whose channels are constant (whatever the value, NaN and
    infinities included) passes through [process] unchanged. *)
Theorem process_leaves_constant_channels_alone dc (buffer : AudioBuffer) :
  Forall (fun row => exists x, row = replicate (Z.to_nat (getNumSamples buffer)) x)
    (channelData buffer) ->
  process dc buffer = buffer.
Proof.
  intros Hrows. unfold process.
  destruct (_ || _)%bool eqn:Hshort; [ done | ].
  apply orb_false_elim in Hshort. destruct Hshort as [Hn _]. apply Z.ltb_ge in Hn.
  destruct buffer as [n rows]. simpl in *. f_equal.
  induction Hrows as [ | row rows (x & ->) _ IH ]; simpl; [ done | ].
  f_equal; [ | exact IH ].
  apply processData_without_flags.
  - unfold getNumSamples; simpl. rewrite length_replicate. lia.
  - intros j. unfold getNumSamples; simpl.
    replace n with (Z.of_nat (Z.to_nat n)) at 1 by lia.
    rewrite crackleFlags_constant. apply flag_replicate_false.
Qed.

(** [process] keeps the number of samples, the number of channels and
    the size of every channel, and returns buffers of fewer than three
    samples unchanged. *)
Lemma process_keeps_shape_and_short_buffers dc (buffer : AudioBuffer) :
  getNumSamples (process dc buffer) = getNumSamples buffer /\
  getNumChannels (process dc buffer) = getNumChannels buffer /\
  Forall2 (fun row row' => length row' = length row)
    (channelData buffer) (channelData (process dc buffer)) /\
  (getNumSamples buffer < 3 -> process dc buffer = buffer).
Proof.
  unfold process. destruct (_ || _)%bool eqn:Hshort.
  - split_and!; try done.
    apply Forall_Forall2_diag, Forall_true. done.
  - apply orb_false_elim in Hshort. destruct Hshort as [Hn _]. apply Z.ltb_ge in Hn.
    split_and!; try done.
    + unfold getNumChannels. simpl. by rewrite length_fmap.
    + simpl. apply Forall2_fmap_r, Forall_Forall2_diag, Forall_true.
      intros row. unfold processData. apply memcpy_length.
    + intros H. unfold getNumSamples in *. lia.
Qed.

(** X25: the first and the last sample of a channel are never flagged as
    crackle. *)
Theorem only_interior_samples_are_flagged dc (numSamples : Z) (data : list float32) (j : Z) :
  0 <= j ->
  flag (crackleFlags dc numSamples data) j = true ->
  1 <= j <= numSamples - 2.
Proof. intros Hj. unfold crackleFlags. by apply flagsOf_interior. Qed.

(** [setAverageWidth] clamps the width to 1..10 and keeps the factor. *)
Lemma setAverageWidth_clamps dc (newWidth : Z) :
  1 <= averageWidth (setAverageWidth dc newWidth) <= 10 /\
  (1 <= newWidth <= 10 -> averageWidth (setAverageWidth dc newWidth) = newWidth) /\
  (newWidth < 1 -> averageWidth (setAverageWidth dc newWidth) = 1) /\
  (10 < newWidth -> averageWidth (setAverageWidth dc newWidth) = 10) /\
  factor (setAverageWidth dc newWidth) = factor dc.
Proof.
  simpl. unfold jlimit_int.
  destruct (Z.ltb_spec newWidth 1), (Z.ltb_spec 10 newWidth); split_and!; try done; lia.
Qed.

(** X24: a sample that is not flagged and has no flagged neighbour keeps its
    value, whatever the averaging width. *)
Theorem processData_changes_only_near_flags dc (numSamples width : Z) (data : list float32)
    (i : Z) :
  Z.of_nat (length data) = numSamples ->
  0 <= i < numSamples ->
  quiet (crackleFlags dc numSamples data) numSamples i ->
  at_ (processData dc numSamples width data) i = at_ data i.
Proof. apply processData_quiet. Qed.

End DecrackleFacts.

(** ** The further statements at concrete inputs *)

Import Examples.

(** Clearing a buffer that holds three samples. *)
Lemma clear_empties_and_keeps_capacity_witness :
  RingBuffer.wf threeOfFour /\
  RingBuffer.wf (RingBuffer.clear threeOfFour) /\
  RingBuffer.capacity (RingBuffer.clear threeOfFour) = RingBuffer.capacity threeOfFour /\
  length (RingBuffer.buffer (RingBuffer.clear threeOfFour))
  = length (RingBuffer.buffer threeOfFour) /\
  RingBuffer.available (RingBuffer.clear threeOfFour) = 0 /\
  RingBuffer.contents (RingBuffer.clear threeOfFour) = [] /\
  forall data count, 0 <= count <= RingBuffer.capacity threeOfFour ->
    count <= Z.of_nat (length data) ->
    exists rb', RingBuffer.push (RingBuffer.clear threeOfFour) data count = Some rb' /\
                RingBuffer.contents rb' = take (Z.to_nat count) data.
Proof.
  split; [ apply RingBufferFacts.wfb_correct; vm_compute; reflexivity | ].
  apply (clear_empties_and_keeps_capacity threeOfFour).
  apply RingBufferFacts.wfb_correct. vm_compute. reflexivity.
Defined.

(** Two samples out of a buffer that holds three. *)
Lemma pop_hands_out_oldest_first_witness :
  RingBuffer.wf threeOfFour /\ 0 < 2 <= Z.of_nat (length (ramp 2)) /\
  exists rb' dest',
    RingBuffer.pop threeOfFour (ramp 2) 2 false
    = Some (rb', dest', Z.min 2 (RingBuffer.availableSamples threeOfFour)) /\
    RingBuffer.contents rb'
    = drop (Z.to_nat (Z.min 2 (RingBuffer.availableSamples threeOfFour)))
        (RingBuffer.contents threeOfFour).
Proof.
  assert (RingBuffer.wf threeOfFour) as Hwf
    by (apply RingBufferFacts.wfb_correct; vm_compute; reflexivity).
  assert (0 < 2 <= Z.of_nat (length (ramp 2))) as Hc by (simpl; lia).
  split; [ exact Hwf | ]. split; [ exact Hc | ].
  destruct (pop_hands_out_oldest_first threeOfFour (ramp 2) 2 false Hwf Hc)
    as (rb' & dest' & Hpop & _ & _ & _ & Hcont & _).
  exists rb', dest'. split; [ exact Hpop | exact Hcont ].
Defined.

(** One more sample into a buffer that holds three of four, then all four
    out. *)
Lemma push_then_pop_returns_everything_witness :
  RingBuffer.wf threeOfFour /\ 0 < 1 /\ 1 <= Z.of_nat (length (ramp 1)) /\
  RingBuffer.availableSamples threeOfFour + 1 <= RingBuffer.capacity threeOfFour /\
  length (ramp 4) = Z.to_nat (RingBuffer.availableSamples threeOfFour + 1) /\
  exists rb1 rb2,
    RingBuffer.push threeOfFour (ramp 1) 1 = Some rb1 /\
    RingBuffer.pop rb1 (ramp 4) (RingBuffer.availableSamples threeOfFour + 1) false
    = Some (rb2, RingBuffer.contents threeOfFour ++ take (Z.to_nat 1) (ramp 1),
            RingBuffer.availableSamples threeOfFour + 1) /\
    RingBuffer.wf rb2 /\ RingBuffer.available rb2 = 0 /\ RingBuffer.contents rb2 = [].
Proof.
  assert (RingBuffer.wf threeOfFour) as Hwf
    by (apply RingBufferFacts.wfb_correct; vm_compute; reflexivity).
  assert (RingBuffer.availableSamples threeOfFour + 1 <= RingBuffer.capacity threeOfFour)
    as Hroom by (vm_compute; discriminate).
  assert (length (ramp 4) = Z.to_nat (RingBuffer.availableSamples threeOfFour + 1))
    as Hdest by (vm_compute; reflexivity).
  split_and!; [ exact Hwf | lia | simpl; lia | exact Hroom | exact Hdest | ].
  apply (push_then_pop_returns_everything threeOfFour (ramp 1) 1 (ramp 4) Hwf);
    [ lia | simpl; lia | exact Hroom | exact Hdest ].
Defined.

(** DirectML is not part of the build of the example runtime: the attempt
    fails and the session of the ready denoiser is gone. *)
Lemma failed_attempt_destroys_session_witness :
  isReady (prepared true true 1 512) = true /\
  existsAsFile (rt true true) "model.onnx"%string = true /\
  snd (tryCreateSessionForProvider (rt true true) (prepared true true 1 512) "model.onnx"%string dml)
  = false /\
  isReady (fst (tryCreateSessionForProvider (rt true true) (prepared true true 1 512)
                  "model.onnx"%string dml)) = false.
Proof.
  split_and!; [ vm_compute; reflexivity | vm_compute; reflexivity
              | vm_compute; reflexivity | ].
  apply (failed_attempt_destroys_session (rt true true) (prepared true true 1 512)
           "model.onnx"%string dml); vm_compute; reflexivity.
Defined.

(** A configured model path and the default preferences: the CPU session. *)
Lemma loaded_session_comes_from_fallback_order_witness :
  isReady unloaded = false /\
  snd (loadDefaultModelIfNeeded (rt true true) unloaded)
  = true /\
  activeProvider (fst (loadDefaultModelIfNeeded (rt true true)
                         unloaded))
  ∈ getProviderFallbackOrder unloaded.
Proof.
  split_and!; [ vm_compute; reflexivity | vm_compute; reflexivity | ].
  apply (loaded_session_comes_from_fallback_order (rt true true)
           unloaded);
    vm_compute; reflexivity.
Defined.

(** The CPU preferred, fallback off. *)
Lemma no_fallback_means_preferred_provider_witness :
  isReady cpuOnly = false /\ allowFallback cpuOnly = false /\
  preferredProvider cpuOnly <> autoSelect /\
  snd (loadDefaultModelIfNeeded (rt true true) cpuOnly) = true /\
  activeProvider (fst (loadDefaultModelIfNeeded (rt true true) cpuOnly))
  = preferredProvider cpuOnly.
Proof.
  split_and!; [ vm_compute; reflexivity | vm_compute; reflexivity | vm_compute; discriminate
              | vm_compute; reflexivity | ].
  apply (no_fallback_means_preferred_provider (rt true true) cpuOnly);
    [ vm_compute; reflexivity | vm_compute; reflexivity | vm_compute; discriminate
    | vm_compute; reflexivity ].
Defined.

(** No model file anywhere. *)
Lemma failed_load_changes_nothing_visible_witness :
  isReady (prepared false true 1 512) = false /\
  snd (loadDefaultModelIfNeeded (rt false true) (prepared false true 1 512)) = false /\
  isReady (fst (loadDefaultModelIfNeeded (rt false true) (prepared false true 1 512)))
  = false /\
  channels (fst (loadDefaultModelIfNeeded (rt false true) (prepared false true 1 512)))
  = channels (prepared false true 1 512).
Proof.
  assert (isReady (prepared false true 1 512) = false) as H0 by (vm_compute; reflexivity).
  assert (snd (loadDefaultModelIfNeeded (rt false true) (prepared false true 1 512)) = false)
    as H1 by (vm_compute; reflexivity).
  destruct (failed_load_changes_nothing_visible (rt false true) (prepared false true 1 512)
              H0 H1) as (Hr & _ & _ & _ & _ & _ & Hc).
  split_and!; [ exact H0 | exact H1 | exact Hr | exact Hc ].
Defined.

(** The identity model on a frame of three samples with room for four. *)
Lemma runModel_copies_and_pads_witness :
  session (prepared true true 1 512) = Some tt /\
  ortRun (rt true true) tt (inputName (prepared true true 1 512))
    (outputName (prepared true true 1 512))
    (resolveInputShape (prepared true true 1 512) 3) (take (Z.to_nat 3) (ramp 3))
  = (tt, RunOutputs (Some (ramp 3) :: [])) /\
  0 <= 3 <= Z.of_nat (length (ramp 4)) /\
  runModel (rt true true) (prepared true true 1 512) (ramp 3) (ramp 4) 3
  = (with_session (prepared true true 1 512) (Some tt),
     take (Z.to_nat 3) (ramp 3)
     ++ replicate (Z.to_nat 3 - length (ramp 3)) F32.zero
     ++ drop (Z.to_nat 3) (ramp 4),
     true).
Proof.
  split; [ vm_compute; reflexivity | ]. split; [ vm_compute; reflexivity | ].
  split; [ simpl; lia | ].
  apply (runModel_copies_and_pads (rt true true) (prepared true true 1 512) tt tt
           (ramp 3) [] (ramp 3) (ramp 4) 3);
    [ vm_compute; reflexivity | vm_compute; reflexivity | simpl; lia ].
Defined.

(** A channel with 500 samples in its input FIFO and the identity model. *)
Lemma frame_output_pushed_when_inference_succeeds_witness :
  fifos_wf fedChannel /\
  modelFrameSize <= RingBuffer.available (inputFifo fedChannel) /\
  length (frameIn fedChannel) = Z.to_nat modelFrameSize /\
  length (frameOut fedChannel) = Z.to_nat modelFrameSize /\
  modelFrameSize <= RingBuffer.capacity (outputFifo fedChannel) /\
  snd (runModel (rt true true) (prepared true true 1 512)
         (take (Z.to_nat modelFrameSize) (RingBuffer.contents (inputFifo fedChannel)))
         (frameOut fedChannel) modelFrameSize) = true /\
  exists d' state',
    frameStep (rt true true) (prepared true true 1 512) fedChannel = Some (d', state') /\
    RingBuffer.contents (inputFifo state')
    = drop (Z.to_nat modelFrameSize) (RingBuffer.contents (inputFifo fedChannel)).
Proof.
  assert (fifos_wf fedChannel) as Hwf
    by (apply fifos_wfb_correct; vm_compute; reflexivity).
  assert (modelFrameSize <= RingBuffer.available (inputFifo fedChannel)) as Hav
    by (vm_compute; discriminate).
  assert (length (frameIn fedChannel) = Z.to_nat modelFrameSize) as Hlen
    by (vm_compute; reflexivity).
  assert (length (frameOut fedChannel) = Z.to_nat modelFrameSize) as Hlen'
    by (vm_compute; reflexivity).
  assert (modelFrameSize <= RingBuffer.capacity (outputFifo fedChannel)) as Hcap
    by (vm_compute; discriminate).
  assert (snd (runModel (rt true true) (prepared true true 1 512)
                 (take (Z.to_nat modelFrameSize) (RingBuffer.contents (inputFifo fedChannel)))
                 (frameOut fedChannel) modelFrameSize) = true) as Hrun
    by (vm_compute; reflexivity).
  split_and!; try done.
  destruct (frame_output_pushed_when_inference_succeeds (rt true true)
              (prepared true true 1 512) fedChannel Hwf Hav Hlen Hlen' Hcap Hrun)
    as (d' & state' & Hstep & _ & _ & _ & Hin & _).
  exists d', state'. split; [ exact Hstep | exact Hin ].
Defined.

(** A mix of zero on a ready, enabled denoiser. *)
Lemma processBlock_dry_bypass_witness :
  nonpositive F32.zero = true /\
  processBlock (rt true true) (prepared true true 1 512) twoOnes F32.zero
  = Some (prepared true true 1 512, twoOnes).
Proof.
  split; [ reflexivity | ].
  apply (processBlock_dry_bypass (rt true true) (prepared true true 1 512) twoOnes F32.zero).
  reflexivity.
Defined.




(** The test of the CPU with the model file in place: the tester is ready
    and runs on the CPU. *)
Lemma provider_test_never_passes_through_fallback_witness :
  reads_within (rt true true) (F64.div (F64.of_int 48000) modelSampleRate) /\
  exists tester,
    runProviderTest (rt true true) cpuSettings cpu = Some tester /\
    isReady tester = true /\ activeProvider tester = cpu.
Proof.
  assert (reads_within (rt true true) (F64.div (F64.of_int 48000) modelSampleRate)) as Hrw
    by (intros st input numOut; simpl; lia).
  split; [ exact Hrw | ].
  destruct (provider_test_never_passes_through_fallback (rt true true) cpuSettings cpu)
    as (Hsuccess & Hreturns).
  destruct (Hreturns Hrw) as (tester & Hrun).
  assert (isReady tester = true) as Hready.
  { revert Hrun. vm_compute. intros Hrun. injection Hrun as <-. reflexivity. }
  exists tester. split; [ exact Hrun | ]. split; [ exact Hready | ].
  destruct (Hsuccess tester Hrun Hready) as (Hactive & _); [ discriminate | exact Hactive ].
Defined.

(** Two channels at 48 kHz. *)
Lemma prepare_sets_up_channels_witness :
  0 <= 2 /\
  Z.of_nat (length (channels (prepare (rt true true) newOnnxDenoiser (F64.of_int 48000) 2 512)))
  = 2 /\
  Forall freshly_prepared
    (channels (prepare (rt true true) newOnnxDenoiser (F64.of_int 48000) 2 512)).
Proof.
  split; [ lia | ].
  destruct (prepare_sets_up_channels (rt true true) newOnnxDenoiser (F64.of_int 48000) 2 512)
    as (Hn & Hf & _); [ lia | ].
  split; [ exact Hn | exact Hf ].
Defined.



(** A click in a ramp: the sample two places after the flagged ones keeps
    its value. *)
Lemma processData_changes_only_near_flags_witness :
  Z.of_nat (length click) = 8 /\ 0 <= 6 < 8 /\
  Decrackle.quiet (Decrackle.crackleFlags Decrackle.init 8 click) 8 6 /\
  Decrackle.at_ (Decrackle.processData Decrackle.init 8 3 click) 6 = Decrackle.at_ click 6.
Proof.
  assert (Decrackle.quiet (Decrackle.crackleFlags Decrackle.init 8 click) 8 6) as Hq
    by (split_and!; intros; vm_compute; reflexivity).
  split; [ reflexivity | ]. split; [ lia | ]. split; [ exact Hq | ].
  apply (processData_changes_only_near_flags Decrackle.init 8 3 click 6);
    [ reflexivity | lia | exact Hq ].
Defined.

(** The click itself is flagged, and it is an interior sample. *)
Lemma only_interior_samples_are_flagged_witness :
  0 <= 3 /\ Decrackle.flag (Decrackle.crackleFlags Decrackle.init 8 click) 3 = true /\
  1 <= 3 <= 8 - 2.
Proof.
  split; [ lia | ]. split; [ vm_compute; reflexivity | ].
  apply (only_interior_samples_are_flagged Decrackle.init 8 click 3);
    [ lia | vm_compute; reflexivity ].
Defined.

(** Two channels of four samples, silence and a constant 1. *)
Lemma process_leaves_constant_channels_alone_witness :
  Forall (fun row => exists x, row = replicate (Z.to_nat (getNumSamples constantBlock)) x)
    (channelData constantBlock) /\
  Decrackle.process Decrackle.init constantBlock = constantBlock.
Proof.
  assert (Forall (fun row => exists x, row = replicate (Z.to_nat (getNumSamples constantBlock)) x)
            (channelData constantBlock)) as Hrows
    by (repeat constructor; eexists; reflexivity).
  split; [ exact Hrows | ].
  apply (process_leaves_constant_channels_alone Decrackle.init constantBlock Hrows).
Defined.
